(** * The flow execution core of lib/flow_context.py

    A shallow embedding of [HuntFlowContext], [FlowContext] and
    [FlowManager].  Python objects become records, attribute assignment
    becomes explicit state passing, and every call that leaves the module
    (data store, scheduler, stats, the flow object) is appended to a call
    journal carried by the [World]. *)

From Stdlib Require Import ZArith Lia Ascii.
From stdpp Require Import gmap strings list sorting.

Open Scope Z_scope.

(** ** jobs_pb2: the protocol buffers *)

Inductive MessageType := MESSAGE | STATUS.
Inductive AuthState := UNSET | AUTHENTICATED.
Inductive StatusCode := OK | GENERIC_ERROR.
Inductive FlowState := RUNNING | TERMINATED | ERROR.

#[global] Instance MessageType_eq_dec : EqDecision MessageType.
Proof. solve_decision. Defined.
#[global] Instance FlowState_eq_dec : EqDecision FlowState.
Proof. solve_decision. Defined.

(** [cpu_time_used]: the two counters are only copied and added by this
    module; they are kept as integers (ticks). *)
Module CpuSeconds.
Record t := mk { user_cpu_time : Z; system_cpu_time : Z }.
Definition default := mk 0 0.
End CpuSeconds.

Module GrrStatus.
Record t := mk {
  status : StatusCode;
  error_message : string;
  cpu_time_used : CpuSeconds.t;
  network_bytes_sent : Z;
  child_session_id : string
}.
(** [jobs_pb2.GrrStatus()] *)
Definition default := mk OK "" CpuSeconds.default 0 "".
Definition set_status (v : StatusCode) (s : t) :=
  mk v (error_message s) (cpu_time_used s) (network_bytes_sent s)
     (child_session_id s).
Definition set_error_message (v : string) (s : t) :=
  mk (status s) v (cpu_time_used s) (network_bytes_sent s)
     (child_session_id s).
Definition set_cpu_time_used (v : CpuSeconds.t) (s : t) :=
  mk (status s) (error_message s) v (network_bytes_sent s)
     (child_session_id s).
Definition set_network_bytes_sent (v : Z) (s : t) :=
  mk (status s) (error_message s) (cpu_time_used s) v (child_session_id s).
Definition set_child_session_id (v : string) (s : t) :=
  mk (status s) (error_message s) (cpu_time_used s) (network_bytes_sent s) v.
End GrrStatus.

(** A protobuf handed to [SerializeToString]: either a [GrrStatus] (the
    only class this module tests with [isinstance]) or any other message,
    kept as its bytes. *)
Inductive Payload :=
| PStatus (s : GrrStatus.t)
| PProto (bytes : string).

Definition is_GrrStatus (p : Payload) : bool :=
  match p with PStatus _ => true | PProto _ => false end.

Module GrrMessage.
Record t := mk {
  session_id : string;
  name : string;
  request_id : Z;
  response_id : Z;
  type : MessageType;
  auth_state : AuthState;
  priority : Z;
  args : Payload
}.
(** [jobs_pb2.GrrMessage()] *)
Definition default := mk "" "" 0 0 MESSAGE UNSET 0 (PProto "").
Definition set_type (v : MessageType) (m : t) :=
  mk (session_id m) (name m) (request_id m) (response_id m) v
     (auth_state m) (priority m) (args m).
End GrrMessage.

Module RequestState.
Record t := mk {
  id : Z;
  session_id : string;
  client_id : string;
  next_state : string;
  flow_name : string;
  response_count : Z;
  data : list (string * string);
  request : GrrMessage.t;
  ts_id : Z;
  transmission_count : Z
}.
(** [jobs_pb2.RequestState()] *)
Definition default := mk 0 "" "" "" "" 0 [] GrrMessage.default 0 0.
Definition set_response_count (v : Z) (r : t) :=
  mk (id r) (session_id r) (client_id r) (next_state r) (flow_name r) v
     (data r) (request r) (ts_id r) (transmission_count r).
Definition set_ts_id (v : Z) (r : t) :=
  mk (id r) (session_id r) (client_id r) (next_state r) (flow_name r)
     (response_count r) (data r) (request r) v (transmission_count r).
Definition set_transmission_count (v : Z) (r : t) :=
  mk (id r) (session_id r) (client_id r) (next_state r) (flow_name r)
     (response_count r) (data r) (request r) (ts_id r) v.
End RequestState.

Module FlowPB.
Record t := mk {
  session_id : string;
  state : FlowState;
  name : string;
  creator : string;
  event_id : string;
  priority : Z;
  client_id : string;
  request_state : option RequestState.t;   (* HasField("request_state") *)
  children : list string;
  cpu_used : CpuSeconds.t;
  network_bytes_sent : Z;
  backtrace : string
}.
Definition set_state (v : FlowState) (p : t) :=
  mk (session_id p) v (name p) (creator p) (event_id p) (priority p)
     (client_id p) (request_state p) (children p) (cpu_used p)
     (network_bytes_sent p) (backtrace p).
Definition set_request_state (v : option RequestState.t) (p : t) :=
  mk (session_id p) (state p) (name p) (creator p) (event_id p) (priority p)
     (client_id p) v (children p) (cpu_used p)
     (network_bytes_sent p) (backtrace p).
Definition set_children (v : list string) (p : t) :=
  mk (session_id p) (state p) (name p) (creator p) (event_id p) (priority p)
     (client_id p) (request_state p) v (cpu_used p)
     (network_bytes_sent p) (backtrace p).
Definition set_backtrace (v : string) (p : t) :=
  mk (session_id p) (state p) (name p) (creator p) (event_id p) (priority p)
     (client_id p) (request_state p) (children p) (cpu_used p)
     (network_bytes_sent p) v.
End FlowPB.

(** What [SerializeToString] leaves in the data store.  Serialization is
    taken to be loss-free, so a stored value is the message itself. *)
Inductive Serialized :=
| SerRequest (r : RequestState.t)
| SerMessage (m : GrrMessage.t).

(** [request = RequestState(); request.ParseFromString(serialized)] *)
Definition parse_RequestState (s : Serialized) : RequestState.t :=
  match s with SerRequest r => r | SerMessage _ => RequestState.default end.

(** [response = GrrMessage(); response.ParseFromString(serialized)] *)
Definition parse_GrrMessage (s : Serialized) : GrrMessage.t :=
  match s with SerMessage m => m | SerRequest _ => GrrMessage.default end.

(** ** Python helpers *)

(** Truthiness of a [str]. *)
Definition truthy (s : string) : bool := negb (String.eqb s "").

(** [a or b] where [a] is a protobuf string field and [b] may be [None]. *)
Definition str_or (a : string) (b : option string) : option string :=
  if truthy a then Some a else b.

(** [a or b] where both may be [None]. *)
Definition opt_or (a b : option string) : option string :=
  match a with
  | Some s => if truthy s then a else b
  | None => b
  end.

(** A [None] passed for a protobuf string field leaves the field unset. *)
Definition field_of (a : option string) : string := default "" a.

(** [s.split(":")] *)
Fixpoint split_colon_aux (cur : string) (s : string) : list string :=
  match s with
  | EmptyString => [String.rev cur]
  | String c s' =>
      if Ascii.eqb c ":"%char
      then String.rev cur :: split_colon_aux EmptyString s'
      else split_colon_aux (String c cur) s'
  end.
Definition split_colon (s : string) : list string :=
  split_colon_aux EmptyString s.

(** ["%X" % n] for [0 <= n]. *)
Definition hex_digit (d : Z) : ascii :=
  match d with
  | 0 => "0" | 1 => "1" | 2 => "2" | 3 => "3" | 4 => "4" | 5 => "5"
  | 6 => "6" | 7 => "7" | 8 => "8" | 9 => "9" | 10 => "A" | 11 => "B"
  | 12 => "C" | 13 => "D" | 14 => "E" | _ => "F"
  end%char.

Fixpoint hex_aux (fuel : nat) (n : Z) (acc : string) : string :=
  let acc' := String (hex_digit (n mod 16)) acc in
  match fuel with
  | O => acc'
  | S fuel' => if n / 16 =? 0 then acc' else hex_aux fuel' (n / 16) acc'
  end.
Definition hex (n : Z) : string := hex_aux (Z.to_nat (Z.log2 n)) n EmptyString.

Fixpoint zeros (k : nat) : string :=
  match k with O => EmptyString | S k' => String "0"%char (zeros k') end.

(** ["%08X" % n]: upper-case hexadecimal, zero-padded to eight columns
    (the sign, if any, counts as a column). *)
Definition hex8 (n : Z) : string :=
  if n <? 0
  then let h := hex (- n) in
       String "-"%char (zeros (7 - String.length h) +:+ h)
  else let h := hex n in zeros (8 - String.length h) +:+ h.

(** ** The outside world: data store, scheduler, journal *)

(** [scheduler.SCHEDULER.Task(queue=..., value=...)]; [id] is filled in by
    [Schedule]. *)
Module Task.
Record t := mk { queue : string; id : Z; value : GrrMessage.t }.
Definition set_id (v : Z) (k : t) := mk (queue k) v (value k).
End Task.

(** Every call that leaves flow_context.py, in the order it is made. *)
Inductive Call :=
| DB_MultiSet (subject : string) (to_write : gmap string (list Serialized))
              (to_delete : list string) (sync : bool)
| DB_DeleteSubject (subject : string)
| SCHEDULER_Schedule (tasks : list Task.t) (sync : bool)
| SCHEDULER_Delete (queue : option string) (ids : list Z)
| SCHEDULER_NotifyQueue (queue session_id : string)
| STATS_Increment (varname : string)
| STATS_Add (varname : string) (n : Z)
| FLOW_Log (msg : string)
| FLOW_LogClientError (client_id : option string) (backtrace : option string)
| FLOW_Save (pb : FlowPB.t)
| FLOW_Notify (kind : string) (subject : option string) (msg : string)
| PDB_set_trace.

(** One stored attribute: subject, predicate, value. *)
Definition Row : Type := string * string * Serialized.

Record World := mkWorld {
  db : list Row;          (* data_store.DB *)
  next_task_id : Z;       (* the scheduler's id source *)
  journal : list Call
}.

Definition set_db (v : list Row) (w : World) :=
  mkWorld v (next_task_id w) (journal w).
Definition record (c : Call) (w : World) :=
  mkWorld (db w) (next_task_id w) (journal w ++ [c]).

(** A regular expression of the only shape this module uses: literal
    characters closed by [.*]. *)
Fixpoint regex_match (re s : string) : bool :=
  match re with
  | EmptyString => match s with EmptyString => true | _ => false end
  | String c re' =>
      if Ascii.eqb c "."%char && String.eqb re' "*" then true
      else match s with
           | EmptyString => false
           | String d s' => Ascii.eqb c d && regex_match re' s'
           end
  end.

(** Modelled from the spec: [data_store.ResolveRegex] is not part of this
    module.  "ResolveRegex(subject, pattern, limit, token) -> [(key, value,
    timestamp)]", a bounded range scan: at most [limit] of the subject's
    attributes whose predicate matches, in the store's own order.  The
    timestamp is dropped, no caller looks at it. *)
Definition ResolveRegex (rows : list Row) (subject regex : string) (limit : Z)
  : list (string * Serialized) :=
  take (Z.to_nat limit)
       (List.map (fun row : Row => (row.1.2, row.2))
          (List.filter
             (fun row : Row =>
                String.eqb row.1.1 subject && regex_match regex row.1.2)
             rows)).

(** [s in l] for a list of strings. *)
Definition mem_string (s : string) (l : list string) : bool :=
  existsb (String.eqb s) l.

(** Modelled from the spec: [data_store.MultiSet] is not part of this
    module.  "MultiSet(subject, {key -> [value]}, to_delete, sync, token)",
    an atomic multi-write and multi-delete: the predicates in [to_delete]
    are cleared, then each key is set to the last value queued for it. *)
Definition db_set (subject : string) (rows : list Row)
    (kv : string * list Serialized) : list Row :=
  match last kv.2 with
  | None => rows
  | Some v =>
      List.filter
        (fun row : Row =>
           negb (String.eqb row.1.1 subject && String.eqb row.1.2 kv.1))
        rows ++ [(subject, kv.1, v)]
  end.

(** Modelled from the spec: [data_store.MultiSet], on the rows of the
    store: the deletions first, then the writes. *)
Definition db_MultiSet (rows : list Row) (subject : string)
    (to_write : gmap string (list Serialized)) (to_delete : list string)
  : list Row :=
  fold_left (db_set subject) (map_to_list to_write)
    (List.filter
       (fun row : Row =>
          negb (String.eqb row.1.1 subject && mem_string row.1.2 to_delete))
       rows).

(** Modelled from the spec: [data_store.DeleteSubject] is not part of this
    module.  "delete the whole session subject". *)
Definition db_DeleteSubject (rows : list Row) (subject : string) : list Row :=
  List.filter (fun row : Row => negb (String.eqb row.1.1 subject)) rows.

(** Modelled from the spec: the call [self.data_store.MultiSet(...)], its
    effect on the store and its entry in the journal. *)
Definition MultiSet (subject : string)
    (to_write : gmap string (list Serialized)) (to_delete : list string)
    (sync : bool) (w : World) : World :=
  record (DB_MultiSet subject to_write to_delete sync)
    (set_db (db_MultiSet (db w) subject to_write to_delete) w).

(** Modelled from the spec: the call [self.data_store.DeleteSubject(...)]. *)
Definition DeleteSubject (subject : string) (w : World) : World :=
  record (DB_DeleteSubject subject)
    (set_db (db_DeleteSubject (db w) subject) w).

(** Modelled from the spec: [scheduler.SCHEDULER.Schedule] is not part of
    this module.  "Schedule(tasks, sync): enqueues tasks; on return each
    task carries a stable id".  Ids are drawn consecutively from the
    scheduler's id source. *)
Fixpoint assign_ids (next : Z) (tasks : list Task.t) : list Task.t :=
  match tasks with
  | [] => []
  | k :: tasks' => Task.set_id next k :: assign_ids (next + 1) tasks'
  end.

(** Modelled from the spec: the call [scheduler.SCHEDULER.Schedule(tasks,
    sync=...)]; the tasks come back with their ids, and the call is
    journalled with them. *)
Definition Schedule (tasks : list Task.t) (sync : bool) (w : World)
  : list Task.t * World :=
  let tasks' := assign_ids (next_task_id w) tasks in
  (tasks',
   record (SCHEDULER_Schedule tasks' sync)
     (mkWorld (db w) (next_task_id w + Z.of_nat (length tasks)) (journal w))).

(** Modelled from the spec: [scheduler.SCHEDULER.Delete] is not part of
    this module.  "Delete(queue, ids): best-effort dequeue"; the call is
    journalled with its queue and ids. *)
Definition SchedulerDelete (queue : option string) (ids : list Z) (w : World) :=
  record (SCHEDULER_Delete queue ids) w.

(** Modelled from the spec: [scheduler.SCHEDULER.NotifyQueue] is not part
    of this module.  "Notify(queue, session_id): signals that session
    session_id has work on queue"; the call is journalled. *)
Definition NotifyQueue (queue session_id : string) (w : World) :=
  record (SCHEDULER_NotifyQueue queue session_id) w.

(** ** class FlowManager *)

Definition FLOW_REQUEST_PREFIX := "flow:request:".
Definition FLOW_REQUEST_TEMPLATE (id : Z) := FLOW_REQUEST_PREFIX +:+ hex8 id.
Definition FLOW_REQUEST_REGEX := FLOW_REQUEST_PREFIX +:+ ".*".
Definition FLOW_RESPONSE_PREFIX (request_id : Z) :=
  "flow:response:" +:+ hex8 request_id +:+ ":".
Definition FLOW_RESPONSE_TEMPLATE (request_id response_id : Z) :=
  FLOW_RESPONSE_PREFIX request_id +:+ hex8 response_id.
Definition FLOW_RESPONSE_REGEX := "flow:response:.*".
Definition FLOW_STATE_TEMPLATE (session_id : string) :=
  "task:" +:+ session_id +:+ ":state".

Definition request_limit : Z := 10000.
Definition response_limit : Z := 100000.

Module FlowManager.
Record t := mk {
  session_id : string;
  subject : string;
  sync : bool;
  to_write : gmap string (list Serialized);
  to_delete : list string;
  client_messages : list Z;
  client_id : option string
}.
End FlowManager.

(** [FlowManager.__init__] (with [sync] at its default) *)
Definition FlowManager_init (session_id : string) : FlowManager.t :=
  FlowManager.mk session_id (FLOW_STATE_TEMPLATE session_id) true ∅ [] [] None.

(** What a generator does, as seen by the loop that drains it. *)
Inductive GenEvent :=
| Yield (request : RequestState.t) (responses : list GrrMessage.t)
| RaiseMoreData.

(** One entry of [state_map]; an absent dictionary key is [None]. *)
Module Meta.
Record t := mk {
  REQUEST_STATE : option RequestState.t;
  RESPONSES : option (list GrrMessage.t)
}.
Definition empty := mk None None.
End Meta.

(** [sorted(...)] on the rows of a scan.  Python orders the tuples by
    predicate first; predicates are unique within a subject, so nothing
    else is ever compared. *)
Definition row_le (a b : string * Serialized) : Prop :=
  String.leb a.1 b.1 = true.
#[global] Instance row_le_dec a b : Decision (row_le a b).
Proof. unfold row_le. apply _. Defined.
Definition sorted_rows (rows : list (string * Serialized)) :=
  merge_sort row_le rows.

(** [predicate.split(":")[2]]; every predicate that matched one of the two
    regexes has that component. *)
Definition component2 (predicate : string) : string :=
  default "" (split_colon predicate !! 2%nat).

(** Body of the first loop of [FetchRequestsAndResponses]. *)
Definition request_step (acc : gmap Z Meta.t * string * Z)
    (row : string * Serialized) : gmap Z Meta.t * string * Z :=
  let '(state_map, _, request_count) := acc in
  let max_request_id := component2 row.1 in
  let request := parse_RequestState row.2 in
  let meta_data := default Meta.empty (state_map !! RequestState.id request) in
  (<[RequestState.id request :=
       Meta.mk (Some request) (Meta.RESPONSES meta_data)]> state_map,
   max_request_id, request_count + 1).

(** The second loop, with its [break]. *)
Fixpoint response_loop (max_request_id : string)
    (rows : list (string * Serialized))
    (state_map : gmap Z Meta.t) (response_count : Z)
  : gmap Z Meta.t * Z :=
  match rows with
  | [] => (state_map, response_count)
  | row :: rows' =>
      let response_count := response_count + 1 in
      if String.ltb max_request_id (component2 row.1)
      then (state_map, response_count)
      else
        let response := parse_GrrMessage row.2 in
        match state_map !! GrrMessage.request_id response with
        | Some meta_data =>
            let responses := default [] (Meta.RESPONSES meta_data) in
            response_loop max_request_id rows'
              (<[GrrMessage.request_id response :=
                   Meta.mk (Meta.REQUEST_STATE meta_data)
                           (Some (responses ++ [response]))]> state_map)
              response_count
        | None => response_loop max_request_id rows' state_map response_count
        end
  end.

(** The third loop: [for request_id in sorted(state_map)], where an entry
    without a ["REQUEST_STATE"] raises the [KeyError] that is passed over. *)
Definition yield_of (state_map : gmap Z Meta.t) (request_id : Z)
  : option GenEvent :=
  match state_map !! request_id with
  | Some metadata =>
      match Meta.REQUEST_STATE metadata with
      | Some request => Some (Yield request (default [] (Meta.RESPONSES metadata)))
      | None => None
      end
  | None => None
  end.

Definition sorted_keys (state_map : gmap Z Meta.t) : list Z :=
  merge_sort Z.le (map_to_list state_map).*1.

Record Scan := mkScan {
  scan_map : gmap Z Meta.t;
  scan_request_count : Z;
  scan_response_count : Z
}.

(** The two range scans and the join, up to the first [yield]. *)
Definition fetch_scan (fm : FlowManager.t) (w : World) : Scan :=
  let subject := FLOW_STATE_TEMPLATE (FlowManager.session_id fm) in
  let state_map : gmap Z Meta.t :=
    {[ 0 := Meta.mk (Some RequestState.default) None ]} in
  let '(state_map, max_request_id, request_count) :=
    fold_left request_step
      (sorted_rows (ResolveRegex (db w) subject FLOW_REQUEST_REGEX request_limit))
      (state_map, "00000000", 0) in
  let '(state_map, response_count) :=
    response_loop max_request_id
      (sorted_rows (ResolveRegex (db w) subject FLOW_RESPONSE_REGEX response_limit))
      state_map 0 in
  mkScan state_map request_count response_count.

Definition FetchRequestsAndResponses (fm : FlowManager.t) (w : World)
  : list GenEvent :=
  let s := fetch_scan fm w in
  omap (yield_of (scan_map s)) (sorted_keys (scan_map s))
  ++ (if (request_limit <=? scan_request_count s)
         || (response_limit <=? scan_response_count s)
      then [RaiseMoreData] else []).

(** [FlowManager.DeleteFlowRequestStates].  A protobuf message object is
    always true in a boolean context; [None] is what a well known flow's
    manager yields in place of a request. *)
Definition DeleteFlowRequestStates (fm : FlowManager.t)
    (request_state : option RequestState.t) (responses : list GrrMessage.t)
  : FlowManager.t :=
  let fm :=
    match request_state with
    | Some rs =>
        FlowManager.mk (FlowManager.session_id fm) (FlowManager.subject fm)
          (FlowManager.sync fm) (FlowManager.to_write fm)
          (FlowManager.to_delete fm ++ [FLOW_REQUEST_TEMPLATE (RequestState.id rs)])
          (FlowManager.client_messages fm ++ [RequestState.ts_id rs])
          (Some (RequestState.client_id rs))
    | None => fm
    end in
  FlowManager.mk (FlowManager.session_id fm) (FlowManager.subject fm)
    (FlowManager.sync fm) (FlowManager.to_write fm)
    (FlowManager.to_delete fm
       ++ List.map (fun response =>
                      FLOW_RESPONSE_TEMPLATE (GrrMessage.request_id response)
                                             (GrrMessage.response_id response))
                   responses)
    (FlowManager.client_messages fm) (FlowManager.client_id fm).

(** The loop of [DestroyFlowStates]: every yielded request is recorded;
    [true] is returned when the generator ended in [MoreDataException]. *)
Fixpoint destroy_loop (events : list GenEvent) (fm : FlowManager.t)
  : FlowManager.t * bool :=
  match events with
  | [] => (fm, false)
  | RaiseMoreData :: _ => (fm, true)
  | Yield request_state _ :: events' =>
      destroy_loop events'
        (FlowManager.mk (FlowManager.session_id fm) (FlowManager.subject fm)
           (FlowManager.sync fm) (FlowManager.to_write fm)
           (FlowManager.to_delete fm)
           (FlowManager.client_messages fm ++ [RequestState.ts_id request_state])
           (Some (RequestState.client_id request_state)))
  end.

(** [FlowManager.DestroyFlowStates]; the boolean tells whether
    [MoreDataException] left the method before [DeleteSubject]. *)
Definition DestroyFlowStates (fm : FlowManager.t) (w : World)
  : FlowManager.t * World * bool :=
  let '(fm, more) := destroy_loop (FetchRequestsAndResponses fm w) fm in
  if more then (fm, w, true)
  else (fm, DeleteSubject (FlowManager.subject fm) w, false).

(** [FlowManager.Flush] (and so [__exit__]). *)
Definition Flush (fm : FlowManager.t) (w : World) : FlowManager.t * World :=
  let w := MultiSet (FlowManager.subject fm) (FlowManager.to_write fm)
             (FlowManager.to_delete fm) (FlowManager.sync fm) w in
  let w := SchedulerDelete (FlowManager.client_id fm)
             (FlowManager.client_messages fm) w in
  (FlowManager.mk (FlowManager.session_id fm) (FlowManager.subject fm)
     (FlowManager.sync fm) ∅ [] (FlowManager.client_messages fm)
     (FlowManager.client_id fm), w).

(** [to_write.setdefault(key, []).append(value)] *)
Definition setdefault_append (key : string) (v : Serialized)
    (to_write : gmap string (list Serialized)) :=
  <[key := default [] (to_write !! key) ++ [v]]> to_write.

Definition with_to_write (v : gmap string (list Serialized))
    (fm : FlowManager.t) :=
  FlowManager.mk (FlowManager.session_id fm) (FlowManager.subject fm)
    (FlowManager.sync fm) v (FlowManager.to_delete fm)
    (FlowManager.client_messages fm) (FlowManager.client_id fm).

Definition QueueResponse (fm : FlowManager.t) (message_proto : GrrMessage.t) :=
  with_to_write
    (setdefault_append
       (FLOW_RESPONSE_TEMPLATE (GrrMessage.request_id message_proto)
                               (GrrMessage.response_id message_proto))
       (SerMessage message_proto) (FlowManager.to_write fm)) fm.

Definition QueueRequest (fm : FlowManager.t) (request_state : RequestState.t) :=
  with_to_write
    (setdefault_append (FLOW_REQUEST_TEMPLATE (RequestState.id request_state))
       (SerRequest request_state) (FlowManager.to_write fm)) fm.

(** ** class HuntFlowContext / class FlowContext *)

(** The two classes differ in one class attribute and a few overridden
    methods; an object remembers which class it is an instance of. *)
Inductive ContextClass := HuntFlowContext | FlowContext.

Definition process_requests_in_order (c : ContextClass) : bool :=
  match c with HuntFlowContext => false | FlowContext => true end.

Record Context := mkContext {
  class : ContextClass;
  queue_name : string;
  session_id : string;
  client_id : option string;
  new_request_states : list RequestState.t;
  next_states : list string;
  current_state : string;
  next_processed_request : Z;
  next_outbound_id : Z;
  _outstanding_requests : Z;
  flow_pb : FlowPB.t
}.

Definition set_new_request_states (v : list RequestState.t) (c : Context) :=
  mkContext (class c) (queue_name c) (session_id c) (client_id c) v
    (next_states c) (current_state c) (next_processed_request c)
    (next_outbound_id c) (_outstanding_requests c) (flow_pb c).
Definition set_current_state (v : string) (c : Context) :=
  mkContext (class c) (queue_name c) (session_id c) (client_id c)
    (new_request_states c) (next_states c) v (next_processed_request c)
    (next_outbound_id c) (_outstanding_requests c) (flow_pb c).
Definition set_next_processed_request (v : Z) (c : Context) :=
  mkContext (class c) (queue_name c) (session_id c) (client_id c)
    (new_request_states c) (next_states c) (current_state c) v
    (next_outbound_id c) (_outstanding_requests c) (flow_pb c).
Definition set_next_outbound_id (v : Z) (c : Context) :=
  mkContext (class c) (queue_name c) (session_id c) (client_id c)
    (new_request_states c) (next_states c) (current_state c)
    (next_processed_request c) v (_outstanding_requests c) (flow_pb c).
Definition set_outstanding_requests (v : Z) (c : Context) :=
  mkContext (class c) (queue_name c) (session_id c) (client_id c)
    (new_request_states c) (next_states c) (current_state c)
    (next_processed_request c) (next_outbound_id c) v (flow_pb c).
Definition set_flow_pb (v : FlowPB.t) (c : Context) :=
  mkContext (class c) (queue_name c) (session_id c) (client_id c)
    (new_request_states c) (next_states c) (current_state c)
    (next_processed_request c) (next_outbound_id c) (_outstanding_requests c) v.

Definition SetState (state : FlowState) (c : Context) : Context :=
  set_flow_pb (FlowPB.set_state state (flow_pb c)) c.

Definition GetNextOutboundId (c : Context) : Z * Context :=
  (next_outbound_id c, set_next_outbound_id (next_outbound_id c + 1) c).

Definition IsRunning (c : Context) : bool :=
  bool_decide (FlowPB.state (flow_pb c) = RUNNING).

Definition OutstandingRequests (c : Context) : Z := _outstanding_requests c.

(** What a call into the flow object leaves behind: the context and the
    world as the call left them and, when the call raised, the text of
    [traceback.format_exc()]. *)
Definition Outcome : Type := Context * World * option string.

(** [self.parent_flow]: the flow object, whose class is not part of this
    module.  Its state methods and [End] run arbitrary code against the
    context; [Log], [LogClientError], [Save] and [Notify] are journalled. *)
Record Flow := mkFlow {
  (** [getattr(self.parent_flow, name)(request=..., responses=...)]; a
      missing attribute is one more exception raised by the call. *)
  state_method :
    string -> RequestState.t -> list GrrMessage.t -> Context -> World -> Outcome;
  (** [self.parent_flow.End()] *)
  End_method : Context -> World -> Outcome
}.

(** Modelled from the spec: the flow class is not part of this module; the
    dispatcher tests "outstanding == 0", the flow's [OutstandingRequests]
    hands back the context's counter. *)
Definition Flow_OutstandingRequests (c : Context) : Z := OutstandingRequests c.

(** Errors raised to the caller of [CallClient] and [CallFlow]. *)
Inductive FlowContextError :=
| NextStateNotSpecified
| NotDeclared (current_state : string) (next_state : string).

(** The first [isinstance(response_proto, jobs_pb2.GrrStatus)] block of
    [SendReply]: "Also send resource usage information to the parent flow". *)
Definition send_resource_usage (c : Context) (st : GrrStatus.t) : GrrStatus.t :=
  let user_cpu := CpuSeconds.user_cpu_time (FlowPB.cpu_used (flow_pb c)) in
  let sys_cpu := CpuSeconds.system_cpu_time (FlowPB.cpu_used (flow_pb c)) in
  GrrStatus.set_child_session_id (session_id c)
    (GrrStatus.set_network_bytes_sent (FlowPB.network_bytes_sent (flow_pb c))
       (GrrStatus.set_cpu_time_used (CpuSeconds.mk user_cpu sys_cpu) st)).

(** [HuntFlowContext.SendReply] *)
Definition SendReply (response_proto : Payload) (c : Context) (w : World)
  : Context * World :=
  match FlowPB.request_state (flow_pb c) with
  | None => (c, w)
  | Some request_state =>
      let request_state :=
        RequestState.set_response_count
          (RequestState.response_count request_state + 1) request_state in
      let c := set_flow_pb
                 (FlowPB.set_request_state (Some request_state) (flow_pb c)) c in
      let worker_queue :=
        default "" (head (split_colon (RequestState.session_id request_state))) in
      let flow_manager := FlowManager_init (RequestState.session_id request_state) in
      let response_proto :=
        match response_proto with
        | PStatus st => PStatus (send_resource_usage c st)
        | PProto _ => response_proto
        end in
      let msg :=
        GrrMessage.mk (RequestState.session_id request_state) ""
          (RequestState.id request_state)
          (RequestState.response_count request_state)
          MESSAGE AUTHENTICATED 0 response_proto in
      let '(msg, w) :=
        if is_GrrStatus response_proto
        then let msg := GrrMessage.set_type STATUS msg in
             (msg, (Schedule [Task.mk worker_queue 0 msg] false w).2)
        else (msg, w) in
      let flow_manager := QueueResponse flow_manager msg in
      let w := (Flush flow_manager w).2 in
      (c, NotifyQueue worker_queue (RequestState.session_id request_state) w)
  end.

(** [HuntFlowContext.Error] only logs; [FlowContext.Error] kills the flow.
    [debug] is [flags.FLAGS.debug]. *)
Definition HuntFlowContext_Error (for_client : option string)
    (backtrace : option string) (c : Context) (w : World) : Context * World :=
  (c, record (FLOW_LogClientError for_client backtrace) w).

Definition FlowContext_Error (debug : bool) (for_client : option string)
    (backtrace : option string) (c : Context) (w : World) : Context * World :=
  if IsRunning c then
    let c := SetState ERROR c in
    let reply := GrrStatus.set_status GENERIC_ERROR GrrStatus.default in
    let reply :=
      match backtrace with
      | Some bt => if truthy bt then GrrStatus.set_error_message bt reply else reply
      | None => reply
      end in
    let '(c, w) := SendReply (PStatus reply) c w in
    let c :=
      match backtrace with
      | Some bt =>
          if truthy bt
          then set_flow_pb (FlowPB.set_backtrace bt (flow_pb c)) c else c
      | None => c
      end in
    let w := record (FLOW_Save (flow_pb c)) w in
    let w := if debug then record PDB_set_trace w else w in
    (c, record (FLOW_Notify "FlowStatus" (client_id c)
                  ("Flow (" +:+ session_id c +:+ ") terminated due to error")) w)
  else (c, w).

Definition Error (debug : bool) (for_client : option string)
    (backtrace : option string) (c : Context) (w : World) : Context * World :=
  match class c with
  | HuntFlowContext => HuntFlowContext_Error for_client backtrace c w
  | FlowContext => FlowContext_Error debug for_client backtrace c w
  end.

(** [HuntFlowContext.Terminate] *)
Definition Terminate (c : Context) (w : World) : Context * World :=
  let '(flow_manager, w, _) :=
    DestroyFlowStates (FlowManager_init (session_id c)) w in
  let w := (Flush flow_manager w).2 in
  if IsRunning c then
    let '(c, w) := SendReply (PStatus GrrStatus.default) c w in
    let c := SetState TERMINATED c in
    (c, record (FLOW_Save (flow_pb c)) w)
  else (c, w).

(** Modelled from the spec: [utils.GroupBy] is not part of this module.
    "Group by client_id", "Group by session_id": the items that share a key,
    each group in buffer order, the groups in order of first appearance. *)
Fixpoint group_insert {A} (k : string) (x : A) (groups : list (string * list A))
  : list (string * list A) :=
  match groups with
  | [] => [(k, [x])]
  | (k', xs) :: groups' =>
      if String.eqb k k' then (k', xs ++ [x]) :: groups'
      else (k', xs) :: group_insert k x groups'
  end.
(** Modelled from the spec: [utils.GroupBy(items, key)], the groups as
    (key, items) pairs. *)
Definition GroupBy {A} (items : list A) (key : A -> string)
  : list (string * list A) :=
  fold_left (fun groups x => group_insert (key x) x groups) items [].

(** The request objects of a flush live in a heap indexed by their position
    in the swapped-out buffer: both [GroupBy] passes work on the same
    objects, and [request.ts_id = task.id] is seen by the second. *)
Definition deref (heap : list RequestState.t) (i : nat) : RequestState.t :=
  default RequestState.default (heap !! i).

(** [for request, task in zip(to_schedule, tasks): request.ts_id = task.id] *)
Fixpoint adjust_ts_ids (heap : list RequestState.t)
    (pairs : list (nat * Task.t)) : list RequestState.t :=
  match pairs with
  | [] => heap
  | (i, task) :: pairs' =>
      adjust_ts_ids (<[i := RequestState.set_ts_id (Task.id task) (deref heap i)]> heap)
                    pairs'
  end.

(** Body of the first loop of [FlushMessages], for one destination. *)
Definition flush_destination (st : list RequestState.t * World)
    (group : string * list nat) : list RequestState.t * World :=
  let '(heap, w) := st in
  let '(destination, requests) := group in
  let to_schedule :=
    List.filter
      (fun i => truthy (GrrMessage.name (RequestState.request (deref heap i))))
      requests in
  let tasks :=
    List.map (fun i => Task.mk destination 0 (RequestState.request (deref heap i)))
             to_schedule in
  let '(tasks, w) := Schedule tasks true w in
  let w := record (STATS_Add "grr_worker_requests_issued" (Z.of_nat (length tasks))) w in
  (adjust_ts_ids heap (zip to_schedule tasks), w).

(** Body of the second loop, for one session. *)
Definition flush_session (heap : list RequestState.t) (w : World)
    (group : string * list nat) : World :=
  let flow_manager :=
    fold_left (fun fm i => QueueRequest fm (deref heap i)) group.2
              (FlowManager_init group.1) in
  (Flush flow_manager w).2.

(** [HuntFlowContext.FlushMessages] *)
Definition FlushMessages (c : Context) (w : World) : Context * World :=
  let to_flush := new_request_states c in
  let c := set_new_request_states [] c in
  let objects := seq 0 (length to_flush) in
  let '(heap, w) :=
    fold_left flush_destination
      (GroupBy objects (fun i => RequestState.client_id (deref to_flush i)))
      (to_flush, w) in
  let w :=
    fold_left (flush_session heap)
      (GroupBy objects (fun i => RequestState.session_id (deref heap i))) w in
  (c, w).

Section Engine.

(** The collaborators a context is wired to. *)
Variable parent_flow : Flow.
Variable debug : bool.

(** The protobuf that [CallClient] builds from its keyword arguments
    when the caller gave no [args_pb]. *)
Variable args_from_kwargs : string -> Payload.

(** [flow_factory.StartFlow(client_id, flow_name, event_id=...,
    _request_state=state, _parent_request_queue=self.new_request_states,
    queue_name=..., ...)]: creates the child, runs its [Start], and hands
    back the child's session id; the child shares the parent's buffer. *)
Variable StartFlow :
  option string -> string -> string -> RequestState.t -> list RequestState.t ->
  string -> World -> string * list RequestState.t * World.

(** [HuntFlowContext.CallClient] *)
Definition HuntFlowContext_CallClient (action_name : string)
    (args_pb : option Payload) (next_state : option string)
    (request_data : option (list (string * string)))
    (for_client : option string) (c : Context)
  : Context * option FlowContextError :=
  let args_pb := default (args_from_kwargs action_name) args_pb in
  match next_state with
  | None => (c, Some NextStateNotSpecified)
  | Some next_state =>
      if process_requests_in_order (class c)
         && negb (mem_string next_state (next_states c))
      then (c, Some (NotDeclared (current_state c) next_state))
      else
        let '(outbound_id, c) := GetNextOutboundId c in
        let msg :=
          GrrMessage.mk (session_id c) action_name outbound_id 0 MESSAGE UNSET
            (FlowPB.priority (flow_pb c)) args_pb in
        let state :=
          RequestState.mk outbound_id (session_id c) (field_of for_client)
            next_state "" 0 (default [] request_data) msg 0 0 in
        let c := set_new_request_states (new_request_states c ++ [state]) c in
        (set_outstanding_requests (_outstanding_requests c + 1) c, None)
  end.

(** [self.CallClient(...)]: [FlowContext] fills in its own client first. *)
Definition CallClient (action_name : string)
    (args_pb : option Payload) (next_state : option string)
    (request_data : option (list (string * string)))
    (for_client : option string) (c : Context)
  : Context * option FlowContextError :=
  match class c with
  | HuntFlowContext =>
      HuntFlowContext_CallClient action_name args_pb next_state request_data
        for_client c
  | FlowContext =>
      HuntFlowContext_CallClient action_name args_pb next_state request_data
        (opt_or for_client (client_id c)) c
  end.

(** [HuntFlowContext.CallFlow] *)
Definition HuntFlowContext_CallFlow (flow_name : string)
    (next_state : option string)
    (request_data : option (list (string * string)))
    (for_client : option string) (c : Context) (w : World)
  : Context * World * option FlowContextError :=
  let undeclared :=
    match next_state with
    | Some ns => truthy ns && negb (mem_string ns (next_states c))
    | None => false
    end in
  if process_requests_in_order (class c) && undeclared
  then (c, w, Some (NotDeclared (current_state c) (field_of next_state)))
  else
    let for_client := opt_or for_client (client_id c) in
    let '(outbound_id, c) := GetNextOutboundId c in
    let state :=
      RequestState.mk outbound_id (session_id c) (field_of for_client)
        (field_of next_state) flow_name 0 (default [] request_data)
        GrrMessage.default 0 0 in
    let '(child, queue, w) :=
      StartFlow for_client flow_name (FlowPB.event_id (flow_pb c)) state
        (new_request_states c) (queue_name c) w in
    let c := set_new_request_states (queue ++ [state]) c in
    let c := set_flow_pb
               (FlowPB.set_children (FlowPB.children (flow_pb c) ++ [child])
                  (flow_pb c)) c in
    (set_outstanding_requests (_outstanding_requests c + 1) c, w, None).

(** [self.CallFlow(...)] *)
Definition CallFlow (flow_name : string) (next_state : option string)
    (request_data : option (list (string * string)))
    (for_client : option string) (c : Context) (w : World)
  : Context * World * option FlowContextError :=
  match class c with
  | HuntFlowContext =>
      HuntFlowContext_CallFlow flow_name next_state request_data for_client c w
  | FlowContext =>
      HuntFlowContext_CallFlow flow_name next_state request_data
        (opt_or for_client (client_id c)) c w
  end.

(** [HuntFlowContext._ProcessSingleRequest] *)
Definition _ProcessSingleRequest (request : RequestState.t)
    (responses : list GrrMessage.t) (c : Context) (w : World)
  : Context * World :=
  let c := set_current_state (RequestState.next_state request) c in
  let for_client := str_or (RequestState.client_id request) (client_id c) in
  match state_method parent_flow (RequestState.next_state request)
          request responses c w with
  | (c, w, None) => (c, w)
  | (c, w, Some backtrace) =>
      let w := record (STATS_Increment "grr_flow_errors") w in
      Error debug for_client (Some backtrace) c w
  end.

(** One pass of [ProcessCompletedRequests] over the fetched snapshot.
    [dispatched] lists the pairs handed to [_Process], in order: a
    [FlowContext] has run each of them on the spot, a [HuntFlowContext]
    has queued each on the thread pool. *)
Record Pass := mkPass {
  ctx : Context;
  manager : FlowManager.t;
  world : World;
  dispatched : list (RequestState.t * list GrrMessage.t)
}.

Inductive Control := Continue | Break.

(** [self._Process(request, responses, thread_pool, processing)] *)
Definition _Process (request : RequestState.t)
    (responses : list GrrMessage.t) (p : Pass) : Pass :=
  match class (ctx p) with
  | FlowContext =>
      let '(c, w) := _ProcessSingleRequest request responses (ctx p) (world p) in
      mkPass c (manager p) w (dispatched p ++ [(request, responses)])
  | HuntFlowContext =>
      mkPass (ctx p) (manager p) (world p)
             (dispatched p ++ [(request, responses)])
  end.

(** Body of the main loop. *)
Definition scan_body (request : RequestState.t)
    (responses : list GrrMessage.t) (p : Pass) : Pass * Control :=
  let c := ctx p in
  let delete (p : Pass) :=
    mkPass (ctx p)
      (DeleteFlowRequestStates (manager p) (Some request) responses)
      (world p) (dispatched p) in
  if RequestState.id request =? 0 then (p, Continue) else
  match last responses with
  | None => (p, Continue)
  | Some last_response =>
      if process_requests_in_order (class c)
         && (next_processed_request c <? RequestState.id request)
      then (p, Break)
      else if process_requests_in_order (class c)
              && (RequestState.id request <? next_processed_request c)
      then (delete p, Continue)
      else if process_requests_in_order (class c)
              && negb (RequestState.id request =? next_processed_request c)
      then (mkPass c (manager p)
              (record (STATS_Increment "grr_response_out_of_order") (world p))
              (dispatched p), Break)
      else if negb (bool_decide (GrrMessage.type last_response = STATUS))
      then (p, Continue)
      else
        let p := delete p in
        if negb (Z.of_nat (length responses)
                 =? GrrMessage.response_id last_response)
        then
          if RequestState.transmission_count request <? 5
          then
            let request :=
              RequestState.set_transmission_count
                (RequestState.transmission_count request + 1) request in
            (mkPass (set_new_request_states (new_request_states c ++ [request]) c)
               (manager p) (world p) (dispatched p), Break)
          else (p, Break)
        else if IsRunning c then
          let p := _Process request responses p in
          let c := ctx p in
          let c := set_next_processed_request (next_processed_request c + 1) c in
          let c := set_outstanding_requests (_outstanding_requests c - 1) c in
          (mkPass c (manager p) (world p) (dispatched p), Continue)
        else (p, Break)
  end.

(** How the [for] loop over the generator ended. *)
Inductive LoopExit := Exhausted | Broke | MoreData.

Fixpoint scan (events : list GenEvent) (p : Pass) : Pass * LoopExit :=
  match events with
  | [] => (p, Exhausted)
  | RaiseMoreData :: _ => (p, MoreData)
  | Yield request responses :: events' =>
      match scan_body request responses p with
      | (p, Continue) => scan events' p
      | (p, Break) => (p, Broke)
      end
  end.

(** What follows the loop inside the [with] block: let the flow clean up,
    then terminate it, when nothing is outstanding. *)
Definition end_of_pass (c : Context) (w : World) : Context * World :=
  let '(c, w) :=
    if (Flow_OutstandingRequests c =? 0) && IsRunning c
       && negb (String.eqb (current_state c) "End")
    then
      match End_method parent_flow c w with
      | (c, w, None) => (c, w)
      | (c, w, Some backtrace) =>
          let w := record (STATS_Increment "grr_flow_errors") w in
          Error debug (client_id c) (Some backtrace) c w
      end
    else (c, w) in
  if Flow_OutstandingRequests c =? 0
  then Terminate c (record (STATS_Increment "grr_flow_completed_count") w)
  else (c, w).

(** The loop of the dead-flow branch. *)
Fixpoint delete_all (events : list GenEvent) (fm : FlowManager.t)
  : FlowManager.t * bool :=
  match events with
  | [] => (fm, false)
  | RaiseMoreData :: _ => (fm, true)
  | Yield request responses :: events' =>
      delete_all events' (DeleteFlowRequestStates fm (Some request) responses)
  end.

(** [finally: for event in processing: event.wait()]: by then the pool of
    a hunt has run every queued task; they are run here in the order they
    were queued.  A [FlowContext] has nothing to wait for. *)
Definition join (tasks : list (RequestState.t * list GrrMessage.t))
    (c : Context) (w : World) : Context * World :=
  match class c with
  | FlowContext => (c, w)
  | HuntFlowContext =>
      fold_left (fun cw task => _ProcessSingleRequest task.1 task.2 cw.1 cw.2)
                tasks (c, w)
  end.

(** [HuntFlowContext.ProcessCompletedRequests] *)
Definition ProcessCompletedRequests (c : Context) (w : World)
  : Context * World :=
  if negb (IsRunning c) then
    let w := record (FLOW_Log "Flow dead - deleting all outstanding requests.") w in
    let flow_manager := FlowManager_init (session_id c) in
    let '(flow_manager, more) :=
      delete_all (FetchRequestsAndResponses flow_manager w) flow_manager in
    let w := (Flush flow_manager w).2 in
    if more then (c, NotifyQueue (queue_name c) (session_id c) w) else (c, w)
  else
    let flow_manager := FlowManager_init (session_id c) in
    let '(p, exit) :=
      scan (FetchRequestsAndResponses flow_manager w)
           (mkPass c flow_manager w []) in
    match exit with
    | MoreData =>
        let w := (Flush (manager p) (world p)).2 in
        join (dispatched p) (ctx p)
             (NotifyQueue (queue_name (ctx p)) (session_id (ctx p)) w)
    | _ =>
        let '(c, w) := end_of_pass (ctx p) (world p) in
        let w := (Flush (manager p) w).2 in
        join (dispatched p) c w
    end.

End Engine.

(** * Vocabulary of the statements *)

(** No [":"] occurs in the string. *)
Fixpoint colon_free (s : string) : bool :=
  match s with
  | EmptyString => true
  | String c s' => negb (Ascii.eqb c ":"%char) && colon_free s'
  end.

(** The worker queue of the parent, as SendReply computes it. *)
Definition worker_queue_of (parent : RequestState.t) : string :=
  default "" (head (split_colon (RequestState.session_id parent))).

(** Every entry of [state_map] holds a request, filed under its own id,
    and only responses to that request. *)
Definition wf_map (m : gmap Z Meta.t) : Prop :=
  forall k md, m !! k = Some md ->
    (exists r, Meta.REQUEST_STATE md = Some r /\ RequestState.id r = k) /\
    Forall (fun resp => GrrMessage.request_id resp = k)
           (default [] (Meta.RESPONSES md)).


(** The request rows and the response rows the two scans hand back. *)
Definition request_rows (fm : FlowManager.t) (w : World) :=
  ResolveRegex (db w) (FLOW_STATE_TEMPLATE (FlowManager.session_id fm))
    FLOW_REQUEST_REGEX request_limit.


(** The (request, responses) pair filed under a key of [state_map]. *)
Definition pair_of (m : gmap Z Meta.t) (k : Z)
  : RequestState.t * list GrrMessage.t :=
  match m !! k with
  | Some md => (default RequestState.default (Meta.REQUEST_STATE md),
                default [] (Meta.RESPONSES md))
  | None => (RequestState.default, [])
  end.

Definition yield_pair (p : RequestState.t * list GrrMessage.t) : GenEvent :=
  Yield p.1 p.2.

(** The pairs the generator yields, and whether it ends by raising. *)
Definition fetched (fm : FlowManager.t) (w : World)
  : list (RequestState.t * list GrrMessage.t) :=
  pair_of (scan_map (fetch_scan fm w))
    <$> sorted_keys (scan_map (fetch_scan fm w)).

Definition more_data (fm : FlowManager.t) (w : World) : bool :=
  (request_limit <=? scan_request_count (fetch_scan fm w))
  || (response_limit <=? scan_response_count (fetch_scan fm w)).

Definition row_of (r : Row) : string * Serialized := (r.1.2, r.2).

Definition in_scan (subject regex : string) (row : Row) : bool :=
  String.eqb row.1.1 subject && regex_match regex row.1.2.

(** A run of [DeleteFlowRequestStates] calls inside one [with] block. *)
Definition delete_each (calls : list (RequestState.t * list GrrMessage.t))
    (fm : FlowManager.t) : FlowManager.t :=
  fold_left (fun fm call => DeleteFlowRequestStates fm (Some call.1) call.2)
            calls fm.

Definition ts_ids (calls : list (RequestState.t * list GrrMessage.t)) : list Z :=
  (fun call => RequestState.ts_id call.1) <$> calls.

(** The calls [SendReply] makes for a STATUS payload: none without a
    parent; with one, the task on the parent's worker queue, the write of
    the reply into the parent's subject, the (empty) dequeue of the
    manager's scope, and the notification. *)
Definition reply_calls (c : Context) (next_id : Z) (st : GrrStatus.t)
  : list Call :=
  match FlowPB.request_state (flow_pb c) with
  | None => []
  | Some parent =>
      let response_id := RequestState.response_count parent + 1 in
      let msg :=
        GrrMessage.mk (RequestState.session_id parent) ""
          (RequestState.id parent) response_id STATUS AUTHENTICATED 0
          (PStatus (send_resource_usage c st)) in
      [SCHEDULER_Schedule [Task.mk (worker_queue_of parent) next_id msg] false;
       DB_MultiSet (FLOW_STATE_TEMPLATE (RequestState.session_id parent))
         {[ FLOW_RESPONSE_TEMPLATE (RequestState.id parent) response_id
            := [SerMessage msg] ]} [] true;
       SCHEDULER_Delete None [];
       SCHEDULER_NotifyQueue (worker_queue_of parent)
                             (RequestState.session_id parent)]
  end.


(** The ids [first], [first + 1], ... of [n] consecutive requests. *)
Definition consecutive (first : Z) (n : nat) : list Z :=
  (fun i => first + Z.of_nat i) <$> seq 0 n.




(** The tasks handed to the scheduler, in journal order, each with the
    [sync] flag of its call. *)
Definition scheduled_tasks (calls : list Call) : list (Task.t * bool) :=
  concat (List.map (fun call =>
                      match call with
                      | SCHEDULER_Schedule tasks sync =>
                          List.map (fun t => (t, sync)) tasks
                      | _ => []
                      end) calls).


(** What the second loop may send out: the write of a session's requests,
    nothing deleted, nothing dequeued. *)
Definition storing_call (call : Call) : Prop :=
  match call with
  | DB_MultiSet _ _ to_delete sync => to_delete = [] /\ sync = true
  | SCHEDULER_Delete queue ids => queue = None /\ ids = []
  | _ => False
  end.




(** * Sample flows and stores *)







Definition sample_pb (session : string) (parent : option RequestState.t)
  : FlowPB.t :=
  FlowPB.mk session RUNNING "Sample" "analyst" "analyst:console" 0
    "C.0000000000000001" parent [] (CpuSeconds.mk 3 1) 4096 "".

Definition sample_context (cls : ContextClass) (session : string)
    (parent : option RequestState.t) : Context :=
  mkContext cls "W" session (Some "C.0000000000000001") [] ["Done"] "Start"
    1 3 2 (sample_pb session parent).

(** The request of a parent flow that a child reports to. *)
Definition sample_parent : RequestState.t :=
  RequestState.mk 4 "W:AAAA0001" "C.0000000000000001" "GotChild" "Child" 0 []
    GrrMessage.default 0 0.

Definition empty_world : World := mkWorld [] 100 [].

Definition hunt_session : string := "H:BEEF0001".

Definition hunt_request (id : Z) (client : string) (ts_id : Z) : RequestState.t :=
  RequestState.mk id hunt_session client "Done" "" 0 []
    (GrrMessage.mk hunt_session "ListDirectory" id 0 MESSAGE UNSET 0 (PProto ""))
    ts_id 0.

(** Two requests of one session, addressed to two clients, their tasks
    scheduled under ids 11 and 22. *)
Definition two_client_world : World :=
  mkWorld
    [(FLOW_STATE_TEMPLATE hunt_session, FLOW_REQUEST_TEMPLATE 1,
      SerRequest (hunt_request 1 "C.0000000000000001" 11));
     (FLOW_STATE_TEMPLATE hunt_session, FLOW_REQUEST_TEMPLATE 2,
      SerRequest (hunt_request 2 "C.0000000000000002" 22))] 100 [].

(** A factory whose child issues no requests of its own. *)
Definition quiet_factory (for_client : option string) (flow_name event_id : string)
    (state : RequestState.t) (queue : list RequestState.t) (queue_name : string)
    (w : World) : string * list RequestState.t * World :=
  ("W:C0FFEE01", queue, w).

(** A flow whose every state method raises. *)
Definition failing_flow : Flow :=
  mkFlow (fun name request responses c w =>
            (c, w, Some "Traceback (most recent call last): ValueError"))
         (fun c w => (c, w, None)).

(** A flow whose state methods and [End] do nothing. *)
Definition quiet_flow : Flow :=
  mkFlow (fun name request responses c w => (c, w, None))
         (fun c w => (c, w, None)).

Definition ordered_session : string := "W:AAAA0001".

Definition ordered_request (id : Z) : RequestState.t :=
  RequestState.mk id ordered_session "C.0000000000000001" "Done" "" 0 []
    (GrrMessage.mk ordered_session "ListDirectory" id 0 MESSAGE UNSET 0
       (PProto "")) (10 + id) 0.

Definition ordered_response (request_id response_id : Z) (type : MessageType)
  : GrrMessage.t :=
  GrrMessage.mk ordered_session "" request_id response_id type AUTHENTICATED 0
    (PProto "").

(** Request 1 is stored, no response to it has arrived. *)
Definition unanswered_world : World :=
  mkWorld [(FLOW_STATE_TEMPLATE ordered_session, FLOW_REQUEST_TEMPLATE 1,
            SerRequest (ordered_request 1))] 100 [].


(** A child flow of [sample_parent]'s flow. *)
Definition child_context : Context :=
  sample_context FlowContext "W:C0FFEE01" (Some sample_parent).

Definition orphan_context : Context :=
  sample_context FlowContext ordered_session None.



(** Request 1, transmitted [count] times so far, stored with
    [gapped_responses]. *)
Definition gapped_world (count : Z) : World :=
  mkWorld
    [(FLOW_STATE_TEMPLATE ordered_session, FLOW_REQUEST_TEMPLATE 1,
      SerRequest (RequestState.set_transmission_count count (ordered_request 1)));
     (FLOW_STATE_TEMPLATE ordered_session, FLOW_RESPONSE_TEMPLATE 1 1,
      SerMessage (ordered_response 1 1 MESSAGE));
     (FLOW_STATE_TEMPLATE ordered_session, FLOW_RESPONSE_TEMPLATE 1 3,
      SerMessage (ordered_response 1 3 STATUS))] 100 [].

(** * More of the module, and the vocabulary of further properties *)

(** ** Reading a key back *)

(** The value of an upper-case hexadecimal digit. *)
Definition hex_value (c : ascii) : Z :=
  match c with
  | "0" => 0 | "1" => 1 | "2" => 2 | "3" => 3 | "4" => 4 | "5" => 5
  | "6" => 6 | "7" => 7 | "8" => 8 | "9" => 9 | "A" => 10 | "B" => 11
  | "C" => 12 | "D" => 13 | "E" => 14 | "F" => 15 | _ => 0
  end%char.

(** [int(s, 16)] for a string of upper-case hexadecimal digits. *)
Fixpoint unhex_aux (v : Z) (s : string) : Z :=
  match s with
  | EmptyString => v
  | String c s' => unhex_aux (v * 16 + hex_value c) s'
  end.
Definition unhex (s : string) : Z := unhex_aux 0 s.

(** The [k] low hexadecimal digits of [n], most significant first. *)
Fixpoint low_digits (k : nat) (n : Z) : string :=
  match k with
  | O => EmptyString
  | S k' => low_digits k' (n / 16) +:+ String (hex_digit (n mod 16)) EmptyString
  end.

(** ** Runs of calls *)

(** The arguments of one [CallClient]. *)
Record ClientCall := mkClientCall {
  call_action : string;
  call_args : option Payload;
  call_next_state : option string;
  call_data : option (list (string * string));
  call_client : option string
}.

(** Whether [CallClient] goes ahead with the call: a next state is named
    and, on an ordered context, declared. *)
Definition accepts (c : Context) (k : ClientCall) : bool :=
  match call_next_state k with
  | None => false
  | Some next_state =>
      negb (process_requests_in_order (class c))
      || mem_string next_state (next_states c)
  end.

(** The calls a state method makes to [CallClient], one after the other;
    the [FlowContextError] of a refused call is caught by the caller. *)
Definition call_clients (args_from_kwargs : string -> Payload)
    (calls : list ClientCall) (c : Context) : Context :=
  fold_left
    (fun c k =>
       (CallClient args_from_kwargs (call_action k) (call_args k)
          (call_next_state k) (call_data k) (call_client k) c).1)
    calls c.

(** The client a call is addressed to: a [FlowContext] falls back on its
    own. *)
Definition addressee (c : Context) (k : ClientCall) : string :=
  field_of match class c with
           | HuntFlowContext => call_client k
           | FlowContext => opt_or (call_client k) (client_id c)
           end.

(** The replies a flow sends to its parent, one after the other. *)
Definition send_replies (payloads : list Payload) (c : Context) (w : World)
  : Context * World :=
  fold_left (fun cw payload => SendReply payload cw.1 cw.2) payloads (c, w).

(** The messages written to the data store, in journal order, each with
    its subject and its key. *)
Definition written_messages (calls : list Call)
  : list (string * string * GrrMessage.t) :=
  concat (List.map
            (fun call =>
               match call with
               | DB_MultiSet subject to_write _ _ =>
                   omap (fun kv : string * list Serialized =>
                           match last kv.2 with
                           | Some (SerMessage m) => Some (subject, kv.1, m)
                           | _ => None
                           end)
                        (map_to_list to_write)
               | _ => []
               end) calls).

(** The [type] a reply to the parent is sent with. *)
Definition reply_type (payload : Payload) : MessageType :=
  if is_GrrStatus payload then STATUS else MESSAGE.

(** ** What a pass removes *)

(** The keys of one request and of its responses, as
    [DeleteFlowRequestStates] lists them. *)
Definition keys_of (pair : RequestState.t * list GrrMessage.t) : list string :=
  FLOW_REQUEST_TEMPLATE (RequestState.id pair.1)
  :: List.map (fun response =>
                 FLOW_RESPONSE_TEMPLATE (GrrMessage.request_id response)
                                        (GrrMessage.response_id response))
              pair.2.

(** The client of the request fetched last; the sentinel that heads every
    fetch has the empty one. *)
Definition last_client (pairs : list (RequestState.t * list GrrMessage.t))
  : option string :=
  (fun pair => RequestState.client_id pair.1) <$> last pairs.

(** The rows that outlive a [MultiSet] that writes nothing. *)
Definition without (subject : string) (to_delete : list string)
    (rows : list Row) : list Row :=
  List.filter
    (fun row : Row =>
       negb (String.eqb row.1.1 subject && mem_string row.1.2 to_delete))
    rows.

(** The GrrStatus payloads among the messages handed to the scheduler, in
    journal order. *)
Definition status_replies (calls : list Call) : list GrrStatus.t :=
  omap (fun t : Task.t * bool =>
          match GrrMessage.args (Task.value t.1) with
          | PStatus st => Some st
          | PProto _ => None
          end)
       (scheduled_tasks calls).

(** ** CallState *)

(** What [CallState] raises: the [AttributeError] of the [getattr] itself
    for a name the flow object has no attribute of, and the module's own
    [FlowContextError] for an attribute that is false in a boolean
    context. *)
Inductive CallStateError :=
| AttributeError (name : string)
| InvalidNextState.

(** [if not messages or not isinstance(messages[-1], jobs_pb2.GrrStatus):
    messages.append(jobs_pb2.GrrStatus())] *)
Definition with_status (messages : list Payload) : list Payload :=
  match last messages with
  | Some payload =>
      if is_GrrStatus payload then messages
      else messages ++ [PStatus GrrStatus.default]
  | None => messages ++ [PStatus GrrStatus.default]
  end.

(** The message [CallState] builds for the payload at index [i]. *)
Definition state_message (c : Context) (request_id : Z) (i : nat)
    (payload : Payload) : GrrMessage.t :=
  let msg :=
    GrrMessage.mk (session_id c) "" request_id (1 + Z.of_nat i) MESSAGE
      AUTHENTICATED 0 payload in
  if is_GrrStatus payload then GrrMessage.set_type STATUS msg else msg.

Section CallState.

(** [getattr(self.parent_flow, name)] in a boolean context; [None] when
    the flow object has no such attribute. *)
Variable state_attribute : string -> option bool.

(** [HuntFlowContext.CallState].  The [GrrStatus] is appended to the
    caller's own list, which is not handed back here.  [msg] is the loop
    variable, still bound to the last message after the loop. *)
Definition HuntFlowContext_CallState (messages : option (list Payload))
    (next_state : string) (for_client : option string)
    (c : Context) (w : World) : Context * World * option CallStateError :=
  let messages := default [] messages in
  match state_attribute next_state with
  | None => (c, w, Some (AttributeError next_state))
  | Some false => (c, w, Some InvalidNextState)
  | Some true =>
      let flow_manager := FlowManager_init (session_id c) in
      let '(outbound_id, c) := GetNextOutboundId c in
      let request_state :=
        RequestState.mk outbound_id (session_id c) (field_of for_client)
          next_state "" 0 [] GrrMessage.default 0 0 in
      let flow_manager := QueueRequest flow_manager request_state in
      let messages := with_status messages in
      let '(flow_manager, msg) :=
        fold_left
          (fun (st : FlowManager.t * GrrMessage.t) (ip : nat * Payload) =>
             let msg := state_message c (RequestState.id request_state)
                          ip.1 ip.2 in
             (QueueResponse st.1 msg, msg))
          (zip (seq 0 (length messages)) messages)
          (flow_manager, GrrMessage.default) in
      let c := set_outstanding_requests (_outstanding_requests c + 1) c in
      let w := (Schedule [Task.mk (queue_name c) 0 msg] false w).2 in
      let w := NotifyQueue (queue_name c) (session_id c) w in
      let w := (Flush flow_manager w).2 in
      (c, w, None)
  end.

(** [self.CallState(...)]: [FlowContext] fills in its own client first. *)
Definition CallState (messages : option (list Payload))
    (next_state : string) (for_client : option string)
    (c : Context) (w : World) : Context * World * option CallStateError :=
  match class c with
  | HuntFlowContext =>
      HuntFlowContext_CallState messages next_state for_client c w
  | FlowContext =>
      HuntFlowContext_CallState messages next_state
        (opt_or for_client (client_id c)) c w
  end.

End CallState.

(** The RequestState [CallState] files for itself. *)
Definition state_request (c : Context) (next_state : string)
    (for_client : option string) : RequestState.t :=
  RequestState.mk (next_outbound_id c) (session_id c)
    (field_of match class c with
              | HuntFlowContext => for_client
              | FlowContext => opt_or for_client (client_id c)
              end)
    next_state "" 0 [] GrrMessage.default 0 0.

(** The messages [CallState] sends for a list of payloads, in order. *)
Definition state_messages (c : Context) (messages : list Payload)
  : list GrrMessage.t :=
  (fun ip : nat * Payload => state_message c (next_outbound_id c) ip.1 ip.2)
    <$> zip (seq 0 (length (with_status messages))) (with_status messages).

(** The key a response is filed under, and the entries of [to_write] for
    a response and for a request queued once. *)
Definition response_key (m : GrrMessage.t) : string :=
  FLOW_RESPONSE_TEMPLATE (GrrMessage.request_id m) (GrrMessage.response_id m).
Definition response_entry (m : GrrMessage.t) : string * list Serialized :=
  (response_key m, [SerMessage m]).
Definition request_entry (r : RequestState.t) : string * list Serialized :=
  (FLOW_REQUEST_TEMPLATE (RequestState.id r), [SerRequest r]).

(** The row a [MultiSet] leaves for an entry of [to_write] that was queued
    once. *)
Definition written (subject : string) (kv : string * list Serialized)
  : option Row :=
  (fun v => (subject, kv.1, v)) <$> last kv.2.

(** The row of a stored response, as a scan of its subject returns it. *)
Definition response_row (m : GrrMessage.t) : string * Serialized :=
  (response_key m, SerMessage m).

(** No row of the store belongs to the subject. *)
Definition no_rows_of (subject : string) (rows : list Row) : bool :=
  forallb (fun row : Row => negb (String.eqb row.1.1 subject)) rows.

(** Every request row of the subject is filed under the key of the id it
    holds. *)
Definition well_keyed (subject : string) (rows : list Row) : bool :=
  forallb
    (fun row : Row =>
       negb (in_scan subject FLOW_REQUEST_REGEX row)
       || String.eqb row.1.2
            (FLOW_REQUEST_TEMPLATE
               (RequestState.id (parse_RequestState row.2))))
    rows.

(** ** class WellKnownFlowManager *)

(** [WellKnownFlowManager.FetchRequestsAndResponses]: the generator yields
    [(None, [response])] for every row of the one scan it makes, and ends
    without raising. *)
Definition WellKnown_FetchRequestsAndResponses (fm : FlowManager.t) (w : World)
  : list (option RequestState.t * list GrrMessage.t) :=
  let subject := FLOW_STATE_TEMPLATE (FlowManager.session_id fm) in
  List.map (fun row : string * Serialized => (None, [parse_GrrMessage row.2]))
    (sorted_rows
       (ResolveRegex (db w) subject FLOW_RESPONSE_REGEX request_limit)).

(** A run of [DeleteFlowRequestStates] calls on what a well known flow's
    manager yielded. *)
Definition delete_yields
    (yields : list (option RequestState.t * list GrrMessage.t))
    (fm : FlowManager.t) : FlowManager.t :=
  fold_left (fun fm y => DeleteFlowRequestStates fm y.1 y.2) yields fm.

(** ** Session ids *)

Definition RESERVED_RANGE : Z := 100.
Definition DEFAULT_WORKER_QUEUE_NAME : string := "W".

(** [HuntFlowContext._GetNewSessionID].  [draws] lists the values that
    [struct.unpack("l", os.urandom(struct.calcsize("l")))[0]] takes, one
    per turn of the loop; the result is [None] when they run out before
    one is accepted. *)
Fixpoint _GetNewSessionID (queue_name : string) (draws : list Z)
  : option string :=
  match draws with
  | [] => None
  | draw :: draws' =>
      let result := draw mod 2 ^ 32 in
      if RESERVED_RANGE <? result
      then Some (queue_name +:+ ":" +:+ hex result)
      else _GetNewSessionID queue_name draws'
  end.

(** ** A hunt's scan *)

(** The request passes the guards of the main loop that do not depend on
    the cursor: a non-zero id, a STATUS as last response, as many
    responses as the STATUS counts. *)
Definition complete (pair : RequestState.t * list GrrMessage.t) : bool :=
  negb (RequestState.id pair.1 =? 0)
  && match last pair.2 with
     | Some last_response =>
         bool_decide (GrrMessage.type last_response = STATUS)
         && (Z.of_nat (length pair.2)
             =? GrrMessage.response_id last_response)
     | None => false
     end.

(** The rows of one subject, in the store's order. *)
Definition subject_rows (subject : string) (rows : list Row) : list Row :=
  List.filter (fun row : Row => String.eqb row.1.1 subject) rows.

(** ** How a flow ends *)

(** The two calls that end a flow. *)
Inductive Ending :=
| EndError (for_client : option string) (backtrace : option string)
| EndTerminate.

(** A run of such calls on one context. *)
Definition run_endings (debug : bool) (endings : list Ending)
    (c : Context) (w : World) : Context * World :=
  fold_left
    (fun cw ending =>
       match ending with
       | EndError for_client backtrace =>
           Error debug for_client backtrace cw.1 cw.2
       | EndTerminate => Terminate cw.1 cw.2
       end)
    endings (c, w).

(** ** More sample flows and stores *)

(** A flow that has ended. *)
Definition dead_context : Context := SetState TERMINATED orphan_context.

(** A child flow with nothing outstanding. *)
Definition idle_child : Context := set_outstanding_requests 0 child_context.

(** A flow whose [End] raises. *)
Definition failing_end_flow : Flow :=
  mkFlow (fun name request responses c w => (c, w, None))
         (fun c w => (c, w, Some "Traceback (most recent call last): KeyError")).

(** A flow object on which every name is a state method. *)
Definition any_state (name : string) : option bool := Some true.

(** The store of the parent of [child_context]: the request the child
    answers, and a request of another session. *)
Definition parent_world : World :=
  mkWorld
    [(FLOW_STATE_TEMPLATE "W:AAAA0001", FLOW_REQUEST_TEMPLATE 4,
      SerRequest sample_parent);
     (FLOW_STATE_TEMPLATE hunt_session, FLOW_REQUEST_TEMPLATE 1,
      SerRequest (hunt_request 1 "C.0000000000000001" 11))] 100 [].


(** * Properties *)

(** ** Strings *)

Example hex8_26 : hex8 26 = "0000001A".
Proof. reflexivity. Qed.
Example hex8_big : hex8 4886718345 = "123456789".
Proof. reflexivity. Qed.
Example hex8_neg : hex8 (-1) = "-0000001".
Proof. reflexivity. Qed.
Example split_colon_key :
  split_colon "flow:response:0000000A:00000001"
  = ["flow"; "response"; "0000000A"; "00000001"].
Proof. reflexivity. Qed.

Lemma append_nil_l (s : string) : "" +:+ s = s.
Proof. reflexivity. Qed.

Lemma append_cons (a : ascii) (s1 s2 : string) :
  String a s1 +:+ s2 = String a (s1 +:+ s2).
Proof. reflexivity. Qed.

Lemma append_nil_r (s : string) : s +:+ "" = s.
Proof.
  induction s as [|a s IH]; [reflexivity|].
  rewrite append_cons, IH. reflexivity.
Qed.

Lemma append_assoc (s1 s2 s3 : string) :
  (s1 +:+ s2) +:+ s3 = s1 +:+ (s2 +:+ s3).
Proof.
  induction s1 as [|a s1 IH]; [reflexivity|].
  rewrite !append_cons, IH. reflexivity.
Qed.

Lemma rev_app_append (s1 s2 : string) :
  String.rev_app s1 s2 = String.rev s1 +:+ s2.
Proof.
  unfold String.rev. revert s2.
  induction s1 as [|a s1 IH]; intros s2; [reflexivity|].
  simpl. rewrite (IH (String a s2)), (IH (String a "")).
  rewrite append_assoc. reflexivity.
Qed.

Lemma split_colon_aux_head (q rest cur : string) :
  colon_free q = true ->
  head (split_colon_aux cur (q +:+ String ":"%char rest))
  = Some (String.rev cur +:+ q).
Proof.
  revert cur. induction q as [|a q IH]; intros cur Hq.
  - rewrite append_nil_l, append_nil_r. reflexivity.
  - simpl in Hq. apply andb_prop in Hq as [Ha Hq].
    rewrite append_cons. simpl.
    destruct (Ascii.eqb a ":"%char); [discriminate|].
    rewrite (IH _ Hq). f_equal.
    unfold String.rev. simpl.
    rewrite (rev_app_append cur (String a "")), append_assoc.
    rewrite rev_app_append, append_nil_r. reflexivity.
Qed.

(** The first component of ["<queue>:<rest>"] is ["<queue>"]. *)
Lemma split_colon_head (q rest : string) :
  colon_free q = true ->
  default "" (head (split_colon (q +:+ ":" +:+ rest))) = q.
Proof.
  intros Hq. unfold split_colon.
  change (":" +:+ rest) with (String ":"%char rest).
  rewrite (split_colon_aux_head q rest "" Hq). reflexivity.
Qed.

(** ** Journal bookkeeping *)

Lemma journal_record (c : Call) (w : World) :
  journal (record c w) = journal w ++ [c].
Proof. reflexivity. Qed.

Lemma journal_Flush (fm : FlowManager.t) (w : World) :
  journal (Flush fm w).2
  = journal w ++ [DB_MultiSet (FlowManager.subject fm) (FlowManager.to_write fm)
                    (FlowManager.to_delete fm) (FlowManager.sync fm);
                  SCHEDULER_Delete (FlowManager.client_id fm)
                    (FlowManager.client_messages fm)].
Proof. unfold Flush. simpl. rewrite <- app_assoc. reflexivity. Qed.

Lemma cpu_eta (u : CpuSeconds.t) :
  CpuSeconds.mk (CpuSeconds.user_cpu_time u) (CpuSeconds.system_cpu_time u) = u.
Proof. destruct u; reflexivity. Qed.

(** ** SendReply *)

(** C9.  A flow whose flow_pb has no request_state has no parent:
    SendReply hands back the context and the world exactly as it got them,
    so nothing is written, scheduled or notified, and no counter, buffer or
    flow record changes. *)
Theorem SendReply_without_parent (response_proto : Payload) (c : Context)
    (w : World) :
  FlowPB.request_state (flow_pb c) = None ->
  SendReply response_proto c w = (c, w).
Proof. intros H. unfold SendReply. rewrite H. reflexivity. Qed.

(** C7.  With a parent, a STATUS reply is queued under the parent's session
    with response_id the incremented response_count, the parent request's
    id, type STATUS, and a payload stamped with the child's session id and
    resource counters; the same message is scheduled as a task on the
    parent's worker queue, which is the session id up to its first colon;
    and whatever the payload, the call ends by notifying that queue. *)
Theorem SendReply_status_to_parent (st : GrrStatus.t) (c : Context) (w : World)
    (parent : RequestState.t) :
  FlowPB.request_state (flow_pb c) = Some parent ->
  let response_id := RequestState.response_count parent + 1 in
  let worker_queue := worker_queue_of parent in
  (exists reply msg,
     GrrMessage.response_id msg = response_id /\
     GrrMessage.request_id msg = RequestState.id parent /\
     GrrMessage.session_id msg = RequestState.session_id parent /\
     GrrMessage.type msg = STATUS /\
     GrrMessage.args msg = PStatus reply /\
     GrrStatus.child_session_id reply = session_id c /\
     GrrStatus.cpu_time_used reply = FlowPB.cpu_used (flow_pb c) /\
     GrrStatus.network_bytes_sent reply = FlowPB.network_bytes_sent (flow_pb c) /\
     GrrStatus.status reply = GrrStatus.status st /\
     GrrStatus.error_message reply = GrrStatus.error_message st /\
     journal (SendReply (PStatus st) c w).2
     = journal w
       ++ [SCHEDULER_Schedule [Task.mk worker_queue (next_task_id w) msg] false;
           DB_MultiSet (FLOW_STATE_TEMPLATE (RequestState.session_id parent))
             {[ FLOW_RESPONSE_TEMPLATE (RequestState.id parent) response_id
                := [SerMessage msg] ]} [] true;
           SCHEDULER_Delete None [];
           SCHEDULER_NotifyQueue worker_queue (RequestState.session_id parent)]) /\
  FlowPB.request_state (flow_pb (SendReply (PStatus st) c w).1)
  = Some (RequestState.set_response_count response_id parent) /\
  (forall response_proto,
     last (journal (SendReply response_proto c w).2)
     = Some (SCHEDULER_NotifyQueue worker_queue (RequestState.session_id parent))) /\
  (forall q rest,
     colon_free q = true ->
     RequestState.session_id parent = q +:+ ":" +:+ rest ->
     worker_queue = q).
Proof.
  intros Hparent response_id worker_queue.
  split; [|split; [|split]].
  - exists (send_resource_usage c st).
    exists (GrrMessage.mk (RequestState.session_id parent) ""
              (RequestState.id parent) response_id STATUS AUTHENTICATED 0
              (PStatus (send_resource_usage c st))).
    repeat (split; [reflexivity || (cbn; apply cpu_eta)|]).
    unfold SendReply. rewrite Hparent. cbn [is_GrrStatus].
    cbv zeta. cbn [fst snd].
    unfold NotifyQueue. rewrite journal_record, journal_Flush.
    unfold QueueResponse, with_to_write, setdefault_append, FlowManager_init.
    cbn [FlowManager.to_write FlowManager.subject FlowManager.to_delete
         FlowManager.sync FlowManager.client_id FlowManager.client_messages
         FlowManager.session_id].
    rewrite lookup_empty. cbn [default app].
    unfold Schedule. cbn [snd assign_ids Task.set_id Task.queue Task.value].
    rewrite journal_record. cbn [journal].
    rewrite insert_empty, <- !app_assoc. reflexivity.
  - unfold SendReply. rewrite Hparent. reflexivity.
  - intros response_proto. unfold SendReply. rewrite Hparent.
    destruct response_proto; cbn [is_GrrStatus]; cbv zeta; cbn [fst snd];
      unfold NotifyQueue; rewrite journal_record; apply last_snoc.
  - intros q rest Hq Hsid. unfold worker_queue, worker_queue_of.
    rewrite Hsid. apply split_colon_head, Hq.
Qed.

(** ** FetchRequestsAndResponses *)

Lemma wf_map_insert (m : gmap Z Meta.t) (r : RequestState.t)
    (resps : option (list GrrMessage.t)) :
  Forall (fun resp => GrrMessage.request_id resp = RequestState.id r)
         (default [] resps) ->
  wf_map m -> wf_map (<[RequestState.id r := Meta.mk (Some r) resps]> m).
Proof.
  intros Hresps Hm k md. rewrite lookup_insert. case_decide as Hk.
  - intros [= <-]. subst k. split; [|exact Hresps].
    exists r. split; reflexivity.
  - apply Hm.
Qed.

Lemma request_step_wf (acc : gmap Z Meta.t * string * Z)
    (row : string * Serialized) :
  wf_map acc.1.1 -> wf_map (request_step acc row).1.1.
Proof.
  destruct acc as [[m mx] n]. simpl. intros Hm.
  apply wf_map_insert; [|exact Hm].
  destruct (m !! RequestState.id (parse_RequestState row.2)) as [md|] eqn:Hmd.
  - apply (Hm _ _ Hmd).
  - constructor.
Qed.

Lemma request_step_keeps (acc : gmap Z Meta.t * string * Z)
    (row : string * Serialized) (k : Z) :
  is_Some (acc.1.1 !! k) -> is_Some ((request_step acc row).1.1 !! k).
Proof.
  destruct acc as [[m mx] n]. simpl. intros Hk.
  rewrite lookup_insert. case_decide; [eauto|exact Hk].
Qed.

Lemma request_step_count (acc : gmap Z Meta.t * string * Z)
    (row : string * Serialized) :
  (request_step acc row).2 = acc.2 + 1.
Proof. destruct acc as [[m mx] n]. reflexivity. Qed.

Lemma request_fold_wf (rows : list (string * Serialized))
    (acc : gmap Z Meta.t * string * Z) :
  wf_map acc.1.1 -> wf_map (fold_left request_step rows acc).1.1.
Proof.
  revert acc. induction rows as [|row rows IH]; intros acc Hacc; [exact Hacc|].
  simpl. apply IH, request_step_wf, Hacc.
Qed.

Lemma request_fold_keeps (rows : list (string * Serialized))
    (acc : gmap Z Meta.t * string * Z) (k : Z) :
  is_Some (acc.1.1 !! k) ->
  is_Some ((fold_left request_step rows acc).1.1 !! k).
Proof.
  revert acc. induction rows as [|row rows IH]; intros acc Hacc; [exact Hacc|].
  simpl. apply IH, request_step_keeps, Hacc.
Qed.

Lemma request_fold_count (rows : list (string * Serialized))
    (acc : gmap Z Meta.t * string * Z) :
  (fold_left request_step rows acc).2 = acc.2 + Z.of_nat (length rows).
Proof.
  revert acc. induction rows as [|row rows IH]; intros acc.
  - simpl. lia.
  - cbn [fold_left length]. rewrite IH, request_step_count. lia.
Qed.



Lemma response_loop_wf (mx : string) (rows : list (string * Serialized))
    (m : gmap Z Meta.t) (n : Z) :
  wf_map m -> wf_map (response_loop mx rows m n).1.
Proof.
  revert m n. induction rows as [|row rows IH]; intros m n Hm; simpl.
  - exact Hm.
  - destruct (String.ltb mx (component2 row.1)); simpl; [exact Hm|].
    destruct (m !! GrrMessage.request_id (parse_GrrMessage row.2))
      as [md|] eqn:Hmd; apply IH; [|exact Hm].
    destruct (Hm _ _ Hmd) as [(r & Hr & Hid) Hresps].
    rewrite Hr, <- Hid. apply wf_map_insert; [|exact Hm].
    cbn [default]. rewrite Hid. apply Forall_app. split; [exact Hresps|].
    constructor; [reflexivity|constructor].
Qed.

Lemma response_loop_keeps (mx : string) (rows : list (string * Serialized))
    (m : gmap Z Meta.t) (n : Z) (k : Z) :
  is_Some (m !! k) -> is_Some ((response_loop mx rows m n).1 !! k).
Proof.
  revert m n. induction rows as [|row rows IH]; intros m n Hk; simpl.
  - exact Hk.
  - destruct (String.ltb mx (component2 row.1)); simpl; [exact Hk|].
    destruct (m !! GrrMessage.request_id (parse_GrrMessage row.2));
      apply IH; [|exact Hk].
    rewrite lookup_insert. case_decide; [eauto|exact Hk].
Qed.

Lemma fetch_scan_wf (fm : FlowManager.t) (w : World) :
  wf_map (scan_map (fetch_scan fm w)).
Proof.
  unfold fetch_scan.
  pose proof (request_fold_wf
    (sorted_rows (ResolveRegex (db w) (FLOW_STATE_TEMPLATE (FlowManager.session_id fm))
                    FLOW_REQUEST_REGEX request_limit))
    ({[ 0 := Meta.mk (Some RequestState.default) None ]}, "00000000", 0)) as H.
  destruct (fold_left request_step _ _) as [[m mx] n]. simpl in H.
  pose proof (response_loop_wf mx
    (sorted_rows (ResolveRegex (db w) (FLOW_STATE_TEMPLATE (FlowManager.session_id fm))
                    FLOW_RESPONSE_REGEX response_limit)) m 0) as H'.
  destruct (response_loop _ _ _ _) as [m' n']. simpl in *.
  apply H', H. intros k md. rewrite lookup_singleton.
  case_decide as Hk; [|discriminate].
  intros [= <-]. split; [|constructor].
  exists RequestState.default. split; [reflexivity|exact Hk].
Qed.

Lemma fetch_scan_zero (fm : FlowManager.t) (w : World) :
  is_Some (scan_map (fetch_scan fm w) !! 0).
Proof.
  unfold fetch_scan.
  pose proof (request_fold_keeps
    (sorted_rows (ResolveRegex (db w) (FLOW_STATE_TEMPLATE (FlowManager.session_id fm))
                    FLOW_REQUEST_REGEX request_limit))
    ({[ 0 := Meta.mk (Some RequestState.default) None ]}, "00000000", 0) 0) as H.
  destruct (fold_left request_step _ _) as [[m mx] n]. simpl in H.
  pose proof (response_loop_keeps mx
    (sorted_rows (ResolveRegex (db w) (FLOW_STATE_TEMPLATE (FlowManager.session_id fm))
                    FLOW_RESPONSE_REGEX response_limit)) m 0 0) as H'.
  destruct (response_loop _ _ _ _) as [m' n']. simpl in *.
  apply H', H. rewrite lookup_singleton_eq. eauto.
Qed.

Lemma length_sorted_rows (rows : list (string * Serialized)) :
  length (sorted_rows rows) = length rows.
Proof. unfold sorted_rows. rewrite merge_sort_Permutation. reflexivity. Qed.

Lemma fetch_scan_request_count (fm : FlowManager.t) (w : World) :
  scan_request_count (fetch_scan fm w)
  = Z.of_nat (length (request_rows fm w)).
Proof.
  unfold fetch_scan, request_rows.
  pose proof (request_fold_count
    (sorted_rows (ResolveRegex (db w) (FLOW_STATE_TEMPLATE (FlowManager.session_id fm))
                    FLOW_REQUEST_REGEX request_limit))
    ({[ 0 := Meta.mk (Some RequestState.default) None ]}, "00000000", 0)) as H.
  destruct (fold_left request_step _ _) as [[m mx] n]. simpl in H.
  destruct (response_loop _ _ _ _) as [m' n']. simpl.
  rewrite H, length_sorted_rows. lia.
Qed.


Lemma sorted_keys_elem (m : gmap Z Meta.t) (k : Z) :
  k ∈ sorted_keys m <-> is_Some (m !! k).
Proof.
  unfold sorted_keys. rewrite merge_sort_Permutation.
  rewrite list_elem_of_fmap. split.
  - intros ([k' md] & -> & Hin). apply elem_of_map_to_list in Hin.
    simpl. eauto.
  - intros [md Hmd]. exists (k, md). split; [reflexivity|].
    apply elem_of_map_to_list, Hmd.
Qed.

Lemma strictly_sorted (l : list Z) :
  Sorted Z.le l -> NoDup l -> StronglySorted Z.lt l.
Proof.
  intros Hs Hn. apply Sorted_StronglySorted in Hs; [|apply _].
  induction Hs as [|x l Hs IH Hx]; [constructor|].
  apply NoDup_cons in Hn as [Hxl Hn].
  constructor; [apply IH, Hn|].
  rewrite Forall_forall in Hx |- *. intros y Hy.
  specialize (Hx y Hy).
  assert (x <> y) by (intros ->; apply Hxl, Hy). lia.
Qed.

Lemma sorted_keys_strict (m : gmap Z Meta.t) :
  StronglySorted Z.lt (sorted_keys m).
Proof.
  apply strictly_sorted.
  - apply Sorted_merge_sort. apply _.
  - unfold sorted_keys. rewrite merge_sort_Permutation.
    apply NoDup_fst_map_to_list.
Qed.

Lemma pair_of_id (m : gmap Z Meta.t) (k : Z) :
  wf_map m -> is_Some (m !! k) -> RequestState.id (pair_of m k).1 = k.
Proof.
  intros Hm [md Hmd]. unfold pair_of. rewrite Hmd.
  destruct (Hm _ _ Hmd) as [(r & -> & Hid) _]. exact Hid.
Qed.


Lemma omap_yield_of (m : gmap Z Meta.t) (keys : list Z) :
  wf_map m ->
  (forall k, k ∈ keys -> is_Some (m !! k)) ->
  omap (yield_of m) keys = (fun k => yield_pair (pair_of m k)) <$> keys.
Proof.
  intros Hm. induction keys as [|k keys IH]; intros Hkeys; [reflexivity|].
  destruct (Hkeys k) as [md Hmd]; [left|].
  destruct (Hm _ _ Hmd) as [(r & Hr & _) _].
  cbn [omap list_omap fmap list_fmap].
  unfold yield_of at 1, pair_of at 1 2, yield_pair at 1.
  rewrite Hmd, Hr. cbn [default fst snd].
  f_equal. apply IH. intros k' Hk'. apply Hkeys. right. exact Hk'.
Qed.

(** The generator's behaviour: the joined pairs, then possibly the
    sentinel, and nothing after it. *)
Lemma Fetch_shape (fm : FlowManager.t) (w : World) :
  FetchRequestsAndResponses fm w
  = (yield_pair <$> fetched fm w)
    ++ (if more_data fm w then [RaiseMoreData] else []).
Proof.
  unfold FetchRequestsAndResponses, fetched, more_data. f_equal.
  rewrite omap_yield_of.
  - rewrite <- list_fmap_compose. reflexivity.
  - apply fetch_scan_wf.
  - intros k. apply sorted_keys_elem.
Qed.

Lemma fetched_ids (fm : FlowManager.t) (w : World) :
  (fun p => RequestState.id p.1) <$> fetched fm w
  = sorted_keys (scan_map (fetch_scan fm w)).
Proof.
  unfold fetched. rewrite <- list_fmap_compose.
  rewrite <- (list_fmap_id (sorted_keys _)) at 2.
  apply list_fmap_ext. intros i k Hk. simpl.
  apply pair_of_id; [apply fetch_scan_wf|].
  apply sorted_keys_elem, list_elem_of_lookup. eauto.
Qed.

(** The sentinel request of id 0 is always there, so something is always
    yielded. *)
Lemma fetched_nonempty (fm : FlowManager.t) (w : World) :
  fetched fm w <> [].
Proof.
  intros H. pose proof (fetch_scan_zero fm w) as H0.
  apply sorted_keys_elem in H0. unfold fetched in H.
  apply fmap_nil_inv in H. rewrite H in H0. inversion H0.
Qed.


(** *** A full scan of stale responses *)

Lemma ResolveRegex_unfold (rows : list Row) (subject regex : string) (limit : Z) :
  ResolveRegex rows subject regex limit
  = take (Z.to_nat limit)
         (List.map row_of (List.filter (in_scan subject regex) rows)).
Proof. reflexivity. Qed.












(** ** FlowManager: what a scope dequeues *)

Lemma delete_each_snoc calls call fm :
  delete_each (calls ++ [call]) fm
  = DeleteFlowRequestStates (delete_each calls fm) (Some call.1) call.2.
Proof. unfold delete_each. rewrite fold_left_app. reflexivity. Qed.

Lemma delete_each_frame calls fm :
  FlowManager.subject (delete_each calls fm) = FlowManager.subject fm /\
  FlowManager.sync (delete_each calls fm) = FlowManager.sync fm /\
  FlowManager.to_write (delete_each calls fm) = FlowManager.to_write fm /\
  FlowManager.client_messages (delete_each calls fm)
  = FlowManager.client_messages fm ++ ts_ids calls.
Proof.
  revert fm. induction calls as [|call calls IH]; intros fm.
  - simpl. rewrite app_nil_r. auto.
  - change (delete_each (call :: calls) fm)
      with (delete_each calls (DeleteFlowRequestStates fm (Some call.1) call.2)).
    destruct (IH (DeleteFlowRequestStates fm (Some call.1) call.2))
      as (-> & -> & -> & ->).
    cbn. rewrite <- app_assoc. auto.
Qed.

Lemma destroy_loop_yields calls tail fm :
  tail = [] \/ tail = [RaiseMoreData] ->
  let out := destroy_loop ((yield_pair <$> calls) ++ tail) fm in
  out.2 = match tail with [] => false | _ => true end /\
  FlowManager.subject out.1 = FlowManager.subject fm /\
  FlowManager.sync out.1 = FlowManager.sync fm /\
  FlowManager.to_write out.1 = FlowManager.to_write fm /\
  FlowManager.to_delete out.1 = FlowManager.to_delete fm /\
  FlowManager.client_messages out.1
  = FlowManager.client_messages fm ++ ts_ids calls /\
  FlowManager.client_id out.1
  = match last calls with
    | Some call => Some (RequestState.client_id call.1)
    | None => FlowManager.client_id fm
    end.
Proof.
  intros Htail. revert fm. induction calls as [|call calls IH]; intros fm.
  - cbn [fmap list_fmap app ts_ids last].
    destruct Htail as [-> | ->]; cbn; rewrite app_nil_r; auto 10.
  - cbn [fmap list_fmap app yield_pair destroy_loop].
    specialize (IH (FlowManager.mk (FlowManager.session_id fm)
           (FlowManager.subject fm) (FlowManager.sync fm)
           (FlowManager.to_write fm) (FlowManager.to_delete fm)
           (FlowManager.client_messages fm ++ [RequestState.ts_id call.1])
           (Some (RequestState.client_id call.1)))).
    cbv zeta in IH |- *.
    destruct IH as (-> & -> & -> & -> & -> & -> & ->).
    cbn [FlowManager.subject FlowManager.sync FlowManager.to_write
         FlowManager.to_delete FlowManager.client_messages
         FlowManager.client_id].
    repeat split; try reflexivity.
    + unfold ts_ids. cbn [fmap list_fmap]. rewrite <- app_assoc. reflexivity.
    + destruct calls as [|call' calls]; [reflexivity|].
      rewrite !last_cons. destruct (last calls); reflexivity.
Qed.

(** C10.  A scope's DeleteFlowRequestStates calls, and the loop of
    DestroyFlowStates, each overwrite the one client_id field while the
    task ids pile up, so the Flush that closes the scope makes a single
    scheduler Delete call: all the accumulated task ids, under the client
    of the request recorded last, whatever clients the earlier requests
    were addressed to. *)
Theorem Flush_dequeues_under_last_client (session : string)
    (calls : list (RequestState.t * list GrrMessage.t))
    (final : RequestState.t * list GrrMessage.t) (w : World) :
  (exists to_delete,
     journal (Flush (delete_each (calls ++ [final]) (FlowManager_init session)) w).2
     = journal w
       ++ [DB_MultiSet (FLOW_STATE_TEMPLATE session) ∅ to_delete true;
           SCHEDULER_Delete (Some (RequestState.client_id final.1))
                            (ts_ids (calls ++ [final]))]) /\
  (exists earlier latest,
     fetched (FlowManager_init session) w = earlier ++ [latest] /\
     let out := DestroyFlowStates (FlowManager_init session) w in
     journal (Flush out.1.1 out.1.2).2
     = journal out.1.2
       ++ [DB_MultiSet (FLOW_STATE_TEMPLATE session) ∅ [] true;
           SCHEDULER_Delete (Some (RequestState.client_id latest.1))
                            (ts_ids (earlier ++ [latest]))]).
Proof.
  split.
  - exists (FlowManager.to_delete
              (delete_each (calls ++ [final]) (FlowManager_init session))).
    rewrite journal_Flush.
    destruct (delete_each_frame (calls ++ [final]) (FlowManager_init session))
      as (-> & -> & -> & ->).
    rewrite delete_each_snoc. reflexivity.
  - destruct (fetched (FlowManager_init session) w)
      as [|p ps] eqn:Hfetched using rev_ind.
    { exfalso. exact (fetched_nonempty _ _ Hfetched). }
    clear IHps. exists ps, p. split; [reflexivity|].
    unfold DestroyFlowStates. rewrite Fetch_shape, Hfetched.
    pose proof (destroy_loop_yields (ps ++ [p])
                  (if more_data (FlowManager_init session) w
                   then [RaiseMoreData] else [])
                  (FlowManager_init session)) as H.
    cbv zeta in H.
    destruct (destroy_loop _ _) as [fm more]. simpl in H.
    destruct H as (_ & Hsubj & Hsync & Hwrite & Hdel & Hmsgs & Hcid).
    { destruct (more_data _ _); auto. }
    rewrite last_snoc in Hcid.
    destruct more; cbv zeta; cbn [fst snd]; rewrite journal_Flush;
      rewrite Hsubj, Hsync, Hwrite, Hdel, Hmsgs, Hcid; reflexivity.
Qed.

(** ** Terminate *)

(** C4, the code at the failing input.  Terminate on a session with
    requests for two clients empties the subject and marks the flow
    TERMINATED, but the one scheduler Delete it makes names the second
    client only: task 11, scheduled on the first client's queue, is never
    passed to a Delete for that queue. *)
Theorem Terminate_dequeues_one_client_only :
  let out := Terminate (sample_context HuntFlowContext hunt_session None)
                       two_client_world in
  db out.2 = [] /\
  FlowPB.state (flow_pb out.1) = TERMINATED /\
  journal out.2
  = [DB_DeleteSubject (FLOW_STATE_TEMPLATE hunt_session);
     DB_MultiSet (FLOW_STATE_TEMPLATE hunt_session) ∅ [] true;
     SCHEDULER_Delete (Some "C.0000000000000002") [0; 11; 22];
     FLOW_Save (flow_pb out.1)].
Proof. vm_compute. repeat split; reflexivity. Qed.

(** ** CallClient and CallFlow *)

Lemma mem_string_spec (s : string) (l : list string) :
  mem_string s l = true <-> s ∈ l.
Proof.
  unfold mem_string. rewrite existsb_exists. split.
  - intros (x & Hx & Heq). apply String.eqb_eq in Heq as ->.
    apply list_elem_of_In, Hx.
  - intros Hs. exists s. split; [apply list_elem_of_In, Hs|apply String.eqb_refl].
Qed.


Lemma truthy_true (s : string) : s <> "" -> truthy s = true.
Proof.
  intros Hs. unfold truthy. destruct (String.eqb s "") eqn:H; [|reflexivity].
  apply String.eqb_eq in H. contradiction.
Qed.



(** ** Error handling of a dispatch *)

Lemma SendReply_status_journal (st : GrrStatus.t) (c : Context) (w : World) :
  journal (SendReply (PStatus st) c w).2
  = journal w ++ reply_calls c (next_task_id w) st.
Proof.
  unfold SendReply, reply_calls.
  destruct (FlowPB.request_state (flow_pb c)) as [parent|];
    [|cbn; rewrite app_nil_r; reflexivity].
  cbn [is_GrrStatus]. cbv zeta. cbn [fst snd].
  unfold NotifyQueue. rewrite journal_record, journal_Flush.
  unfold QueueResponse, with_to_write, setdefault_append, FlowManager_init.
  cbn [FlowManager.to_write FlowManager.subject FlowManager.to_delete
       FlowManager.sync FlowManager.client_id FlowManager.client_messages
       FlowManager.session_id].
  rewrite lookup_empty. cbn [default app].
  unfold Schedule. cbn [snd assign_ids Task.set_id Task.queue Task.value].
  rewrite journal_record. cbn [journal].
  rewrite insert_empty, <- !app_assoc. reflexivity.
Qed.

(** All that [SendReply] changes in the context is the parent's
    [response_count]. *)
Lemma SendReply_context (p : Payload) (c : Context) (w : World) :
  (SendReply p c w).1
  = set_flow_pb
      (FlowPB.set_request_state
         ((fun parent =>
             RequestState.set_response_count
               (RequestState.response_count parent + 1) parent)
            <$> FlowPB.request_state (flow_pb c))
         (flow_pb c)) c.
Proof.
  unfold SendReply.
  destruct (FlowPB.request_state (flow_pb c)) as [parent|] eqn:Hparent.
  - destruct p; reflexivity.
  - cbn. destruct c as [? ? ? ? ? ? ? ? ? ? pb]. cbn in *.
    destruct pb. cbn in *. subst. reflexivity.
Qed.

Lemma SendReply_frame (p : Payload) (c : Context) (w : World) :
  let c' := (SendReply p c w).1 in
  class c' = class c /\
  session_id c' = session_id c /\
  client_id c' = client_id c /\
  next_processed_request c' = next_processed_request c /\
  FlowPB.state (flow_pb c') = FlowPB.state (flow_pb c) /\
  FlowPB.backtrace (flow_pb c') = FlowPB.backtrace (flow_pb c).
Proof. cbv zeta. rewrite SendReply_context. repeat split; reflexivity. Qed.

(** C2 (as amended).  When a dispatched state method raises, the dispatch
    itself returns normally.  On a FlowContext that is still RUNNING, the
    flow state becomes ERROR, the backtrace is stored in the flow record,
    the parent (if any) is sent a STATUS reply with GENERIC_ERROR carrying
    the backtrace, the flow is saved and the user notified.  On a
    HuntFlowContext the error is only logged against the client and the
    flow record is left as the state method left it. *)
Theorem state_method_failure_is_contained (parent_flow : Flow) (debug : bool)
    (request : RequestState.t) (responses : list GrrMessage.t)
    (c c' : Context) (w w' : World) (backtrace : string) :
  state_method parent_flow (RequestState.next_state request) request responses
    (set_current_state (RequestState.next_state request) c) w
  = (c', w', Some backtrace) ->
  backtrace <> "" ->
  let out := _ProcessSingleRequest parent_flow debug request responses c w in
  let reply := GrrStatus.mk GENERIC_ERROR backtrace CpuSeconds.default 0 "" in
  (class c' = FlowContext -> FlowPB.state (flow_pb c') = RUNNING ->
     FlowPB.state (flow_pb out.1) = ERROR /\
     FlowPB.backtrace (flow_pb out.1) = backtrace /\
     journal out.2
     = journal w'
       ++ [STATS_Increment "grr_flow_errors"]
       ++ reply_calls (SetState ERROR c') (next_task_id w') reply
       ++ [FLOW_Save (flow_pb out.1)]
       ++ (if debug then [PDB_set_trace] else [])
       ++ [FLOW_Notify "FlowStatus" (client_id c')
             ("Flow (" +:+ session_id c' +:+ ") terminated due to error")] /\
     GrrStatus.status (send_resource_usage (SetState ERROR c') reply)
     = GENERIC_ERROR /\
     GrrStatus.error_message (send_resource_usage (SetState ERROR c') reply)
     = backtrace) /\
  (class c' = HuntFlowContext ->
     out = (c', record (FLOW_LogClientError
                          (str_or (RequestState.client_id request) (client_id c))
                          (Some backtrace))
                  (record (STATS_Increment "grr_flow_errors") w'))).
Proof.
  intros Hraise Hbt out reply. subst out.
  unfold _ProcessSingleRequest. rewrite Hraise.
  cbn [client_id set_current_state].
  split.
  - intros Hclass Hrunning. unfold Error. rewrite Hclass.
    unfold FlowContext_Error, IsRunning. rewrite Hrunning.
    rewrite bool_decide_eq_true_2 by reflexivity.
    rewrite (truthy_true _ Hbt).
    change (GrrStatus.set_error_message backtrace
              (GrrStatus.set_status GENERIC_ERROR GrrStatus.default))
      with reply.
    pose proof (SendReply_status_journal reply (SetState ERROR c')
                  (record (STATS_Increment "grr_flow_errors") w')) as Hj.
    pose proof (SendReply_frame (PStatus reply) (SetState ERROR c')
                  (record (STATS_Increment "grr_flow_errors") w'))
      as (_ & Hsid & Hcid & _ & Hstate & _).
    destruct (SendReply (PStatus reply) (SetState ERROR c')
                (record (STATS_Increment "grr_flow_errors") w')) as [c2 w2].
    cbn [fst snd] in *.
    split; [exact Hstate|]. split; [reflexivity|].
    split; [|split; reflexivity].
    cbn [client_id session_id set_flow_pb].
    rewrite Hsid, Hcid. cbn [client_id session_id SetState set_flow_pb].
    destruct debug; rewrite !journal_record, Hj; cbn [journal record next_task_id];
      rewrite <- !app_assoc; reflexivity.
  - intros Hclass. unfold Error. rewrite Hclass. reflexivity.
Qed.

(** C2, counterexample to the claim as worded.  A state method of a hunt
    raises: the flow state is still RUNNING afterwards, and nothing but the
    error counter and the client error log is touched -- no reply to the
    parent, no save, no notification. *)
Lemma hunt_state_method_failure_keeps_running :
  let c := sample_context HuntFlowContext hunt_session (Some sample_parent) in
  let out := _ProcessSingleRequest failing_flow false
               (hunt_request 1 "C.0000000000000001" 11) [] c empty_world in
  FlowPB.state (flow_pb out.1) = RUNNING /\
  FlowPB.backtrace (flow_pb out.1) = "" /\
  journal out.2
  = [STATS_Increment "grr_flow_errors";
     FLOW_LogClientError (Some "C.0000000000000001")
       (Some "Traceback (most recent call last): ValueError")].
Proof. vm_compute. repeat split; reflexivity. Qed.

(** ** The main loop of ProcessCompletedRequests *)


(** A whole pass over a request with a gap.  After four transmissions the
    request is claimed and put back on the buffer with count 5; after five
    it is claimed and dropped.  In both passes nothing is dispatched, the
    cursor and the outstanding count stay, and the flow is RUNNING. *)
Example gap_after_four_transmissions :
  let out := ProcessCompletedRequests quiet_flow false orphan_context
               (gapped_world 4) in
  FlowPB.state (flow_pb out.1) = RUNNING /\
  RequestState.transmission_count <$> new_request_states out.1 = [5] /\
  next_processed_request out.1 = 1 /\
  _outstanding_requests out.1 = 2 /\
  journal out.2
  = [DB_MultiSet (FLOW_STATE_TEMPLATE ordered_session) ∅
       ["flow:request:00000001"; "flow:response:00000001:00000001";
        "flow:response:00000001:00000003"] true;
     SCHEDULER_Delete (Some "C.0000000000000001") [11]].
Proof. vm_compute. repeat split; reflexivity. Qed.

Example gap_after_five_transmissions :
  let out := ProcessCompletedRequests quiet_flow false orphan_context
               (gapped_world 5) in
  FlowPB.state (flow_pb out.1) = RUNNING /\
  new_request_states out.1 = [] /\
  next_processed_request out.1 = 1 /\
  _outstanding_requests out.1 = 2 /\
  journal out.2
  = [DB_MultiSet (FLOW_STATE_TEMPLATE ordered_session) ∅
       ["flow:request:00000001"; "flow:response:00000001:00000001";
        "flow:response:00000001:00000003"] true;
     SCHEDULER_Delete (Some "C.0000000000000001") [11]].
Proof. vm_compute. repeat split; reflexivity. Qed.



Lemma consecutive_snoc (first : Z) (n : nat) :
  consecutive first (S n) = consecutive first n ++ [first + Z.of_nat n].
Proof.
  unfold consecutive. rewrite seq_S, fmap_app. reflexivity.
Qed.





(** ** FlushMessages *)

(** *** GroupBy partitions its items by key *)






(** *** Task ids reach the request objects *)





Lemma scheduled_tasks_app (calls1 calls2 : list Call) :
  scheduled_tasks (calls1 ++ calls2)
  = scheduled_tasks calls1 ++ scheduled_tasks calls2.
Proof. unfold scheduled_tasks. rewrite map_app, concat_app. reflexivity. Qed.

Lemma storing_calls_schedule_nothing (calls : list Call) :
  Forall storing_call calls -> scheduled_tasks calls = [].
Proof.
  induction 1 as [|call calls Hcall _ IH]; [reflexivity|].
  unfold scheduled_tasks in *. cbn [List.map concat]. rewrite IH.
  destruct call; try contradiction; reflexivity.
Qed.



Lemma elem_of_List_filter {A} (f : A -> bool) (l : list A) (x : A) :
  x ∈ List.filter f l <-> x ∈ l /\ f x = true.
Proof. rewrite !list_elem_of_In. apply filter_In. Qed.





(** *** Every flushed request is queued *)







(** ** The theorems at work on the sample flows *)

(** C9 on [orphan_context]: it has no parent, and a reply changes
    nothing. *)
Lemma SendReply_without_parent_witness :
  FlowPB.request_state (flow_pb orphan_context) = None /\
  SendReply (PStatus GrrStatus.default) orphan_context empty_world
  = (orphan_context, empty_world).
Proof.
  split; [reflexivity|].
  apply SendReply_without_parent. reflexivity.
Defined.

(** C7 on [child_context]: the first reply to [sample_parent] brings its
    response_count to 1 and ends by notifying queue W. *)
Lemma SendReply_status_to_parent_witness :
  FlowPB.request_state (flow_pb child_context) = Some sample_parent /\
  FlowPB.request_state
    (flow_pb (SendReply (PStatus GrrStatus.default) child_context empty_world).1)
  = Some (RequestState.set_response_count 1 sample_parent) /\
  last (journal (SendReply (PStatus GrrStatus.default) child_context
                   empty_world).2)
  = Some (SCHEDULER_NotifyQueue "W" "W:AAAA0001") /\
  worker_queue_of sample_parent = "W".
Proof.
  split; [reflexivity|].
  destruct (SendReply_status_to_parent GrrStatus.default child_context
              empty_world sample_parent eq_refl) as (_ & Hcount & Hnotify & Hqueue).
  split; [exact Hcount|].
  split; [exact (Hnotify (PStatus GrrStatus.default))|].
  exact (Hqueue "W" "AAAA0001" eq_refl eq_refl).
Defined.


(** C2 on [child_context] with [failing_flow]: the dispatch of request 1
    leaves the flow in ERROR with the traceback stored. *)
Lemma state_method_failure_is_contained_witness :
  state_method failing_flow "Done" (ordered_request 1) []
    (set_current_state "Done" child_context) empty_world
  = (set_current_state "Done" child_context, empty_world,
     Some "Traceback (most recent call last): ValueError") /\
  FlowPB.state
    (flow_pb (_ProcessSingleRequest failing_flow false (ordered_request 1) []
                child_context empty_world).1) = ERROR /\
  FlowPB.backtrace
    (flow_pb (_ProcessSingleRequest failing_flow false (ordered_request 1) []
                child_context empty_world).1)
  = "Traceback (most recent call last): ValueError".
Proof.
  split; [reflexivity|].
  assert (Hbt : "Traceback (most recent call last): ValueError" <> "")
    by discriminate.
  destruct (state_method_failure_is_contained failing_flow false
              (ordered_request 1) [] child_context
              (set_current_state "Done" child_context) empty_world empty_world
              "Traceback (most recent call last): ValueError" eq_refl Hbt)
    as [Hordered _].
  destruct (Hordered eq_refl eq_refl) as (Hstate & Hbacktrace & _).
  split; [exact Hstate|exact Hbacktrace].
Defined.




(** * Further properties *)

(** ** The key layout *)

Lemma hex_value_digit (d : Z) : 0 <= d < 16 -> hex_value (hex_digit d) = d.
Proof.
  intros Hd.
  assert (d = 0 \/ d = 1 \/ d = 2 \/ d = 3 \/ d = 4 \/ d = 5 \/ d = 6 \/ d = 7
          \/ d = 8 \/ d = 9 \/ d = 10 \/ d = 11 \/ d = 12 \/ d = 13 \/ d = 14
          \/ d = 15) as H by lia.
  repeat (destruct H as [->|H]; [reflexivity|]). subst. reflexivity.
Qed.

Lemma hex_digit_not_colon (d : Z) : Ascii.eqb (hex_digit d) ":"%char = false.
Proof.
  destruct d as [|p|p]; try reflexivity.
  do 4 (destruct p as [p|p|]; try reflexivity).
Qed.

Lemma hex_aux_acc (fuel : nat) (n : Z) (acc : string) :
  hex_aux fuel n acc = hex_aux fuel n "" +:+ acc.
Proof.
  revert n acc. induction fuel as [|fuel IH]; intros n acc; [reflexivity|].
  cbn [hex_aux]. destruct (n / 16 =? 0); [reflexivity|].
  rewrite (IH (n / 16) (String _ acc)), (IH (n / 16) (String _ "")).
  rewrite append_assoc. reflexivity.
Qed.

Lemma unhex_aux_append (v : Z) (s1 s2 : string) :
  unhex_aux v (s1 +:+ s2) = unhex_aux (unhex_aux v s1) s2.
Proof.
  revert v. induction s1 as [|c s1 IH]; intros v; [reflexivity|].
  rewrite append_cons. cbn [unhex_aux]. apply IH.
Qed.

Lemma unhex_hex_aux (fuel : nat) (n : Z) :
  0 <= n < 16 ^ Z.of_nat (S fuel) ->
  unhex (hex_aux fuel n "") = n.
Proof.
  revert n. induction fuel as [|fuel IH]; intros n Hn.
  - change (16 ^ Z.of_nat 1) with 16 in Hn. cbn [hex_aux]. unfold unhex.
    cbn [unhex_aux]. rewrite hex_value_digit by (apply Z.mod_pos_bound; lia).
    rewrite Z.mod_small; lia.
  - cbn [hex_aux]. destruct (n / 16 =? 0) eqn:Hq.
    + apply Z.eqb_eq in Hq. unfold unhex. cbn [unhex_aux].
      rewrite hex_value_digit by (apply Z.mod_pos_bound; lia).
      pose proof (Z.div_mod n 16). lia.
    + rewrite hex_aux_acc. unfold unhex. rewrite unhex_aux_append.
      fold (unhex (hex_aux fuel (n / 16) "")). rewrite IH.
      * cbn [unhex_aux]. rewrite hex_value_digit by (apply Z.mod_pos_bound; lia).
        pose proof (Z.div_mod n 16). lia.
      * split; [apply Z.div_pos; lia|].
        apply Z.div_lt_upper_bound; [lia|].
        rewrite <- Z.pow_succ_r by lia. rewrite <- Nat2Z.inj_succ. apply Hn.
Qed.

Lemma hex_fuel_enough (n : Z) :
  0 <= n -> n < 16 ^ Z.of_nat (S (Z.to_nat (Z.log2 n))).
Proof.
  intros Hn. rewrite Nat2Z.inj_succ, Z2Nat.id by apply Z.log2_nonneg.
  destruct (Z.eq_dec n 0) as [->|Hne]; [reflexivity|].
  pose proof (Z.log2_spec n ltac:(lia)) as [_ Hlt].
  eapply Z.lt_le_trans; [exact Hlt|].
  change 16 with (2 ^ 4). rewrite <- Z.pow_mul_r by (pose proof (Z.log2_nonneg n); lia).
  apply Z.pow_le_mono_r; pose proof (Z.log2_nonneg n); lia.
Qed.

Lemma unhex_hex (n : Z) : 0 <= n -> unhex (hex n) = n.
Proof.
  intros Hn. unfold hex. apply unhex_hex_aux. split; [exact Hn|].
  apply hex_fuel_enough, Hn.
Qed.

Lemma unhex_aux_zeros (k : nat) (s : string) :
  unhex_aux 0 (zeros k +:+ s) = unhex_aux 0 s.
Proof.
  induction k as [|k IH]; [reflexivity|].
  cbn [zeros]. rewrite append_cons. cbn [unhex_aux]. exact IH.
Qed.

(** Reading a formatted id back gives the id. *)
Lemma unhex_hex8 (n : Z) : 0 <= n -> unhex (hex8 n) = n.
Proof.
  intros Hn. unfold hex8. rewrite (proj2 (Z.ltb_ge n 0) Hn).
  unfold unhex. rewrite unhex_aux_zeros. apply unhex_hex, Hn.
Qed.

Lemma colon_free_append (s1 s2 : string) :
  colon_free (s1 +:+ s2) = colon_free s1 && colon_free s2.
Proof.
  induction s1 as [|c s1 IH]; [reflexivity|].
  rewrite append_cons. cbn [colon_free]. rewrite IH, andb_assoc. reflexivity.
Qed.

Lemma colon_free_hex_aux (fuel : nat) (n : Z) (acc : string) :
  colon_free (hex_aux fuel n acc) = colon_free acc.
Proof.
  revert n acc. induction fuel as [|fuel IH]; intros n acc.
  - cbn [hex_aux colon_free]. rewrite hex_digit_not_colon. reflexivity.
  - cbn [hex_aux]. destruct (n / 16 =? 0).
    + cbn [colon_free]. rewrite hex_digit_not_colon. reflexivity.
    + rewrite IH. cbn [colon_free]. rewrite hex_digit_not_colon. reflexivity.
Qed.

Lemma colon_free_zeros (k : nat) : colon_free (zeros k) = true.
Proof. induction k as [|k IH]; [reflexivity|]. cbn. exact IH. Qed.

Lemma colon_free_hex8 (n : Z) : colon_free (hex8 n) = true.
Proof.
  unfold hex8, hex. destruct (n <? 0).
  - cbn [colon_free]. rewrite colon_free_append, colon_free_zeros,
      colon_free_hex_aux. reflexivity.
  - rewrite colon_free_append, colon_free_zeros, colon_free_hex_aux.
    reflexivity.
Qed.

Lemma split_colon_aux_colon_free (q cur : string) :
  colon_free q = true -> split_colon_aux cur q = [String.rev cur +:+ q].
Proof.
  revert cur. induction q as [|a q IH]; intros cur Hq.
  - cbn. rewrite append_nil_r. reflexivity.
  - cbn [colon_free] in Hq. apply andb_prop in Hq as [Ha Hq].
    cbn [split_colon_aux]. destruct (Ascii.eqb a ":"%char); [discriminate|].
    rewrite (IH _ Hq). f_equal. unfold String.rev. cbn [String.rev_app].
    rewrite (rev_app_append cur (String a "")), append_assoc.
    rewrite rev_app_append, append_nil_r. reflexivity.
Qed.

Lemma split_colon_aux_cons (q rest cur : string) :
  colon_free q = true ->
  split_colon_aux cur (q +:+ String ":"%char rest)
  = (String.rev cur +:+ q) :: split_colon_aux "" rest.
Proof.
  revert cur. induction q as [|a q IH]; intros cur Hq.
  - rewrite append_nil_l, append_nil_r. reflexivity.
  - cbn [colon_free] in Hq. apply andb_prop in Hq as [Ha Hq].
    rewrite append_cons. cbn [split_colon_aux].
    destruct (Ascii.eqb a ":"%char); [discriminate|].
    rewrite (IH _ Hq). f_equal. unfold String.rev. cbn [String.rev_app].
    rewrite (rev_app_append cur (String a "")), append_assoc.
    rewrite rev_app_append, append_nil_r. reflexivity.
Qed.

Lemma split_colon_request_key (id : Z) :
  split_colon (FLOW_REQUEST_TEMPLATE id) = ["flow"; "request"; hex8 id].
Proof.
  unfold FLOW_REQUEST_TEMPLATE, FLOW_REQUEST_PREFIX, split_colon.
  change ("flow:request:" +:+ hex8 id)
    with ("flow" +:+ String ":"%char ("request" +:+ String ":"%char (hex8 id))).
  rewrite split_colon_aux_cons by reflexivity.
  rewrite split_colon_aux_cons by reflexivity.
  rewrite split_colon_aux_colon_free by apply colon_free_hex8.
  reflexivity.
Qed.

Lemma split_colon_response_key (request_id response_id : Z) :
  split_colon (FLOW_RESPONSE_TEMPLATE request_id response_id)
  = ["flow"; "response"; hex8 request_id; hex8 response_id].
Proof.
  unfold FLOW_RESPONSE_TEMPLATE, FLOW_RESPONSE_PREFIX, split_colon.
  rewrite !append_assoc.
  change ("flow:response:" +:+ hex8 request_id +:+ ":" +:+ hex8 response_id)
    with ("flow" +:+ String ":"%char
            ("response" +:+ String ":"%char
               (hex8 request_id +:+ String ":"%char (hex8 response_id)))).
  rewrite split_colon_aux_cons by reflexivity.
  rewrite split_colon_aux_cons by reflexivity.
  rewrite split_colon_aux_cons by apply colon_free_hex8.
  rewrite split_colon_aux_colon_free by apply colon_free_hex8.
  reflexivity.
Qed.

Lemma request_key_inj (a b : Z) :
  0 <= a -> 0 <= b ->
  FLOW_REQUEST_TEMPLATE a = FLOW_REQUEST_TEMPLATE b -> a = b.
Proof.
  intros Ha Hb Heq. apply (f_equal split_colon) in Heq.
  rewrite !split_colon_request_key in Heq. injection Heq as Heq.
  apply (f_equal unhex) in Heq. rewrite !unhex_hex8 in Heq by assumption.
  exact Heq.
Qed.

Lemma response_key_inj (r r' a b : Z) :
  0 <= a -> 0 <= b ->
  FLOW_RESPONSE_TEMPLATE r a = FLOW_RESPONSE_TEMPLATE r' b ->
  hex8 r = hex8 r' /\ a = b.
Proof.
  intros Ha Hb Heq. apply (f_equal split_colon) in Heq.
  rewrite !split_colon_response_key in Heq. injection Heq as Heq1 Heq2.
  apply (f_equal unhex) in Heq2. rewrite !unhex_hex8 in Heq2 by assumption.
  auto.
Qed.

Lemma request_key_not_response (a r b : Z) :
  FLOW_REQUEST_TEMPLATE a <> FLOW_RESPONSE_TEMPLATE r b.
Proof.
  intros Heq. apply (f_equal split_colon) in Heq.
  rewrite split_colon_request_key, split_colon_response_key in Heq.
  discriminate.
Qed.

(** X1.  The keys can be read back.  The third colon-separated component
    of a request key, and the third and fourth of a response key, are the
    ids as formatted by "%08X", and for ids that are not negative they
    parse back to the ids; so distinct requests, and distinct responses,
    never share a key, and no request key is a response key. *)
Theorem keys_read_back (request_id response_id : Z) :
  0 <= request_id -> 0 <= response_id ->
  component2 (FLOW_REQUEST_TEMPLATE request_id) = hex8 request_id /\
  unhex (component2 (FLOW_REQUEST_TEMPLATE request_id)) = request_id /\
  (unhex <$> drop 2 (split_colon
                       (FLOW_RESPONSE_TEMPLATE request_id response_id)))
  = [request_id; response_id] /\
  (forall request_id' response_id',
     0 <= request_id' -> 0 <= response_id' ->
     (FLOW_REQUEST_TEMPLATE request_id = FLOW_REQUEST_TEMPLATE request_id' ->
      request_id = request_id') /\
     (FLOW_RESPONSE_TEMPLATE request_id response_id
      = FLOW_RESPONSE_TEMPLATE request_id' response_id' ->
      request_id = request_id' /\ response_id = response_id') /\
     FLOW_REQUEST_TEMPLATE request_id
     <> FLOW_RESPONSE_TEMPLATE request_id' response_id').
Proof.
  intros Hreq Hresp.
  assert (Hc : component2 (FLOW_REQUEST_TEMPLATE request_id) = hex8 request_id).
  { unfold component2. rewrite split_colon_request_key. reflexivity. }
  split; [exact Hc|]. split; [rewrite Hc; apply unhex_hex8, Hreq|].
  split.
  { rewrite split_colon_response_key. cbn [drop fmap list_fmap].
    rewrite !unhex_hex8 by assumption. reflexivity. }
  intros request_id' response_id' Hreq' Hresp'. split; [|split].
  - apply request_key_inj; assumption.
  - intros Heq.
    destruct (response_key_inj _ _ _ _ Hresp Hresp' Heq) as [Hr Ha].
    split; [|exact Ha]. apply (f_equal unhex) in Hr.
    rewrite !unhex_hex8 in Hr by assumption. exact Hr.
  - apply request_key_not_response.
Qed.

Lemma length_append (s1 s2 : string) :
  String.length (s1 +:+ s2) = (String.length s1 + String.length s2)%nat.
Proof.
  induction s1 as [|c s1 IH]; [reflexivity|].
  rewrite append_cons. cbn [String.length]. rewrite IH. reflexivity.
Qed.

Lemma ascii_compare_refl (c : ascii) : Ascii.compare c c = Eq.
Proof. unfold Ascii.compare. apply N.compare_refl. Qed.

Lemma compare_app_same (p s1 s2 : string) :
  String.compare (p +:+ s1) (p +:+ s2) = String.compare s1 s2.
Proof.
  induction p as [|c p IH]; [reflexivity|].
  rewrite !append_cons. cbn [String.compare].
  rewrite ascii_compare_refl. exact IH.
Qed.

Lemma compare_app_equal_length (s1 s2 t1 t2 : string) :
  String.length s1 = String.length s2 ->
  String.compare (s1 +:+ t1) (s2 +:+ t2)
  = match String.compare s1 s2 with
    | Eq => String.compare t1 t2
    | o => o
    end.
Proof.
  revert s2. induction s1 as [|a s1 IH]; intros [|b s2] Hlen;
    try discriminate; [reflexivity|].
  rewrite !append_cons. cbn [String.compare].
  destruct (Ascii.compare a b); try reflexivity.
  apply IH. cbn in Hlen. congruence.
Qed.

Lemma hex_digit_compare (d1 d2 : Z) :
  0 <= d1 < 16 -> 0 <= d2 < 16 ->
  Ascii.compare (hex_digit d1) (hex_digit d2) = (d1 ?= d2).
Proof.
  intros H1 H2.
  assert (d1 = 0 \/ d1 = 1 \/ d1 = 2 \/ d1 = 3 \/ d1 = 4 \/ d1 = 5 \/ d1 = 6
          \/ d1 = 7 \/ d1 = 8 \/ d1 = 9 \/ d1 = 10 \/ d1 = 11 \/ d1 = 12
          \/ d1 = 13 \/ d1 = 14 \/ d1 = 15) as E1 by lia.
  assert (d2 = 0 \/ d2 = 1 \/ d2 = 2 \/ d2 = 3 \/ d2 = 4 \/ d2 = 5 \/ d2 = 6
          \/ d2 = 7 \/ d2 = 8 \/ d2 = 9 \/ d2 = 10 \/ d2 = 11 \/ d2 = 12
          \/ d2 = 13 \/ d2 = 14 \/ d2 = 15) as E2 by lia.
  clear H1 H2.
  repeat (destruct E1 as [->|E1]); try subst d1;
    repeat (destruct E2 as [->|E2]); try subst d2; reflexivity.
Qed.

Lemma length_low_digits (k : nat) (n : Z) : String.length (low_digits k n) = k.
Proof.
  revert n. induction k as [|k IH]; intros n; [reflexivity|].
  cbn [low_digits]. rewrite length_append, IH. cbn. lia.
Qed.

Lemma low_digits_zero (k : nat) : low_digits k 0 = zeros k.
Proof.
  induction k as [|k IH]; [reflexivity|].
  cbn [low_digits]. change (0 / 16) with 0. change (0 mod 16) with 0.
  rewrite IH. clear IH. induction k as [|k IH]; [reflexivity|].
  cbn [zeros]. rewrite append_cons, IH. reflexivity.
Qed.

Lemma div16_bound (n : Z) (k : nat) :
  0 <= n < 16 ^ Z.of_nat (S k) -> 0 <= n / 16 < 16 ^ Z.of_nat k.
Proof.
  intros Hn. split; [apply Z.div_pos; lia|].
  apply Z.div_lt_upper_bound; [lia|].
  rewrite <- Z.pow_succ_r by lia. rewrite <- Nat2Z.inj_succ. apply Hn.
Qed.

(** Strings of as many digits compare as the numbers they spell. *)
Lemma low_digits_compare (k : nat) (a b : Z) :
  0 <= a < 16 ^ Z.of_nat k -> 0 <= b < 16 ^ Z.of_nat k ->
  String.compare (low_digits k a) (low_digits k b) = (a ?= b).
Proof.
  revert a b. induction k as [|k IH]; intros a b Ha Hb.
  - change (16 ^ Z.of_nat 0) with 1 in Ha, Hb.
    assert (a = 0) as -> by lia. assert (b = 0) as -> by lia. reflexivity.
  - cbn [low_digits].
    rewrite compare_app_equal_length by (rewrite !length_low_digits; reflexivity).
    rewrite (IH _ _ (div16_bound _ _ Ha) (div16_bound _ _ Hb)).
    cbn [String.compare].
    rewrite hex_digit_compare by (apply Z.mod_pos_bound; lia).
    pose proof (Z.div_mod a 16 ltac:(lia)) as Da.
    pose proof (Z.div_mod b 16 ltac:(lia)) as Db.
    pose proof (Z.mod_pos_bound a 16 ltac:(lia)) as Ma.
    pose proof (Z.mod_pos_bound b 16 ltac:(lia)) as Mb.
    destruct (Z.compare_spec (a / 16) (b / 16)) as [Hq|Hq|Hq].
    + destruct (Z.compare_spec (a mod 16) (b mod 16)) as [Hr|Hr|Hr]; symmetry.
      * apply Z.compare_eq_iff. lia.
      * apply Z.compare_lt_iff. lia.
      * apply Z.compare_gt_iff. lia.
    + symmetry. apply Z.compare_lt_iff. lia.
    + symmetry. apply Z.compare_gt_iff. lia.
Qed.

Lemma length_hex_aux (fuel : nat) (n : Z) (k : nat) :
  0 <= n < 16 ^ Z.of_nat (S k) ->
  (String.length (hex_aux fuel n "") <= S k)%nat.
Proof.
  revert n k. induction fuel as [|fuel IH]; intros n k Hn.
  - cbn. lia.
  - cbn [hex_aux]. destruct (n / 16 =? 0) eqn:Hq; [cbn; lia|].
    apply Z.eqb_neq in Hq. rewrite hex_aux_acc, length_append.
    destruct k as [|k].
    + change (16 ^ Z.of_nat 1) with 16 in Hn.
      exfalso. apply Hq. apply Z.div_small. lia.
    + specialize (IH (n / 16) k (div16_bound _ _ Hn)). cbn. lia.
Qed.

Lemma pad_hex_aux (fuel : nat) (n : Z) (k : nat) :
  0 <= n < 16 ^ Z.of_nat (S fuel) ->
  (String.length (hex_aux fuel n "") <= k)%nat ->
  zeros (k - String.length (hex_aux fuel n "")) +:+ hex_aux fuel n ""
  = low_digits k n.
Proof.
  assert (Hone : forall k n, 0 <= n -> n / 16 = 0 -> (1 <= k)%nat ->
            zeros (k - 1) +:+ String (hex_digit (n mod 16)) ""
            = low_digits k n).
  { intros [|k'] m Hm Hq Hk; [lia|]. cbn [low_digits]. rewrite Hq, low_digits_zero.
    replace (S k' - 1)%nat with k' by lia. reflexivity. }
  revert n k. induction fuel as [|fuel IH]; intros n k Hn Hk.
  - change (16 ^ Z.of_nat 1) with 16 in Hn. cbn [hex_aux] in *.
    apply Hone; [lia|apply Z.div_small; lia|exact Hk].
  - cbn [hex_aux] in *. destruct (n / 16 =? 0) eqn:Hq.
    + apply Z.eqb_eq in Hq. apply Hone; [lia|exact Hq|exact Hk].
    + rewrite hex_aux_acc in *. rewrite length_append in *. cbn in Hk.
      destruct k as [|k]; [lia|]. cbn [low_digits].
      rewrite <- (IH (n / 16) k (div16_bound _ _ Hn)) by lia.
      rewrite append_assoc. do 2 f_equal. cbn. lia.
Qed.

Lemma hex8_low_digits (n : Z) : 0 <= n < 2 ^ 32 -> hex8 n = low_digits 8 n.
Proof.
  intros Hn. unfold hex8. rewrite (proj2 (Z.ltb_ge n 0)) by lia.
  unfold hex. apply pad_hex_aux.
  - split; [lia|]. apply hex_fuel_enough. lia.
  - apply (length_hex_aux _ n 7). exact Hn.
Qed.

Lemma hex8_compare (a b : Z) :
  0 <= a < 2 ^ 32 -> 0 <= b < 2 ^ 32 ->
  String.compare (hex8 a) (hex8 b) = (a ?= b).
Proof.
  intros Ha Hb. rewrite !hex8_low_digits by assumption.
  apply low_digits_compare; assumption.
Qed.

Lemma length_hex8 (n : Z) : 0 <= n < 2 ^ 32 -> String.length (hex8 n) = 8%nat.
Proof. intros Hn. rewrite hex8_low_digits by exact Hn. apply length_low_digits. Qed.

Lemma request_key_compare (a b : Z) :
  0 <= a < 2 ^ 32 -> 0 <= b < 2 ^ 32 ->
  String.compare (FLOW_REQUEST_TEMPLATE a) (FLOW_REQUEST_TEMPLATE b) = (a ?= b).
Proof.
  intros Ha Hb. unfold FLOW_REQUEST_TEMPLATE.
  rewrite compare_app_same. apply hex8_compare; assumption.
Qed.

Lemma response_key_compare (r1 r2 a b : Z) :
  0 <= r1 < 2 ^ 32 -> 0 <= r2 < 2 ^ 32 ->
  0 <= a < 2 ^ 32 -> 0 <= b < 2 ^ 32 ->
  String.compare (FLOW_RESPONSE_TEMPLATE r1 a) (FLOW_RESPONSE_TEMPLATE r2 b)
  = match r1 ?= r2 with Eq => a ?= b | o => o end.
Proof.
  intros Hr1 Hr2 Ha Hb. unfold FLOW_RESPONSE_TEMPLATE, FLOW_RESPONSE_PREFIX.
  rewrite !append_assoc, compare_app_same.
  rewrite compare_app_equal_length by (rewrite !length_hex8 by assumption; reflexivity).
  rewrite hex8_compare by assumption.
  destruct (r1 ?= r2); try reflexivity.
  rewrite (compare_app_same ":"). apply hex8_compare; assumption.
Qed.

(** X2.  Below 2^32 the keys sort as the ids do.  Request keys compare as
    their request ids, response keys as their (request id, response id)
    pairs, and the test that ends the join, a response's third component
    against the largest request key's, compares the two request ids. *)
Theorem keys_sort_as_ids (r1 r2 a b : Z) :
  0 <= r1 < 2 ^ 32 -> 0 <= r2 < 2 ^ 32 ->
  0 <= a < 2 ^ 32 -> 0 <= b < 2 ^ 32 ->
  String.compare (FLOW_REQUEST_TEMPLATE r1) (FLOW_REQUEST_TEMPLATE r2)
  = (r1 ?= r2) /\
  String.compare (FLOW_RESPONSE_TEMPLATE r1 a) (FLOW_RESPONSE_TEMPLATE r2 b)
  = match r1 ?= r2 with Eq => a ?= b | o => o end /\
  String.ltb (component2 (FLOW_REQUEST_TEMPLATE r1))
             (component2 (FLOW_RESPONSE_TEMPLATE r2 b)) = (r1 <? r2).
Proof.
  intros Hr1 Hr2 Ha Hb.
  split; [apply request_key_compare; assumption|].
  split; [apply response_key_compare; assumption|].
  unfold component2. rewrite split_colon_request_key, split_colon_response_key.
  change (String.ltb (hex8 r1) (hex8 r2) = (r1 <? r2)).
  unfold String.ltb, Z.ltb. rewrite hex8_compare by assumption. reflexivity.
Qed.

(** ** Runs of CallClient *)

Lemma consecutive_cons (first : Z) (n : nat) :
  consecutive first (S n) = first :: consecutive (first + 1) n.
Proof.
  unfold consecutive. cbn [seq fmap list_fmap]. f_equal; [lia|].
  rewrite <- seq_shift, <- list_fmap_compose. apply list_fmap_ext.
  intros _ i _. cbn. lia.
Qed.

Lemma CallClient_step (args_from_kwargs : string -> Payload)
    (k : ClientCall) (c : Context) :
  let c1 := (CallClient args_from_kwargs (call_action k) (call_args k)
               (call_next_state k) (call_data k) (call_client k) c).1 in
  class c1 = class c /\ next_states c1 = next_states c /\
  session_id c1 = session_id c /\ client_id c1 = client_id c /\
  flow_pb c1 = flow_pb c /\
  next_processed_request c1 = next_processed_request c /\
  if accepts c k
  then exists state,
      new_request_states c1 = new_request_states c ++ [state] /\
      RequestState.id state = next_outbound_id c /\
      RequestState.session_id state = session_id c /\
      RequestState.client_id state = addressee c k /\
      RequestState.next_state state = field_of (call_next_state k) /\
      GrrMessage.request_id (RequestState.request state) = next_outbound_id c /\
      GrrMessage.session_id (RequestState.request state) = session_id c /\
      GrrMessage.name (RequestState.request state) = call_action k /\
      next_outbound_id c1 = next_outbound_id c + 1 /\
      _outstanding_requests c1 = _outstanding_requests c + 1
  else c1 = c.
Proof.
  cbv zeta. unfold CallClient, HuntFlowContext_CallClient, accepts, addressee.
  destruct (call_next_state k) as [ns|];
    [|destruct (class c) eqn:Hclass; repeat split;
      try reflexivity; exact Hclass].
  destruct (class c) eqn:Hclass; cbn [process_requests_in_order negb andb orb].
  - repeat split; try reflexivity; try exact Hclass.
    eexists. repeat split; reflexivity.
  - destruct (mem_string ns (next_states c)); cbn [negb].
    + repeat split; try reflexivity; try exact Hclass.
      eexists. repeat split; reflexivity.
    + repeat split; try reflexivity; exact Hclass.
Qed.

(** X3.  Outbound ids are dense.  Over any run of CallClient calls, the
    accepted ones append one RequestState each, in call order, under the
    consecutive ids that start at next_outbound_id; the message inside each
    carries the same id, the session of the context and the action name of
    its call; next_outbound_id and the outstanding count grow by the number
    of accepted calls, and a refused call uses up no id. *)
Theorem CallClient_ids_are_dense (args_from_kwargs : string -> Payload)
    (calls : list ClientCall) (c : Context) :
  let c' := call_clients args_from_kwargs calls c in
  let accepted := List.filter (accepts c) calls in
  exists states,
    new_request_states c' = new_request_states c ++ states /\
    RequestState.id <$> states
    = consecutive (next_outbound_id c) (length accepted) /\
    (fun r => GrrMessage.request_id (RequestState.request r)) <$> states
    = RequestState.id <$> states /\
    (fun r => GrrMessage.name (RequestState.request r)) <$> states
    = call_action <$> accepted /\
    RequestState.client_id <$> states = addressee c <$> accepted /\
    Forall (fun r => RequestState.session_id r = session_id c /\
                     GrrMessage.session_id (RequestState.request r)
                     = session_id c) states /\
    next_outbound_id c' = next_outbound_id c + Z.of_nat (length accepted) /\
    _outstanding_requests c'
    = _outstanding_requests c + Z.of_nat (length accepted) /\
    flow_pb c' = flow_pb c /\
    next_processed_request c' = next_processed_request c.
Proof.
  cbv zeta. revert c. induction calls as [|k calls IH]; intros c.
  - exists []. cbn. rewrite app_nil_r, !Z.add_0_r. repeat split; constructor.
  - unfold call_clients. cbn [fold_left].
    pose proof (CallClient_step args_from_kwargs k c) as Hstep.
    cbv zeta in Hstep.
    set (c1 := (CallClient args_from_kwargs (call_action k) (call_args k)
                  (call_next_state k) (call_data k) (call_client k) c).1) in *.
    destruct Hstep as (Hclass & Hns & Hsid & Hcid & Hpb & Hnpr & Hstep).
    fold (call_clients args_from_kwargs calls c1).
    destruct (IH c1) as (states & Hbuf & Hids & Hrid & Hnames & Hclients
                         & Hsess & Hnext & Hout & Hpb' & Hnpr').
    assert (Hacc : List.filter (accepts c1) calls = List.filter (accepts c) calls).
    { apply filter_ext. intros k'. unfold accepts. rewrite Hclass, Hns.
      reflexivity. }
    assert (Haddr : forall k', addressee c1 k' = addressee c k').
    { intros k'. unfold addressee. rewrite Hclass, Hcid. reflexivity. }
    rewrite Hacc in *. rewrite Hsid in Hsess.
    rewrite (list_fmap_ext (addressee c1) (addressee c) _
               (fun _ k' _ => Haddr k')) in Hclients.
    cbn [List.filter]. destruct (accepts c k).
    + destruct Hstep as (state & Hbuf1 & Hid & Hss & Hcl & Hnst & Hmid & Hms
                         & Hmn & Hnext1 & Hout1).
      exists (state :: states). cbn [length]. rewrite consecutive_cons.
      rewrite Hbuf, Hbuf1, <- app_assoc. cbn [app fmap list_fmap].
      fold (fmap (M:=list) RequestState.id states).
      rewrite Hid, Hmid, Hmn, Hcl. rewrite <- Hnext1, <- Hids.
      repeat split; try (f_equal; assumption); try lia; try congruence.
      constructor; [split; assumption|assumption].
    + rewrite Hstep in *. exists states. repeat split; assumption.
Qed.

(** ** Runs of SendReply *)

Lemma written_messages_app (a b : list Call) :
  written_messages (a ++ b) = written_messages a ++ written_messages b.
Proof. unfold written_messages. rewrite List.map_app, concat_app. reflexivity. Qed.

Lemma SendReply_step (payload : Payload) (c : Context) (w : World)
    (parent : RequestState.t) :
  FlowPB.request_state (flow_pb c) = Some parent ->
  let out := SendReply payload c w in
  let response_id := RequestState.response_count parent + 1 in
  FlowPB.request_state (flow_pb out.1)
  = Some (RequestState.set_response_count response_id parent) /\
  exists msg added,
    journal out.2 = journal w ++ added /\
    written_messages added
    = [(FLOW_STATE_TEMPLATE (RequestState.session_id parent),
        FLOW_RESPONSE_TEMPLATE (RequestState.id parent) response_id, msg)] /\
    (fun t : Task.t * bool => Task.value t.1) <$> scheduled_tasks added
    = (if is_GrrStatus payload then [msg] else []) /\
    GrrMessage.request_id msg = RequestState.id parent /\
    GrrMessage.response_id msg = response_id /\
    GrrMessage.session_id msg = RequestState.session_id parent /\
    GrrMessage.type msg = reply_type payload /\
    GrrMessage.auth_state msg = AUTHENTICATED.
Proof.
  intros Hparent. cbv zeta. split.
  { rewrite SendReply_context, Hparent. reflexivity. }
  unfold SendReply. rewrite Hparent.
  destruct payload as [st|bytes]; cbn [is_GrrStatus]; cbv zeta; cbn [fst snd].
  - eexists _, _. split.
    { unfold NotifyQueue. rewrite journal_record, journal_Flush.
      unfold Schedule. cbn [snd]. rewrite journal_record. cbn [journal].
      rewrite <- !app_assoc. reflexivity. }
    unfold QueueResponse, with_to_write, setdefault_append, FlowManager_init.
    cbn [FlowManager.to_write FlowManager.subject FlowManager.to_delete
         FlowManager.sync FlowManager.client_id FlowManager.client_messages
         FlowManager.session_id].
    rewrite lookup_empty. cbn [default app].
    unfold written_messages, scheduled_tasks.
    cbn [List.map concat app]. rewrite insert_empty, map_to_list_singleton.
    repeat split; reflexivity.
  - eexists _, _. split.
    { unfold NotifyQueue. rewrite journal_record, journal_Flush.
      rewrite <- !app_assoc. reflexivity. }
    unfold QueueResponse, with_to_write, setdefault_append, FlowManager_init.
    cbn [FlowManager.to_write FlowManager.subject FlowManager.to_delete
         FlowManager.sync FlowManager.client_id FlowManager.client_messages
         FlowManager.session_id].
    rewrite lookup_empty. cbn [default app].
    unfold written_messages, scheduled_tasks.
    cbn [List.map concat app]. rewrite insert_empty, map_to_list_singleton.
    repeat split; reflexivity.
Qed.

(** X4.  Response ids are dense.  Over any run of SendReply calls of a flow
    with a parent, the i-th reply is written into the parent's subject
    under the response key of the parent's request id and response id
    response_count + i, as an AUTHENTICATED message with these ids, of type
    STATUS exactly when its payload is a GrrStatus; only the STATUS replies
    are also scheduled on a queue; response_count ends up increased by the
    number of replies. *)
Theorem SendReply_ids_are_dense (payloads : list Payload) (c : Context)
    (w : World) (parent : RequestState.t) :
  FlowPB.request_state (flow_pb c) = Some parent ->
  let out := send_replies payloads c w in
  let first := RequestState.response_count parent + 1 in
  FlowPB.request_state (flow_pb out.1)
  = Some (RequestState.set_response_count
            (RequestState.response_count parent + Z.of_nat (length payloads))
            parent) /\
  exists added,
    journal out.2 = journal w ++ added /\
    let replies := written_messages added in
    (fun x : string * string * GrrMessage.t => x.1.2) <$> replies
    = FLOW_RESPONSE_TEMPLATE (RequestState.id parent)
        <$> consecutive first (length payloads) /\
    (fun x : string * string * GrrMessage.t => GrrMessage.response_id x.2)
      <$> replies
    = consecutive first (length payloads) /\
    (fun x : string * string * GrrMessage.t => GrrMessage.type x.2) <$> replies
    = reply_type <$> payloads /\
    Forall (fun x : string * string * GrrMessage.t =>
              x.1.1 = FLOW_STATE_TEMPLATE (RequestState.session_id parent) /\
              GrrMessage.request_id x.2 = RequestState.id parent /\
              GrrMessage.session_id x.2 = RequestState.session_id parent /\
              GrrMessage.auth_state x.2 = AUTHENTICATED) replies /\
    (fun t : Task.t * bool => Task.value t.1) <$> scheduled_tasks added
    = List.filter (fun m => bool_decide (GrrMessage.type m = STATUS))
                  (snd <$> replies).
Proof.
  cbv zeta. revert c w parent.
  induction payloads as [|payload payloads IH]; intros c w parent Hparent.
  - split.
    { cbn. rewrite Hparent, Z.add_0_r. destruct parent; reflexivity. }
    exists []. cbn. rewrite app_nil_r. repeat split; constructor.
  - unfold send_replies. cbn [fold_left fst snd].
    pose proof (SendReply_step payload c w parent Hparent) as Hstep.
    cbv zeta in Hstep. destruct (SendReply payload c w) as [c1 w1].
    cbn [fst snd] in Hstep.
    destruct Hstep as (Hparent1 & msg & added1 & Hj1 & Hw1 & Hs1 & Hrid & Hid
                       & Hsid & Hty & Hauth).
    fold (send_replies payloads c1 w1).
    destruct (IH c1 w1 _ Hparent1) as (Hfinal & added & Hj & Hkeys & Hids
                                       & Htypes & Hall & Hsched).
    cbn [RequestState.set_response_count RequestState.response_count
         RequestState.id RequestState.session_id] in *.
    split.
    { rewrite Hfinal. cbn [length]. unfold RequestState.set_response_count.
      cbn. do 2 f_equal. lia. }
    exists (added1 ++ added). split; [rewrite Hj, Hj1, app_assoc; reflexivity|].
    rewrite written_messages_app, scheduled_tasks_app, Hw1.
    cbn [length app fmap list_fmap fst snd]. rewrite consecutive_cons.
    cbn [fmap list_fmap].
    fold (fmap (M:=list) (fun x : string * string * GrrMessage.t => x.1.2)
            (written_messages added)).
    fold (fmap (M:=list)
            (fun x : string * string * GrrMessage.t => GrrMessage.response_id x.2)
            (written_messages added)).
    fold (fmap (M:=list)
            (fun x : string * string * GrrMessage.t => GrrMessage.type x.2)
            (written_messages added)).
    fold (fmap (M:=list) (@snd (string * string) GrrMessage.t)
            (written_messages added)).
    rewrite fmap_app, Hs1, Hsched, Hkeys, Hids, Htypes, Hid, Hty.
    repeat split; try reflexivity.
    + constructor; [repeat split; assumption|exact Hall].
    + cbn [List.filter]. rewrite Hty. unfold reply_type.
      destruct (is_GrrStatus payload); reflexivity.
Qed.

(** ** A pass over a dead flow *)

Lemma delete_each_to_delete calls fm :
  FlowManager.to_delete (delete_each calls fm)
  = FlowManager.to_delete fm ++ concat (keys_of <$> calls).
Proof.
  induction calls as [|call calls IH] using rev_ind.
  - cbn. rewrite app_nil_r. reflexivity.
  - rewrite delete_each_snoc, fmap_app, concat_app.
    unfold DeleteFlowRequestStates.
    cbn [FlowManager.to_delete FlowManager.session_id FlowManager.subject
         FlowManager.sync FlowManager.to_write FlowManager.client_messages
         FlowManager.client_id].
    rewrite IH. cbn [fmap list_fmap concat keys_of]. rewrite app_nil_r.
    rewrite <- !app_assoc. reflexivity.
Qed.

Lemma delete_each_client calls fm :
  FlowManager.client_id (delete_each calls fm)
  = match last_client calls with
    | Some client => Some client
    | None => FlowManager.client_id fm
    end.
Proof.
  induction calls as [|call calls IH] using rev_ind; [reflexivity|].
  rewrite delete_each_snoc. unfold last_client. rewrite last_snoc. reflexivity.
Qed.

Lemma delete_all_yields calls tail fm :
  tail = [] \/ tail = [RaiseMoreData] ->
  delete_all ((yield_pair <$> calls) ++ tail) fm
  = (delete_each calls fm, match tail with [] => false | _ => true end).
Proof.
  intros Htail. revert fm. induction calls as [|call calls IH]; intros fm.
  - destruct Htail as [-> | ->]; reflexivity.
  - cbn [fmap list_fmap app yield_pair delete_all]. apply IH.
Qed.

Lemma db_MultiSet_nothing_written (rows : list Row) (subject : string)
    (to_delete : list string) :
  db_MultiSet rows subject ∅ to_delete = without subject to_delete rows.
Proof. unfold db_MultiSet. rewrite map_to_list_empty. reflexivity. Qed.

Lemma without_nothing (subject : string) (rows : list Row) :
  without subject [] rows = rows.
Proof.
  unfold without. induction rows as [|row rows IH]; [reflexivity|].
  cbn [List.filter]. change (mem_string row.1.2 []) with false.
  rewrite andb_false_r. cbn [negb]. f_equal. exact IH.
Qed.

Lemma last_client_fetched (fm : FlowManager.t) (w : World) :
  is_Some (last_client (fetched fm w)).
Proof.
  unfold last_client. destruct (fetched fm w) as [|p ps] eqn:H using rev_ind.
  - exfalso. exact (fetched_nonempty _ _ H).
  - rewrite last_snoc. eexists. reflexivity.
Qed.

Lemma dead_flow_pass_shape (parent_flow : Flow) (debug : bool)
    (c : Context) (w : World) :
  IsRunning c = false ->
  let out := ProcessCompletedRequests parent_flow debug c w in
  let fm := FlowManager_init (session_id c) in
  let subject := FLOW_STATE_TEMPLATE (session_id c) in
  let to_delete := concat (keys_of <$> fetched fm w) in
  out.1 = c /\
  journal out.2
  = journal w
    ++ [FLOW_Log "Flow dead - deleting all outstanding requests.";
        DB_MultiSet subject ∅ to_delete true;
        SCHEDULER_Delete (last_client (fetched fm w)) (ts_ids (fetched fm w))]
    ++ (if more_data fm w
        then [SCHEDULER_NotifyQueue (queue_name c) (session_id c)] else []) /\
  db out.2 = without subject to_delete (db w).
Proof.
  intros Hdead. cbv zeta. unfold ProcessCompletedRequests. rewrite Hdead.
  cbn [negb].
  set (w1 := record (FLOW_Log "Flow dead - deleting all outstanding requests.") w).
  set (fm := FlowManager_init (session_id c)).
  assert (Hf : fetched fm w1 = fetched fm w) by reflexivity.
  assert (Hm : more_data fm w1 = more_data fm w) by reflexivity.
  rewrite Fetch_shape, Hf, Hm.
  rewrite delete_all_yields by (destruct (more_data fm w); auto).
  pose proof (delete_each_frame (fetched fm w) fm) as (Hsubj & Hsync & Hwrite & Hmsgs).
  pose proof (delete_each_to_delete (fetched fm w) fm) as Hdel.
  pose proof (delete_each_client (fetched fm w) fm) as Hcid.
  destruct (last_client_fetched fm w) as [client Hclient].
  rewrite Hclient in Hcid |- *.
  assert (Hj : journal (Flush (delete_each (fetched fm w) fm) w1).2
               = journal w
                 ++ [FLOW_Log "Flow dead - deleting all outstanding requests.";
                     DB_MultiSet (FLOW_STATE_TEMPLATE (session_id c)) ∅
                       (concat (keys_of <$> fetched fm w)) true;
                     SCHEDULER_Delete (Some client) (ts_ids (fetched fm w))]).
  { rewrite journal_Flush, Hsubj, Hsync, Hwrite, Hdel, Hmsgs, Hcid.
    subst w1. rewrite journal_record, <- app_assoc. reflexivity. }
  assert (Hdb : db (Flush (delete_each (fetched fm w) fm) w1).2
                = without (FLOW_STATE_TEMPLATE (session_id c))
                    (concat (keys_of <$> fetched fm w)) (db w)).
  { unfold Flush, SchedulerDelete, MultiSet. cbn [snd db record set_db].
    rewrite Hsubj, Hwrite, Hdel. apply db_MultiSet_nothing_written. }
  destruct (more_data fm w).
  - cbv beta iota. cbn [fst snd].
    unfold NotifyQueue. rewrite journal_record, Hj, <- app_assoc.
    repeat split; try reflexivity. exact Hdb.
  - cbv beta iota. cbn [fst snd]. rewrite Hj, app_nil_r.
    repeat split; try reflexivity. exact Hdb.
Qed.

(** X5.  A pass over a flow that is not RUNNING dispatches nothing and
    hands the context back as it was, whatever the flow object is.  It
    logs, removes from the session's subject the request key and the
    response keys of every fetched pair (the id-0 sentinel included) and
    writes nothing, dequeues the fetched task ids in one call under the
    client of the pair fetched last, and notifies its own queue again only
    when the fetch ended in MoreData. *)
Theorem dead_flow_pass_only_deletes (parent_flow : Flow) (debug : bool)
    (c : Context) (w : World) :
  IsRunning c = false ->
  let out := ProcessCompletedRequests parent_flow debug c w in
  let fm := FlowManager_init (session_id c) in
  let subject := FLOW_STATE_TEMPLATE (session_id c) in
  let to_delete := concat (keys_of <$> fetched fm w) in
  out.1 = c /\
  journal out.2
  = journal w
    ++ [FLOW_Log "Flow dead - deleting all outstanding requests.";
        DB_MultiSet subject ∅ to_delete true;
        SCHEDULER_Delete (last_client (fetched fm w)) (ts_ids (fetched fm w))]
    ++ (if more_data fm w
        then [SCHEDULER_NotifyQueue (queue_name c) (session_id c)] else []) /\
  db out.2 = without subject to_delete (db w).
Proof. apply dead_flow_pass_shape. Qed.

(** ** Terminate, whatever the state of the flow *)

Lemma DestroyFlowStates_shape (session : string) (w : World) :
  let fm := FlowManager_init session in
  let out := DestroyFlowStates fm w in
  let subject := FLOW_STATE_TEMPLATE session in
  out.2 = more_data fm w /\
  out.1.2 = (if more_data fm w then w else DeleteSubject subject w) /\
  journal (Flush out.1.1 out.1.2).2
  = journal w
    ++ (if more_data fm w then [] else [DB_DeleteSubject subject])
    ++ [DB_MultiSet subject ∅ [] true;
        SCHEDULER_Delete (last_client (fetched fm w)) (ts_ids (fetched fm w))] /\
  db (Flush out.1.1 out.1.2).2
  = (if more_data fm w then db w else db_DeleteSubject (db w) subject) /\
  next_task_id (Flush out.1.1 out.1.2).2 = next_task_id w.
Proof.
  cbv zeta. unfold DestroyFlowStates. rewrite Fetch_shape.
  set (fm := FlowManager_init session).
  pose proof (destroy_loop_yields (fetched fm w)
                (if more_data fm w then [RaiseMoreData] else []) fm
                ltac:(destruct (more_data fm w); auto)) as H.
  cbv zeta in H.
  destruct (destroy_loop _ fm) as [fm' more]. cbn [fst snd] in H.
  destruct H as (Hmore & Hsubj & Hsync & Hwrite & Hdel & Hmsgs & Hcid).
  assert (Hlast : FlowManager.client_id fm' = last_client (fetched fm w)).
  { rewrite Hcid. unfold last_client.
    destruct (fetched fm w) as [|p ps] eqn:Hf using rev_ind.
    - exfalso. exact (fetched_nonempty _ _ Hf).
    - rewrite last_snoc. reflexivity. }
  assert (Hdb : forall w0, db (Flush fm' w0).2 = db w0).
  { intros w0. unfold Flush, SchedulerDelete, MultiSet.
    cbn [snd db record set_db]. rewrite Hsubj, Hwrite, Hdel.
    rewrite db_MultiSet_nothing_written. apply without_nothing. }
  destruct (more_data fm w); subst more; cbn [fst snd].
  - repeat split; try reflexivity; [|apply Hdb].
    rewrite journal_Flush, Hsubj, Hsync, Hwrite, Hdel, Hmsgs, Hlast.
    reflexivity.
  - rewrite Hsubj. change (FlowManager.subject fm) with (FLOW_STATE_TEMPLATE session).
    repeat split; try reflexivity; [|rewrite Hdb; reflexivity].
    rewrite journal_Flush, Hsubj, Hsync, Hwrite, Hdel, Hmsgs, Hlast.
    unfold DeleteSubject. rewrite journal_record. cbn [journal set_db].
    rewrite <- app_assoc. reflexivity.
Qed.

Lemma Terminate_shape (c : Context) (w : World) :
  let out := Terminate c w in
  let fm := FlowManager_init (session_id c) in
  let subject := FLOW_STATE_TEMPLATE (session_id c) in
  journal out.2
  = journal w
    ++ (if more_data fm w then [] else [DB_DeleteSubject subject])
    ++ [DB_MultiSet subject ∅ [] true;
        SCHEDULER_Delete (last_client (fetched fm w)) (ts_ids (fetched fm w))]
    ++ (if IsRunning c
        then reply_calls c (next_task_id w) GrrStatus.default
             ++ [FLOW_Save (flow_pb out.1)]
        else []) /\
  out.1
  = (if IsRunning c
     then set_flow_pb
            (FlowPB.set_state TERMINATED
               (FlowPB.set_request_state
                  ((fun parent =>
                      RequestState.set_response_count
                        (RequestState.response_count parent + 1) parent)
                     <$> FlowPB.request_state (flow_pb c))
                  (flow_pb c))) c
     else c) /\
  (FlowPB.request_state (flow_pb c) = None ->
   db out.2
   = (if more_data fm w then db w else db_DeleteSubject (db w) subject)).
Proof.
  cbv zeta. unfold Terminate.
  pose proof (DestroyFlowStates_shape (session_id c) w) as H. cbv zeta in H.
  destruct (DestroyFlowStates (FlowManager_init (session_id c)) w)
    as [[fm' w1] more].
  cbn [fst snd] in H. destruct H as (_ & _ & Hj & Hdb & Hid).
  destruct (IsRunning c) eqn:Hrun.
  - pose proof (SendReply_status_journal GrrStatus.default c (Flush fm' w1).2)
      as Hreply.
    pose proof (SendReply_context (PStatus GrrStatus.default) c (Flush fm' w1).2)
      as Hctx.
    destruct (SendReply (PStatus GrrStatus.default) c (Flush fm' w1).2)
      as [c2 w2] eqn:Hsend.
    cbn [fst snd] in *. subst c2. split; [|split].
    + rewrite journal_record, Hreply, Hj, Hid, <- !app_assoc. reflexivity.
    + reflexivity.
    + intros Hnone. cbn [db record]. unfold SendReply in Hsend.
      rewrite Hnone in Hsend. injection Hsend as _ <-. exact Hdb.
  - cbn [fst snd]. split; [|split].
    + rewrite Hj, app_nil_r. reflexivity.
    + reflexivity.
    + intros _. exact Hdb.
Qed.


(** ** When End raises *)

Lemma FlowContext_Error_running (debug : bool) (for_client : option string)
    (bt : string) (c : Context) (w : World) :
  IsRunning c = true -> bt <> "" ->
  let out := FlowContext_Error debug for_client (Some bt) c w in
  let reply := GrrStatus.mk GENERIC_ERROR bt CpuSeconds.default 0 "" in
  out.1
  = set_flow_pb
      (FlowPB.set_backtrace bt
         (FlowPB.set_request_state
            ((fun parent =>
                RequestState.set_response_count
                  (RequestState.response_count parent + 1) parent)
               <$> FlowPB.request_state (flow_pb c))
            (FlowPB.set_state ERROR (flow_pb c)))) c /\
  journal out.2
  = journal w
    ++ reply_calls (SetState ERROR c) (next_task_id w) reply
    ++ [FLOW_Save (flow_pb out.1)]
    ++ (if debug then [PDB_set_trace] else [])
    ++ [FLOW_Notify "FlowStatus" (client_id c)
          ("Flow (" +:+ session_id c +:+ ") terminated due to error")] /\
  next_task_id out.2
  = next_task_id w
    + match FlowPB.request_state (flow_pb c) with Some _ => 1 | None => 0 end /\
  db out.2 = db (SendReply (PStatus reply) (SetState ERROR c) w).2.
Proof.
  intros Hrun Hbt. cbv zeta. unfold FlowContext_Error. rewrite Hrun.
  rewrite (truthy_true _ Hbt).
  change (GrrStatus.set_error_message bt
            (GrrStatus.set_status GENERIC_ERROR GrrStatus.default))
    with (GrrStatus.mk GENERIC_ERROR bt CpuSeconds.default 0 "").
  set (reply := GrrStatus.mk GENERIC_ERROR bt CpuSeconds.default 0 "").
  pose proof (SendReply_status_journal reply (SetState ERROR c) w) as Hj.
  pose proof (SendReply_context (PStatus reply) (SetState ERROR c) w) as Hctx.
  assert (Hid : next_task_id (SendReply (PStatus reply) (SetState ERROR c) w).2
                = next_task_id w
                  + match FlowPB.request_state (flow_pb c) with
                    | Some _ => 1 | None => 0 end).
  { unfold SendReply. cbn [SetState set_flow_pb flow_pb FlowPB.set_state
                           FlowPB.request_state].
    destruct (FlowPB.request_state (flow_pb c)); cbn; lia. }
  destruct (SendReply (PStatus reply) (SetState ERROR c) w) as [c2 w2].
  cbn [fst snd] in *. subst c2.
  split; [destruct c; reflexivity|].
  split; [|split; [destruct debug; exact Hid|destruct debug; reflexivity]].
  destruct debug; rewrite !journal_record, Hj; cbn [journal record next_task_id];
    rewrite <- !app_assoc; reflexivity.
Qed.

Lemma status_replies_app (a b : list Call) :
  status_replies (a ++ b) = status_replies a ++ status_replies b.
Proof.
  unfold status_replies. rewrite scheduled_tasks_app. apply omap_app.
Qed.

Lemma status_replies_reply_calls (c : Context) (next_id : Z) (st : GrrStatus.t) :
  status_replies (reply_calls c next_id st)
  = match FlowPB.request_state (flow_pb c) with
    | Some _ => [send_resource_usage c st]
    | None => []
    end.
Proof.
  unfold reply_calls. destruct (FlowPB.request_state (flow_pb c)); reflexivity.
Qed.

(** X7.  End raises, on a RUNNING flow with nothing outstanding (and End
    leaves it so).  An ordered flow then ends in state ERROR, not
    TERMINATED, with the backtrace on record, and its parent, if it has
    one, is sent exactly one STATUS, a GENERIC_ERROR carrying the
    backtrace: the Terminate that follows sends no second one.  A hunt
    only logs the error against the context's client: it ends TERMINATED
    and its parent is sent an OK STATUS.  Either way the flow is counted
    as completed. *)
Theorem End_failure_ends_the_flow (parent_flow : Flow) (debug : bool)
    (c c1 : Context) (w w1 : World) (bt : string) :
  Flow_OutstandingRequests c = 0 -> IsRunning c = true ->
  current_state c <> "End" ->
  End_method parent_flow c w = (c1, w1, Some bt) -> bt <> "" ->
  Flow_OutstandingRequests c1 = 0 -> IsRunning c1 = true ->
  let out := end_of_pass parent_flow debug c w in
  let sent (calls : list Call) :=
    (fun st => (GrrStatus.status st, GrrStatus.error_message st))
      <$> status_replies calls in
  exists added,
    journal out.2 = journal w1 ++ added /\
    STATS_Increment "grr_flow_completed_count" ∈ added /\
    match class c1 with
    | FlowContext =>
        FlowPB.state (flow_pb out.1) = ERROR /\
        FlowPB.backtrace (flow_pb out.1) = bt /\
        sent added = match FlowPB.request_state (flow_pb c1) with
                     | Some _ => [(GENERIC_ERROR, bt)]
                     | None => []
                     end
    | HuntFlowContext =>
        FlowPB.state (flow_pb out.1) = TERMINATED /\
        FlowPB.backtrace (flow_pb out.1) = FlowPB.backtrace (flow_pb c1) /\
        FLOW_LogClientError (client_id c1) (Some bt) ∈ added /\
        sent added = match FlowPB.request_state (flow_pb c1) with
                     | Some _ => [(OK, "")]
                     | None => []
                     end
    end.
Proof.
  intros Hout Hrun Hstate HEnd Hbt Hout1 Hrun1. cbv zeta.
  unfold end_of_pass. rewrite Hout, Hrun, HEnd. cbn [Z.eqb andb].
  rewrite (proj2 (String.eqb_neq _ _) Hstate). cbn [negb].
  unfold Error. destruct (class c1) eqn:Hclass.
  - (* a hunt: the error is logged, the flow terminates as if all was well *)
    unfold HuntFlowContext_Error. rewrite Hout1. cbn [Z.eqb].
    set (w2 := record (STATS_Increment "grr_flow_completed_count") _).
    pose proof (Terminate_shape c1 w2) as (Hj & Hctx & _).
    rewrite Hrun1 in Hj, Hctx.
    eexists. split.
    { rewrite Hj. subst w2. rewrite !journal_record, <- !app_assoc.
      reflexivity. }
    split; [set_solver|]. rewrite Hctx. split; [reflexivity|].
    split; [reflexivity|]. split; [set_solver|].
    rewrite !status_replies_app, status_replies_reply_calls.
    destruct (more_data _ _); destruct (FlowPB.request_state (flow_pb c1));
      reflexivity.
  - (* an ordered flow: killed with an error, then cleaned up *)
    set (w2 := record (STATS_Increment "grr_flow_errors") w1).
    pose proof (FlowContext_Error_running debug (client_id c1) bt c1 w2
                  Hrun1 Hbt) as (Hc2 & Hj2 & _ & _).
    cbv zeta in Hc2, Hj2.
    destruct (FlowContext_Error debug (client_id c1) (Some bt) c1 w2)
      as [c2 w3].
    cbn [fst snd] in *.
    assert (Hout2 : Flow_OutstandingRequests c2 = 0) by (subst c2; exact Hout1).
    assert (Hrun2 : IsRunning c2 = false) by (subst c2; reflexivity).
    rewrite Hout2. cbn [Z.eqb].
    set (w4 := record (STATS_Increment "grr_flow_completed_count") w3).
    pose proof (Terminate_shape c2 w4) as (Hj & Hctx & _).
    rewrite Hrun2 in Hj, Hctx. rewrite Hctx.
    eexists. split.
    { rewrite Hj. subst w4. rewrite journal_record, Hj2. subst w2.
      rewrite journal_record, <- !app_assoc. reflexivity. }
    split; [set_solver|].
    split; [subst c2; reflexivity|]. split; [subst c2; reflexivity|].
    rewrite !status_replies_app, status_replies_reply_calls.
    cbn [SetState set_flow_pb flow_pb FlowPB.set_state FlowPB.request_state].
    destruct debug; destruct (more_data _ _);
      destruct (FlowPB.request_state (flow_pb c1)); reflexivity.
Qed.

(** ** CallState *)

Lemma with_status_last (messages : list Payload) :
  exists init st, with_status messages = init ++ [PStatus st].
Proof.
  unfold with_status.
  destruct messages as [|p ps] using rev_ind; [exists [], GrrStatus.default; reflexivity|].
  rewrite last_snoc. destruct p as [st|bytes]; cbn [is_GrrStatus].
  - exists ps, st. reflexivity.
  - eexists _, _. reflexivity.
Qed.

Lemma zip_seq_snoc {A} (k : nat) (l : list A) (x : A) :
  zip (seq k (length (l ++ [x]))) (l ++ [x])
  = zip (seq k (length l)) l ++ [((k + length l)%nat, x)].
Proof.
  revert k. induction l as [|y l IH]; intros k.
  - cbn. rewrite Nat.add_0_r. reflexivity.
  - cbn [length app seq zip zip_with]. rewrite (IH (S k)).
    replace (S k + length l)%nat with (k + S (length l))%nat by lia.
    reflexivity.
Qed.

Lemma state_messages_ids (c : Context) (messages : list Payload) :
  GrrMessage.response_id <$> state_messages c messages
  = consecutive 1 (length (state_messages c messages)) /\
  length (state_messages c messages) = length (with_status messages) /\
  Forall (fun m => GrrMessage.request_id m = next_outbound_id c /\
                   GrrMessage.session_id m = session_id c /\
                   GrrMessage.auth_state m = AUTHENTICATED)
         (state_messages c messages).
Proof.
  unfold state_messages. set (ms := with_status messages). clearbody ms.
  assert (Hlen : length (zip (seq 0 (length ms)) ms) = length ms).
  { rewrite length_zip, length_seq. lia. }
  split; [|split].
  - rewrite length_fmap, Hlen, <- list_fmap_compose.
    unfold consecutive. rewrite <- (fst_zip (seq 0 (length ms)) ms) at 2
      by (rewrite length_seq; lia).
    rewrite <- list_fmap_compose. apply list_fmap_ext.
    intros _ [i p] _. unfold state_message. cbn.
    destruct (is_GrrStatus p); reflexivity.
  - rewrite length_fmap. exact Hlen.
  - apply Forall_fmap, Forall_forall. intros [i p] _. unfold state_message.
    cbn. destruct (is_GrrStatus p); repeat split; reflexivity.
Qed.

Lemma state_messages_last (c : Context) (messages : list Payload) :
  exists final,
    last (state_messages c messages) = Some final /\
    GrrMessage.type final = STATUS /\
    GrrMessage.response_id final
    = Z.of_nat (length (state_messages c messages)).
Proof.
  destruct (state_messages_ids c messages) as (_ & Hlen & _).
  unfold state_messages in *.
  destruct (with_status_last messages) as (init & st & Heq).
  rewrite Heq in *. rewrite zip_seq_snoc, fmap_app in *.
  cbn [fmap list_fmap] in *. rewrite last_snoc.
  eexists. split; [reflexivity|]. split; [reflexivity|].
  rewrite Hlen, length_app. cbn. lia.
Qed.

Lemma queue_loop (f : nat * Payload -> GrrMessage.t)
    (l : list (nat * Payload)) (fm : FlowManager.t) (m0 : GrrMessage.t) :
  fold_left (fun (st : FlowManager.t * GrrMessage.t) ip =>
               (QueueResponse st.1 (f ip), f ip)) l (fm, m0)
  = (fold_left QueueResponse (f <$> l) fm, default m0 (last (f <$> l))).
Proof.
  revert fm m0. induction l as [|ip l IH]; intros fm m0; [reflexivity|].
  cbn [fold_left fmap list_fmap fst]. rewrite IH. f_equal.
  destruct l as [|ip' l]; [reflexivity|].
  cbn [fmap list_fmap]. rewrite !last_cons.
  destruct (last (f <$> l)); reflexivity.
Qed.

Lemma queued_responses (msgs : list GrrMessage.t) (fm : FlowManager.t) :
  NoDup (response_key <$> msgs) ->
  (forall m, m ∈ msgs -> FlowManager.to_write fm !! response_key m = None) ->
  let fm' := fold_left QueueResponse msgs fm in
  map_to_list (FlowManager.to_write fm')
  ≡ₚ map_to_list (FlowManager.to_write fm) ++ (response_entry <$> msgs) /\
  FlowManager.subject fm' = FlowManager.subject fm /\
  FlowManager.sync fm' = FlowManager.sync fm /\
  FlowManager.to_delete fm' = FlowManager.to_delete fm /\
  FlowManager.client_messages fm' = FlowManager.client_messages fm /\
  FlowManager.client_id fm' = FlowManager.client_id fm.
Proof.
  cbv zeta. revert fm. induction msgs as [|m msgs IH]; intros fm Hnd Hfresh.
  - cbn. rewrite app_nil_r. auto 10.
  - cbn [fold_left fmap list_fmap] in *. apply NoDup_cons in Hnd as [Hm Hnd].
    assert (Hnone : FlowManager.to_write fm !! response_key m = None)
      by (apply Hfresh; left).
    destruct (IH (QueueResponse fm m) Hnd) as (Hperm & -> & -> & -> & -> & ->).
    { intros m' Hm'. unfold QueueResponse, with_to_write, setdefault_append.
      cbn [FlowManager.to_write]. rewrite lookup_insert_ne.
      - apply Hfresh. right. exact Hm'.
      - intros Heq. apply Hm. fold (response_key m) in Heq. rewrite Heq.
        apply list_elem_of_fmap. exists m'. auto. }
    split; [|auto 10]. rewrite Hperm.
    unfold QueueResponse at 1, with_to_write, setdefault_append.
    cbn [FlowManager.to_write]. fold (response_key m). rewrite Hnone.
    cbn [default app]. rewrite map_to_list_insert by exact Hnone.
    cbn [app]. rewrite <- Permutation_middle. reflexivity.
Qed.

Lemma state_messages_keys (c : Context) (messages : list Payload) :
  NoDup (response_key <$> state_messages c messages).
Proof.
  destruct (state_messages_ids c messages) as (Hids & _ & Hall).
  set (msgs := state_messages c messages) in *. clearbody msgs.
  apply (NoDup_fmap_1 (fun k => unhex (default "" (split_colon k !! 3%nat)))).
  rewrite <- list_fmap_compose.
  rewrite (list_fmap_ext _ GrrMessage.response_id msgs).
  - rewrite Hids. unfold consecutive. apply NoDup_fmap_2; [|apply NoDup_seq].
    intros i j Hij. lia.
  - intros i m Hm. cbn. unfold response_key.
    rewrite split_colon_response_key. cbn. apply unhex_hex8.
    assert (Hin : GrrMessage.response_id m ∈ GrrMessage.response_id <$> msgs).
    { apply list_elem_of_fmap. exists m. split; [reflexivity|].
      eapply list_elem_of_lookup_2, Hm. }
    rewrite Hids in Hin. unfold consecutive in Hin.
    apply list_elem_of_fmap in Hin as (k & -> & _). lia.
Qed.

Lemma CallState_runs (state_attribute : string -> option bool)
    (messages : option (list Payload)) (next_state : string)
    (for_client : option string) (c : Context) (w : World) :
  state_attribute next_state = Some true ->
  let request := state_request c next_state for_client in
  let msgs := state_messages c (default [] messages) in
  exists final to_write,
    last msgs = Some final /\
    map_to_list to_write ≡ₚ request_entry request :: (response_entry <$> msgs) /\
    CallState state_attribute messages next_state for_client c w
    = (set_outstanding_requests (_outstanding_requests c + 1)
         (set_next_outbound_id (next_outbound_id c + 1) c),
       mkWorld
         (db_MultiSet (db w) (FLOW_STATE_TEMPLATE (session_id c)) to_write [])
         (next_task_id w + 1)
         (journal w
          ++ [SCHEDULER_Schedule
                [Task.mk (queue_name c) (next_task_id w) final] false;
              SCHEDULER_NotifyQueue (queue_name c) (session_id c);
              DB_MultiSet (FLOW_STATE_TEMPLATE (session_id c)) to_write [] true;
              SCHEDULER_Delete None []]),
       None).
Proof.
  intros Hattr request msgs.
  destruct (state_messages_last c (default [] messages)) as (final & Hlast & _).
  fold msgs in Hlast.
  set (fm0 := QueueRequest (FlowManager_init (session_id c)) request).
  pose proof (queued_responses msgs fm0 (state_messages_keys c _)) as Hq.
  cbv zeta in Hq.
  destruct Hq as (Hperm & Hsubj & Hsync & Hdel & Hmsgs & Hcid).
  { intros m Hm. subst fm0. unfold QueueRequest, with_to_write, setdefault_append.
    cbn [FlowManager.to_write FlowManager_init].
    rewrite lookup_insert_ne, lookup_empty; [reflexivity|].
    apply request_key_not_response. }
  assert (Hperm0 : map_to_list (FlowManager.to_write fm0) = [request_entry request]).
  { subst fm0. unfold QueueRequest, with_to_write, setdefault_append.
    cbn [FlowManager.to_write FlowManager_init]. rewrite lookup_empty.
    cbn [default app]. rewrite insert_empty, map_to_list_singleton.
    reflexivity. }
  rewrite Hperm0 in Hperm. cbn [app] in Hperm.
  exists final, (FlowManager.to_write (fold_left QueueResponse msgs fm0)).
  split; [exact Hlast|]. split; [exact Hperm|].
  assert (E : HuntFlowContext_CallState state_attribute messages next_state
                (match class c with
                 | HuntFlowContext => for_client
                 | FlowContext => opt_or for_client (client_id c)
                 end) c w
              = (set_outstanding_requests (_outstanding_requests c + 1)
                   (set_next_outbound_id (next_outbound_id c + 1) c),
                 (Flush (fold_left QueueResponse msgs fm0)
                    (NotifyQueue (queue_name c) (session_id c)
                       (Schedule [Task.mk (queue_name c) 0
                                    (default GrrMessage.default (last msgs))]
                          false w).2)).2,
                 None)).
  { unfold HuntFlowContext_CallState. rewrite Hattr.
    unfold GetNextOutboundId. cbv zeta.
    rewrite (queue_loop
               (fun ip : nat * Payload =>
                  state_message
                    (set_next_outbound_id (next_outbound_id c + 1) c)
                    (next_outbound_id c) ip.1 ip.2)).
    reflexivity. }
  unfold CallState. destruct (class c) eqn:Hclass; rewrite E, Hlast;
    unfold Flush, MultiSet, SchedulerDelete, NotifyQueue, Schedule, record, set_db;
    cbn [fst snd db journal next_task_id assign_ids Task.set_id Task.queue
         Task.value length default];
    rewrite Hsubj, Hsync, Hdel, Hmsgs, Hcid; subst fm0;
    cbn [QueueRequest with_to_write FlowManager.subject FlowManager.sync
         FlowManager.to_delete FlowManager.client_messages
         FlowManager.client_id FlowManager_init];
    rewrite <- !app_assoc; reflexivity.
Qed.


(** ** From CallState through the store to the next fetch *)

Lemma ascii_compare_N (a b : ascii) :
  Ascii.compare a b = (N_of_ascii a ?= N_of_ascii b)%N.
Proof. reflexivity. Qed.

Lemma string_compare_refl (s : string) : String.compare s s = Eq.
Proof.
  induction s as [|c s IH]; [reflexivity|].
  cbn [String.compare]. rewrite ascii_compare_refl. exact IH.
Qed.

Lemma ltb_irrefl (s : string) : String.ltb s s = false.
Proof. unfold String.ltb. rewrite string_compare_refl. reflexivity. Qed.

Lemma string_compare_le_trans (a b c : string) :
  String.compare a b <> Gt -> String.compare b c <> Gt ->
  String.compare a c <> Gt.
Proof.
  revert b c. induction a as [|x a IH]; intros [|y b] [|z c];
    cbn [String.compare]; try congruence.
  rewrite !ascii_compare_N.
  destruct (N.compare_spec (N_of_ascii x) (N_of_ascii y)) as [Hxy|Hxy|Hxy];
    destruct (N.compare_spec (N_of_ascii y) (N_of_ascii z)) as [Hyz|Hyz|Hyz];
    try congruence; intros Hab Hbc.
  - rewrite Hxy, Hyz, N.compare_refl. exact (IH _ _ Hab Hbc).
  - rewrite (proj2 (N.compare_lt_iff _ _)) by lia. discriminate.
  - rewrite (proj2 (N.compare_lt_iff _ _)) by lia. discriminate.
  - rewrite (proj2 (N.compare_lt_iff _ _)) by lia. discriminate.
Qed.

Lemma row_le_trans : Transitive row_le.
Proof.
  intros a b c. unfold row_le, String.leb. intros Hab Hbc.
  pose proof (string_compare_le_trans a.1 b.1 c.1) as H.
  destruct (String.compare a.1 b.1); try discriminate;
    destruct (String.compare b.1 c.1); try discriminate;
    destruct (String.compare a.1 c.1); try reflexivity;
    exfalso; apply H; congruence.
Qed.

Lemma row_le_total : Total row_le.
Proof. intros a b. unfold row_le. apply String.leb_total. Qed.

Lemma same_key_same_row {A} (l : list (string * A)) (x1 x2 : string * A) :
  NoDup l.*1 -> x1 ∈ l -> x2 ∈ l -> x1.1 = x2.1 -> x1 = x2.
Proof.
  induction l as [|y l IH]; intros Hnd H1 H2 Hk; [inversion H1|].
  cbn [fmap list_fmap] in Hnd. apply NoDup_cons in Hnd as [Hy Hnd].
  apply elem_of_cons in H1 as [->|H1]; apply elem_of_cons in H2 as [->|H2].
  - reflexivity.
  - exfalso. apply Hy. rewrite Hk. apply list_elem_of_fmap. exists x2. auto.
  - exfalso. apply Hy. rewrite <- Hk. apply list_elem_of_fmap. exists x1. auto.
  - apply IH; assumption.
Qed.

(** Sorting the rows of a scan gives the one ascending order of their
    keys, in whatever order the store handed them back. *)
Lemma sorted_rows_unique (l R : list (string * Serialized)) :
  l ≡ₚ R -> NoDup R.*1 -> StronglySorted row_le R -> sorted_rows l = R.
Proof.
  intros Hperm Hnd Hsorted. symmetry.
  apply (StronglySorted_unique_strong row_le).
  - intros x1 x2 H1 H2 H12 H21.
    apply (same_key_same_row R); [exact Hnd|exact H1| |].
    + unfold sorted_rows in H2. rewrite merge_sort_Permutation, Hperm in H2.
      exact H2.
    + unfold row_le in *. apply String.leb_antisym; assumption.
  - exact Hsorted.
  - apply (@Sorted_StronglySorted _ _ row_le_trans).
    apply (@Sorted_merge_sort _ row_le _ row_le_total).
  - unfold sorted_rows. rewrite merge_sort_Permutation. symmetry. exact Hperm.
Qed.

Lemma List_filter_Permutation {A} (f : A -> bool) (l1 l2 : list A) :
  l1 ≡ₚ l2 -> List.filter f l1 ≡ₚ List.filter f l2.
Proof.
  induction 1 as [|x l1 l2 _ IH|x y l|l1 l2 l3 _ IH1 _ IH2].
  - reflexivity.
  - cbn. destruct (f x); [constructor|]; exact IH.
  - cbn. destruct (f x), (f y); try reflexivity. apply perm_swap.
  - etransitivity; eassumption.
Qed.

Lemma List_filter_all {A} (f : A -> bool) (l : list A) :
  (forall x, x ∈ l -> f x = true) -> List.filter f l = l.
Proof.
  induction l as [|x l IH]; intros H; [reflexivity|].
  cbn. rewrite (H x) by left. f_equal. apply IH. intros y Hy. apply H.
  right. exact Hy.
Qed.

Lemma List_filter_none {A} (f : A -> bool) (l : list A) :
  (forall x, x ∈ l -> f x = false) -> List.filter f l = [].
Proof.
  induction l as [|x l IH]; intros H; [reflexivity|].
  cbn. rewrite (H x) by left. apply IH. intros y Hy. apply H.
  right. exact Hy.
Qed.

(** Writing entries with distinct keys, none of them stored yet, appends
    one row per entry. *)
Lemma fold_db_set (subject : string) (l : list (string * list Serialized))
    (rows : list Row) :
  NoDup l.*1 ->
  (forall row, row ∈ rows -> row.1.1 = subject -> row.1.2 ∉ l.*1) ->
  fold_left (db_set subject) l rows = rows ++ omap (written subject) l.
Proof.
  revert rows. induction l as [|kv l IH]; intros rows Hnd Hfresh.
  - cbn. rewrite app_nil_r. reflexivity.
  - cbn [fmap list_fmap] in Hnd. apply NoDup_cons in Hnd as [Hk Hnd].
    cbn [fold_left].
    change (omap (written subject) (kv :: l))
      with (match written subject kv with
            | Some row => row :: omap (written subject) l
            | None => omap (written subject) l
            end).
    unfold written at 1. unfold db_set at 2.
    assert (Hrest : forall row, row ∈ rows -> row.1.1 = subject ->
                                row.1.2 ∉ l.*1).
    { intros row Hrow Hs Hin. apply (Hfresh row Hrow Hs). right. exact Hin. }
    destruct (last kv.2) as [v|]; cbn [fmap option_fmap option_map].
    + rewrite List_filter_all.
      * rewrite IH; [rewrite <- app_assoc; reflexivity|exact Hnd|].
        intros row Hrow Hs. apply elem_of_app in Hrow as [Hrow|Hrow].
        -- apply Hrest; assumption.
        -- apply elem_of_cons in Hrow as [->|Hrow]; [exact Hk|inversion Hrow].
      * intros row Hrow. apply negb_true_iff, andb_false_iff.
        destruct (String.eqb row.1.1 subject) eqn:Hs; [right|left; reflexivity].
        apply String.eqb_eq in Hs. apply String.eqb_neq. intros Heq.
        apply (Hfresh row Hrow Hs). rewrite Heq. left.
    + apply IH; assumption.
Qed.

Lemma regex_of_keys (request_id response_id : Z) :
  regex_match FLOW_REQUEST_REGEX (FLOW_REQUEST_TEMPLATE request_id) = true /\
  regex_match FLOW_REQUEST_REGEX
    (FLOW_RESPONSE_TEMPLATE request_id response_id) = false /\
  regex_match FLOW_RESPONSE_REGEX
    (FLOW_RESPONSE_TEMPLATE request_id response_id) = true /\
  regex_match FLOW_RESPONSE_REGEX (FLOW_REQUEST_TEMPLATE request_id) = false.
Proof.
  unfold FLOW_REQUEST_REGEX, FLOW_RESPONSE_REGEX, FLOW_REQUEST_TEMPLATE,
    FLOW_RESPONSE_TEMPLATE, FLOW_RESPONSE_PREFIX, FLOW_REQUEST_PREFIX.
  rewrite !append_assoc. repeat split; reflexivity.
Qed.

Lemma consecutive_sorted (first : Z) (n : nat) :
  StronglySorted Z.lt (consecutive first n).
Proof.
  revert first. induction n as [|n IH]; intros first; [constructor|].
  rewrite consecutive_cons. constructor; [apply IH|].
  apply Forall_forall. intros k Hk. unfold consecutive in Hk.
  apply list_elem_of_fmap in Hk as (i & -> & _). lia.
Qed.

Lemma response_key_compare_same (r a b : Z) :
  0 <= a < 2 ^ 32 -> 0 <= b < 2 ^ 32 ->
  String.compare (FLOW_RESPONSE_TEMPLATE r a) (FLOW_RESPONSE_TEMPLATE r b)
  = (a ?= b).
Proof.
  intros Ha Hb. unfold FLOW_RESPONSE_TEMPLATE.
  rewrite compare_app_same. apply hex8_compare; assumption.
Qed.

(** The rows of responses to one request, in ascending order of their
    response ids, are in ascending order of their keys. *)
Lemma response_rows_sorted (r : Z) (msgs : list GrrMessage.t) :
  StronglySorted Z.lt (GrrMessage.response_id <$> msgs) ->
  Forall (fun m => GrrMessage.request_id m = r /\
                   0 <= GrrMessage.response_id m < 2 ^ 32) msgs ->
  StronglySorted row_le (response_row <$> msgs).
Proof.
  induction msgs as [|m msgs IH]; intros Hsorted Hall; [constructor|].
  cbn [fmap list_fmap] in *. apply StronglySorted_inv in Hsorted as [Hs Hlt].
  apply Forall_cons in Hall as [[Hr Hm] Hall].
  constructor; [apply IH; assumption|].
  apply Forall_fmap, Forall_forall. intros m' Hm'.
  rewrite Forall_forall in Hall. rewrite Forall_forall in Hlt.
  destruct (Hall m' Hm') as [Hr' Hb'].
  assert (Hlt' : GrrMessage.response_id m < GrrMessage.response_id m').
  { apply Hlt, list_elem_of_fmap. exists m'. auto. }
  unfold compose, row_le, response_row, response_key, String.leb. cbn [fst].
  rewrite Hr, Hr', response_key_compare_same by assumption.
  rewrite (proj2 (Z.compare_lt_iff _ _) Hlt'). reflexivity.
Qed.

(** The join, on the sorted rows of the responses to the one request that
    the map holds under [r]. *)
Lemma response_loop_one_request (r : Z) (msgs : list GrrMessage.t)
    (base : gmap Z Meta.t) (rq : option RequestState.t)
    (acc : option (list GrrMessage.t)) (n : Z) :
  Forall (fun m => GrrMessage.request_id m = r) msgs ->
  response_loop (hex8 r) (response_row <$> msgs)
    (<[r := Meta.mk rq acc]> base) n
  = (<[r := Meta.mk rq match msgs with
                       | [] => acc
                       | _ => Some (default [] acc ++ msgs)
                       end]> base,
     n + Z.of_nat (length msgs)).
Proof.
  revert acc n. induction msgs as [|m msgs IH]; intros acc n Hall.
  - cbn. rewrite Z.add_0_r. reflexivity.
  - apply Forall_cons in Hall as [Hr Hall].
    cbn [fmap list_fmap response_loop response_row fst snd parse_GrrMessage].
    unfold response_key at 1, component2.
    rewrite split_colon_response_key. cbn [lookup list_lookup].
    change (default "" (Some (hex8 (GrrMessage.request_id m))))
      with (hex8 (GrrMessage.request_id m)).
    rewrite Hr, ltb_irrefl, lookup_insert_eq.
    cbn [Meta.REQUEST_STATE Meta.RESPONSES]. rewrite insert_insert_eq.
    rewrite (IH _ _ Hall). f_equal.
    + f_equal. f_equal. destruct msgs; [reflexivity|].
      change (default [] (Some (default [] acc ++ [m])))
        with (default [] acc ++ [m]).
      rewrite <- app_assoc. reflexivity.
    + cbn [length]. lia.
Qed.

Lemma sorted_keys_pair (r : Z) (x y : Meta.t) :
  0 < r -> sorted_keys (<[r := x]> {[0 := y]}) = [0; r].
Proof.
  intros Hr. unfold sorted_keys. symmetry.
  apply (Sorted_unique Z.le).
  - repeat constructor. lia.
  - apply Sorted_merge_sort. apply _.
  - rewrite merge_sort_Permutation.
    rewrite map_to_list_insert by (rewrite lookup_singleton_ne; [reflexivity|lia]).
    rewrite map_to_list_singleton. cbn. apply perm_swap.
Qed.

Lemma omap_written_responses (subject : string) (msgs : list GrrMessage.t) :
  omap (written subject) (response_entry <$> msgs)
  = (fun m => (subject, response_key m, SerMessage m)) <$> msgs.
Proof.
  induction msgs as [|m msgs IH]; [reflexivity|].
  cbn [fmap list_fmap]. rewrite <- IH. reflexivity.
Qed.

Lemma scan_of_fresh_subject (rows new : list Row) (subject regex : string)
    (limit : Z) :
  (forall row, row ∈ rows -> row.1.1 <> subject) ->
  ResolveRegex (rows ++ new) subject regex limit
  = take (Z.to_nat limit)
         (List.map row_of (List.filter (in_scan subject regex) new)).
Proof.
  intros Hfresh. rewrite ResolveRegex_unfold, List.filter_app.
  rewrite List_filter_none; [reflexivity|].
  intros row Hrow. unfold in_scan.
  rewrite (proj2 (String.eqb_neq _ _) (Hfresh row Hrow)). reflexivity.
Qed.

Lemma in_scan_written (subject : string) (request : RequestState.t)
    (msgs : list GrrMessage.t) :
  let new := (subject, FLOW_REQUEST_TEMPLATE (RequestState.id request),
              SerRequest request)
             :: ((fun m => (subject, response_key m, SerMessage m)) <$> msgs) in
  List.map row_of (List.filter (in_scan subject FLOW_REQUEST_REGEX) new)
  = [(FLOW_REQUEST_TEMPLATE (RequestState.id request), SerRequest request)] /\
  List.map row_of (List.filter (in_scan subject FLOW_RESPONSE_REGEX) new)
  = response_row <$> msgs.
Proof.
  cbv zeta.
  assert (H1 : in_scan subject FLOW_REQUEST_REGEX
                 (subject, FLOW_REQUEST_TEMPLATE (RequestState.id request),
                  SerRequest request) = true).
  { unfold in_scan. cbn [fst snd]. rewrite String.eqb_refl.
    destruct (regex_of_keys (RequestState.id request) 0) as (-> & _).
    reflexivity. }
  assert (H2 : in_scan subject FLOW_RESPONSE_REGEX
                 (subject, FLOW_REQUEST_TEMPLATE (RequestState.id request),
                  SerRequest request) = false).
  { unfold in_scan. cbn [fst snd]. rewrite String.eqb_refl.
    destruct (regex_of_keys (RequestState.id request) 0) as (_ & _ & _ & ->).
    reflexivity. }
  cbn [List.filter]. rewrite H1, H2. cbn [List.map]. split.
  - rewrite List_filter_none; [reflexivity|].
    intros row Hrow. apply list_elem_of_fmap in Hrow as (m & -> & _).
    unfold in_scan, response_key. cbn [fst snd].
    destruct (regex_of_keys (GrrMessage.request_id m)
                (GrrMessage.response_id m)) as (_ & -> & _).
    apply andb_false_r.
  - rewrite List_filter_all.
    + induction msgs as [|m msgs IH]; [reflexivity|].
      cbn [fmap list_fmap List.map]. rewrite IH. reflexivity.
    + intros row Hrow. apply list_elem_of_fmap in Hrow as (m & -> & _).
      unfold in_scan, response_key. cbn [fst snd].
      destruct (regex_of_keys (GrrMessage.request_id m)
                  (GrrMessage.response_id m)) as (_ & _ & -> & _).
      rewrite String.eqb_refl. reflexivity.
Qed.

Lemma filter_in_scan_subject (subject regex : string) (rows : list Row) :
  List.filter (in_scan subject regex) (subject_rows subject rows)
  = List.filter (in_scan subject regex) rows.
Proof.
  unfold subject_rows. induction rows as [|row rows IH]; [reflexivity|].
  cbn [List.filter].
  assert (Hrow : in_scan subject regex row
                 = String.eqb row.1.1 subject && regex_match regex row.1.2)
    by reflexivity.
  destruct (String.eqb row.1.1 subject) eqn:Hs; cbn [List.filter];
    rewrite Hrow; cbn [andb]; rewrite IH; reflexivity.
Qed.

(** A subject that holds one request and its responses, in whatever
    order: the fetch of that session yields the sentinel, then the request
    with its responses in ascending order. *)
Lemma fetch_of_subject_rows (session : string) (request : RequestState.t)
    (msgs : list GrrMessage.t) (w' : World) :
  subject_rows (FLOW_STATE_TEMPLATE session) (db w')
  ≡ₚ (FLOW_STATE_TEMPLATE session,
      FLOW_REQUEST_TEMPLATE (RequestState.id request), SerRequest request)
     :: ((fun m => (FLOW_STATE_TEMPLATE session, response_key m, SerMessage m))
           <$> msgs) ->
  0 < RequestState.id request ->
  Forall (fun m => GrrMessage.request_id m = RequestState.id request) msgs ->
  GrrMessage.response_id <$> msgs = consecutive 1 (length msgs) ->
  Z.of_nat (length msgs) < response_limit ->
  FetchRequestsAndResponses (FlowManager_init session) w'
  = [Yield RequestState.default []; Yield request msgs].
Proof.
  intros Hpermnew Hid Hreq Hids Hlim.
  set (subject := FLOW_STATE_TEMPLATE session) in *.
  destruct (in_scan_written subject request msgs) as [Hq Hr]. cbv zeta in Hq, Hr.
  (* the two scans, sorted *)
  assert (Hrequests :
            sorted_rows (ResolveRegex (db w') subject FLOW_REQUEST_REGEX
                           request_limit)
            = [(FLOW_REQUEST_TEMPLATE (RequestState.id request),
                SerRequest request)]).
  { rewrite ResolveRegex_unfold, <- filter_in_scan_subject.
    assert (Hl : List.map row_of
                   (List.filter (in_scan subject FLOW_REQUEST_REGEX)
                      (subject_rows subject (db w')))
                 = [(FLOW_REQUEST_TEMPLATE (RequestState.id request),
                     SerRequest request)]).
    { apply Permutation_singleton_r. rewrite <- Hq.
      apply Permutation_map, List_filter_Permutation, Hpermnew. }
    rewrite Hl, take_ge by (cbn [length]; unfold request_limit; lia).
    apply sorted_rows_unique; [reflexivity| |repeat constructor].
    cbn. apply NoDup_singleton. }
  assert (Hbound : Forall (fun m => GrrMessage.request_id m
                                    = RequestState.id request /\
                                    0 <= GrrMessage.response_id m < 2 ^ 32)
                          msgs).
  { apply Forall_forall. intros m Hm. split.
    - rewrite Forall_forall in Hreq. apply Hreq, Hm.
    - assert (Hin : GrrMessage.response_id m
                    ∈ GrrMessage.response_id <$> msgs)
        by (apply list_elem_of_fmap; exists m; auto).
      rewrite Hids in Hin. unfold consecutive in Hin.
      apply list_elem_of_fmap in Hin as (i & -> & Hi).
      apply elem_of_seq in Hi. unfold response_limit in Hlim. lia. }
  assert (Hresponses :
            sorted_rows (ResolveRegex (db w') subject FLOW_RESPONSE_REGEX
                           response_limit)
            = response_row <$> msgs).
  { rewrite ResolveRegex_unfold, <- filter_in_scan_subject.
    assert (Hl : List.map row_of
                   (List.filter (in_scan subject FLOW_RESPONSE_REGEX)
                      (subject_rows subject (db w')))
                 ≡ₚ response_row <$> msgs).
    { rewrite <- Hr. apply Permutation_map, List_filter_Permutation, Hpermnew. }
    rewrite take_ge
      by (rewrite (Permutation_length Hl), length_fmap; lia).
    apply sorted_rows_unique; [exact Hl| |].
    - rewrite <- list_fmap_compose.
      apply (NoDup_fmap_1 (fun k => unhex (default "" (split_colon k !! 3%nat)))).
      rewrite <- list_fmap_compose.
      rewrite (list_fmap_ext _ GrrMessage.response_id msgs).
      + rewrite Hids. unfold consecutive.
        apply NoDup_fmap_2; [|apply NoDup_seq]. intros i j Hij. lia.
      + intros i m Hm. cbn. unfold response_key.
        rewrite split_colon_response_key. cbn. apply unhex_hex8.
        rewrite Forall_forall in Hbound.
        apply (Hbound m). eapply list_elem_of_lookup_2, Hm.
    - apply (response_rows_sorted (RequestState.id request)); [|exact Hbound].
      rewrite Hids. apply consecutive_sorted. }
  (* the join *)
  unfold FetchRequestsAndResponses, fetch_scan.
  cbn [FlowManager_init FlowManager.session_id]. fold subject.
  rewrite Hrequests, Hresponses.
  cbn [fold_left request_step fst snd parse_RequestState].
  rewrite lookup_singleton_ne by lia. cbn [default Meta.RESPONSES Meta.empty].
  assert (Hc : component2 (FLOW_REQUEST_TEMPLATE (RequestState.id request))
               = hex8 (RequestState.id request)).
  { unfold component2. rewrite split_colon_request_key. reflexivity. }
  rewrite Hc.
  change (from_option id Meta.empty None) with Meta.empty.
  cbn [Meta.RESPONSES Meta.empty].
  rewrite (response_loop_one_request (RequestState.id request) msgs _ _ _ _ Hreq).
  cbn [scan_map scan_request_count scan_response_count].
  rewrite sorted_keys_pair by exact Hid.
  cbn [omap list_omap]. unfold yield_of.
  rewrite lookup_insert_ne by lia. rewrite lookup_singleton_eq, lookup_insert_eq.
  cbn [Meta.REQUEST_STATE Meta.RESPONSES].
  replace (response_limit <=? 0 + Z.of_nat (length msgs)) with false
    by (symmetry; apply Z.leb_gt; lia).
  change (request_limit <=? 0 + 1) with false. cbn [orb].
  rewrite app_nil_r. do 2 f_equal. destruct msgs; reflexivity.
Qed.

Lemma subject_rows_app (subject : string) (rows new : list Row) :
  subject_rows subject (rows ++ new)
  = subject_rows subject rows ++ subject_rows subject new.
Proof. apply List.filter_app. Qed.

(** One request and its responses, written in one MultiSet into a subject
    that held nothing, are what the next fetch of that session yields. *)
Lemma fetch_after_write (session : string) (rows : list Row)
    (to_write : gmap string (list Serialized)) (request : RequestState.t)
    (msgs : list GrrMessage.t) (w' : World) :
  (forall row, row ∈ rows -> row.1.1 <> FLOW_STATE_TEMPLATE session) ->
  map_to_list to_write ≡ₚ request_entry request :: (response_entry <$> msgs) ->
  0 < RequestState.id request ->
  Forall (fun m => GrrMessage.request_id m = RequestState.id request) msgs ->
  GrrMessage.response_id <$> msgs = consecutive 1 (length msgs) ->
  Z.of_nat (length msgs) < response_limit ->
  db w' = db_MultiSet rows (FLOW_STATE_TEMPLATE session) to_write [] ->
  FetchRequestsAndResponses (FlowManager_init session) w'
  = [Yield RequestState.default []; Yield request msgs].
Proof.
  intros Hfresh Hperm Hid Hreq Hids Hlim Hdb.
  apply fetch_of_subject_rows; try assumption.
  set (subject := FLOW_STATE_TEMPLATE session) in *.
  rewrite Hdb. unfold db_MultiSet.
  change (List.filter _ rows) with (without subject [] rows).
  rewrite without_nothing, fold_db_set.
  - rewrite subject_rows_app. unfold subject_rows at 1.
    rewrite List_filter_none
      by (intros row Hrow; apply String.eqb_neq, Hfresh, Hrow).
    cbn [app]. unfold subject_rows. rewrite List_filter_all.
    + rewrite Hperm. cbn [omap list_omap].
      change (list_omap _ _ (written subject) (response_entry <$> msgs))
        with (omap (written subject) (response_entry <$> msgs)).
      rewrite omap_written_responses. reflexivity.
    + intros row Hrow. apply list_elem_of_omap in Hrow as (kv & _ & Hkv).
      unfold written in Hkv. destruct (last kv.2); [|discriminate].
      injection Hkv as <-. apply String.eqb_refl.
  - apply NoDup_fst_map_to_list.
  - intros row Hrow Hs. exfalso. exact (Hfresh row Hrow Hs).
Qed.

Lemma no_rows_of_spec (subject : string) (rows : list Row) :
  no_rows_of subject rows = true ->
  forall row, row ∈ rows -> row.1.1 <> subject.
Proof.
  unfold no_rows_of. rewrite forallb_forall. intros H row Hrow.
  apply String.eqb_neq, negb_true_iff, H, list_elem_of_In, Hrow.
Qed.

Lemma CallState_fetch (state_attribute : string -> option bool)
    (messages : option (list Payload)) (next_state : string)
    (for_client : option string) (c : Context) (w : World) :
  state_attribute next_state = Some true ->
  0 < next_outbound_id c ->
  Z.of_nat (length (with_status (default [] messages))) < response_limit ->
  no_rows_of (FLOW_STATE_TEMPLATE (session_id c)) (db w) = true ->
  let out := CallState state_attribute messages next_state for_client c w in
  out.1.1 = set_outstanding_requests (_outstanding_requests c + 1)
              (set_next_outbound_id (next_outbound_id c + 1) c) /\
  FetchRequestsAndResponses (FlowManager_init (session_id c)) out.1.2
  = [Yield RequestState.default [];
     Yield (state_request c next_state for_client)
           (state_messages c (default [] messages))].
Proof.
  intros Hattr Hid Hlim Hfresh. cbv zeta.
  destruct (CallState_runs state_attribute messages next_state for_client
              c w Hattr) as (final & to_write & Hlast & Hperm & ->).
  cbn [fst snd]. split; [reflexivity|].
  destruct (state_messages_ids c (default [] messages)) as (Hids & Hlen & Hall).
  eapply fetch_after_write; try eassumption.
  - apply no_rows_of_spec, Hfresh.
  - eapply Forall_impl; [exact Hall|]. intros m (Hm & _). exact Hm.
  - rewrite Hlen. exact Hlim.
  - reflexivity.
Qed.

(** X9.  What CallState files, the next fetch yields.  After an accepted
    CallState on a session whose subject held nothing, with a positive
    outbound id and fewer responses than response_limit,
    FetchRequestsAndResponses yields the id-0 sentinel and then the
    request with all its responses in the order they were given, and does
    not raise MoreData, in whatever order the store hands the rows back. *)
Theorem CallState_is_fetched_back (state_attribute : string -> option bool)
    (messages : option (list Payload)) (next_state : string)
    (for_client : option string) (c : Context) (w : World) :
  state_attribute next_state = Some true ->
  0 < next_outbound_id c ->
  Z.of_nat (length (with_status (default [] messages))) < response_limit ->
  no_rows_of (FLOW_STATE_TEMPLATE (session_id c)) (db w) = true ->
  let out := CallState state_attribute messages next_state for_client c w in
  FetchRequestsAndResponses (FlowManager_init (session_id c)) out.1.2
  = [Yield RequestState.default [];
     Yield (state_request c next_state for_client)
           (state_messages c (default [] messages))].
Proof.
  intros Hattr Hid Hlim Hfresh.
  apply (CallState_fetch state_attribute messages next_state for_client c w
           Hattr Hid Hlim Hfresh).
Qed.

Lemma scan_body_sentinel (parent_flow : Flow) (debug : bool)
    (responses : list GrrMessage.t) (p : Pass) :
  scan_body parent_flow debug RequestState.default responses p = (p, Continue).
Proof. reflexivity. Qed.

(** X10.  What CallState files, the next pass dispatches.  On a RUNNING
    flow, a hunt or an ordered flow whose cursor stands at the outbound id
    the call used, the scan of the next pass hands exactly that request,
    with the responses CallState was given, to the state method named by
    next_state, marks the request and its responses for deletion and runs
    to the end of the fetch. *)
Theorem CallState_is_dispatched (parent_flow : Flow) (debug : bool)
    (state_attribute : string -> option bool)
    (messages : option (list Payload)) (next_state : string)
    (for_client : option string) (c : Context) (w : World) :
  state_attribute next_state = Some true ->
  0 < next_outbound_id c ->
  Z.of_nat (length (with_status (default [] messages))) < response_limit ->
  no_rows_of (FLOW_STATE_TEMPLATE (session_id c)) (db w) = true ->
  IsRunning c = true ->
  class c = HuntFlowContext \/ next_processed_request c = next_outbound_id c ->
  let out := CallState state_attribute messages next_state for_client c w in
  let fm := FlowManager_init (session_id c) in
  let request := state_request c next_state for_client in
  let msgs := state_messages c (default [] messages) in
  let pass := scan parent_flow debug (FetchRequestsAndResponses fm out.1.2)
                (mkPass out.1.1 fm out.1.2 []) in
  RequestState.next_state request = next_state /\
  dispatched pass.1 = [(request, msgs)] /\
  FlowManager.to_delete (manager pass.1) = keys_of (request, msgs) /\
  pass.2 = Exhausted.
Proof.
  intros Hattr Hid Hlim Hfresh Hrun Hcursor. cbv zeta.
  destruct (CallState_fetch state_attribute messages next_state for_client
              c w Hattr Hid Hlim Hfresh) as [Hc ->].
  rewrite Hc. clear Hc.
  set (out := CallState _ _ _ _ _ _). clearbody out.
  destruct (state_messages_last c (default [] messages))
    as (final & Hlast & Hty & Hfid).
  split; [reflexivity|].
  cbn [scan]. rewrite scan_body_sentinel. unfold scan_body.
  cbn [state_request RequestState.id ctx manager world dispatched].
  rewrite (proj2 (Z.eqb_neq (next_outbound_id c) 0)) by lia. rewrite Hlast.
  cbn [class set_outstanding_requests set_next_outbound_id
       next_processed_request].
  assert (Hguards :
            process_requests_in_order (class c)
            && (next_processed_request c <? next_outbound_id c) = false /\
            process_requests_in_order (class c)
            && (next_outbound_id c <? next_processed_request c) = false /\
            process_requests_in_order (class c)
            && negb (next_outbound_id c =? next_processed_request c) = false).
  { destruct Hcursor as [Hhunt | Hat]; [rewrite Hhunt; auto|].
    rewrite Hat, Z.ltb_irrefl, Z.eqb_refl, !andb_false_r. auto. }
  destruct Hguards as (-> & -> & ->).
  rewrite Hty, bool_decide_eq_true_2 by reflexivity. cbn [negb].
  rewrite Hfid, Z.eqb_refl. cbn [negb].
  change (IsRunning (set_outstanding_requests _ (set_next_outbound_id _ c)))
    with (IsRunning c).
  rewrite Hrun. unfold _Process. cbn [ctx manager world dispatched].
  change (class (set_outstanding_requests _ (set_next_outbound_id _ c)))
    with (class c).
  destruct (class c).
  - cbv beta iota. cbn [scan ctx manager world dispatched fst snd app].
    repeat split; reflexivity.
  - destruct (_ProcessSingleRequest _ _ _ _ _ _) as [c2 w2].
    cbv beta iota. cbn [scan ctx manager world dispatched fst snd app].
    repeat split; reflexivity.
Qed.

(** ** What a dead flow's pass leaves in the store *)

Lemma request_fold_inserts (rows : list (string * Serialized))
    (acc : gmap Z Meta.t * string * Z) (row : string * Serialized) :
  row ∈ rows ->
  is_Some ((fold_left request_step rows acc).1.1
             !! RequestState.id (parse_RequestState row.2)).
Proof.
  revert acc. induction rows as [|row' rows IH]; intros acc Hrow;
    [inversion Hrow|].
  cbn [fold_left]. apply elem_of_cons in Hrow as [->|Hrow]; [|apply IH, Hrow].
  apply request_fold_keeps. destruct acc as [[m mx] n]. cbn.
  rewrite lookup_insert_eq. eauto.
Qed.

Lemma response_loop_dom (mx : string) (rows : list (string * Serialized))
    (m : gmap Z Meta.t) (n : Z) (k : Z) :
  is_Some ((response_loop mx rows m n).1 !! k) -> is_Some (m !! k).
Proof.
  revert m n. induction rows as [|row rows IH]; intros m n; simpl.
  - auto.
  - destruct (String.ltb mx (component2 row.1)); simpl; [auto|].
    destruct (m !! GrrMessage.request_id (parse_GrrMessage row.2)) eqn:Hm;
      [|apply IH].
    intros H. apply IH in H. rewrite lookup_insert in H.
    case_decide; [subst; rewrite Hm; eauto|exact H].
Qed.

Lemma fetched_request_ids (fm : FlowManager.t) (w : World)
    (row : string * Serialized) :
  row ∈ request_rows fm w ->
  exists pair, pair ∈ fetched fm w /\
               RequestState.id pair.1
               = RequestState.id (parse_RequestState row.2).
Proof.
  intros Hrow.
  assert (Hk : RequestState.id (parse_RequestState row.2)
               ∈ sorted_keys (scan_map (fetch_scan fm w))).
  { apply sorted_keys_elem. unfold fetch_scan.
    pose proof (request_fold_inserts
      (sorted_rows (ResolveRegex (db w)
                      (FLOW_STATE_TEMPLATE (FlowManager.session_id fm))
                      FLOW_REQUEST_REGEX request_limit))
      ({[ 0 := Meta.mk (Some RequestState.default) None ]}, "00000000", 0)
      row) as H.
    destruct (fold_left request_step _ _) as [[m mx] n]. simpl in H.
    pose proof (response_loop_keeps mx
      (sorted_rows (ResolveRegex (db w)
                      (FLOW_STATE_TEMPLATE (FlowManager.session_id fm))
                      FLOW_RESPONSE_REGEX response_limit)) m 0
      (RequestState.id (parse_RequestState row.2))) as H'.
    destruct (response_loop _ _ _ _) as [m' n']. simpl in *.
    apply H', H. unfold sorted_rows. rewrite merge_sort_Permutation.
    exact Hrow. }
  rewrite <- fetched_ids in Hk. apply list_elem_of_fmap in Hk as (pair & Hid & Hp).
  exists pair. auto.
Qed.

Lemma only_zero_sorted (l : list Z) :
  StronglySorted Z.lt l -> (forall k, k ∈ l <-> k = 0) -> l = [0].
Proof.
  intros Hsorted Hl. destruct l as [|a [|b l]].
  - exfalso. apply (not_elem_of_nil 0), Hl. reflexivity.
  - f_equal. apply Hl. left.
  - exfalso. apply StronglySorted_inv in Hsorted as [_ Hlt].
    apply Forall_cons in Hlt as [Hab _].
    assert (a = 0) by (apply Hl; left).
    assert (b = 0) by (apply Hl; right; left). lia.
Qed.

(** With no request row in the subject the fetch yields the sentinel
    only. *)
Lemma fetch_without_requests (fm : FlowManager.t) (w : World) :
  request_rows fm w = [] ->
  (fun p => RequestState.id p.1) <$> fetched fm w = [0].
Proof.
  intros Hnone. rewrite fetched_ids. apply only_zero_sorted.
  { apply sorted_keys_strict. }
  intros k. rewrite sorted_keys_elem. split.
  - unfold fetch_scan. fold (request_rows fm w). rewrite Hnone.
    change (sorted_rows []) with (@nil (string * Serialized)).
    cbn [fold_left].
    pose proof (response_loop_dom "00000000"
      (sorted_rows (ResolveRegex (db w)
                      (FLOW_STATE_TEMPLATE (FlowManager.session_id fm))
                      FLOW_RESPONSE_REGEX response_limit))
      {[ 0 := Meta.mk (Some RequestState.default) None ]} 0 k) as H.
    destruct (response_loop _ _ _ _) as [m' n']. simpl in *.
    intros Hk. apply H in Hk. destruct (decide (k = 0)) as [->|Hne];
      [reflexivity|].
    rewrite lookup_singleton_ne in Hk by auto. destruct Hk as [? [=]].
  - intros ->. apply fetch_scan_zero.
Qed.

(** X11.  After a pass over a flow that is not RUNNING, in a store where
    every request of the session is filed under the key of its id and the
    fetch did not end in MoreData, no request of the session is left in
    the store: the next fetch yields the id-0 sentinel and nothing else. *)
Theorem dead_flow_pass_leaves_no_request (parent_flow : Flow) (debug : bool)
    (c : Context) (w : World) :
  IsRunning c = false ->
  more_data (FlowManager_init (session_id c)) w = false ->
  well_keyed (FLOW_STATE_TEMPLATE (session_id c)) (db w) = true ->
  let out := ProcessCompletedRequests parent_flow debug c w in
  let fm := FlowManager_init (session_id c) in
  request_rows fm out.2 = [] /\
  (fun p => RequestState.id p.1) <$> fetched fm out.2 = [0].
Proof.
  intros Hdead Hmore Hkeyed. cbv zeta.
  pose proof (dead_flow_pass_shape parent_flow debug c w Hdead)
    as (_ & _ & Hdb).
  set (out := ProcessCompletedRequests parent_flow debug c w) in *.
  set (fm := FlowManager_init (session_id c)) in *.
  set (subject := FLOW_STATE_TEMPLATE (session_id c)) in *.
  assert (Hnone : request_rows fm out.2 = []);
    [|split; [exact Hnone|apply fetch_without_requests, Hnone]].
  (* all request rows were fetched *)
  assert (Hall : request_rows fm w
                 = List.map row_of
                     (List.filter (in_scan subject FLOW_REQUEST_REGEX) (db w))).
  { unfold more_data in Hmore. apply orb_false_elim in Hmore as [Hcount _].
    rewrite fetch_scan_request_count in Hcount. apply Z.leb_gt in Hcount.
    unfold request_rows in *. rewrite ResolveRegex_unfold in *.
    change (FLOW_STATE_TEMPLATE (FlowManager.session_id fm)) with subject in *.
    rewrite length_take in Hcount. apply take_ge. lia. }
  unfold request_rows. rewrite ResolveRegex_unfold.
  change (FLOW_STATE_TEMPLATE (FlowManager.session_id fm)) with subject.
  rewrite Hdb, List_filter_none; [apply take_nil|].
  intros row Hrow. unfold without in Hrow.
  apply elem_of_List_filter in Hrow as [Hrow Hkeep].
  destruct (in_scan subject FLOW_REQUEST_REGEX row) eqn:Hscan; [|reflexivity].
  exfalso.
  assert (Hkey : row.1.2 = FLOW_REQUEST_TEMPLATE
                             (RequestState.id (parse_RequestState row.2))).
  { unfold well_keyed in Hkeyed. rewrite forallb_forall in Hkeyed.
    specialize (Hkeyed row (proj1 (list_elem_of_In _ _) Hrow)).
    rewrite Hscan in Hkeyed. cbn in Hkeyed. apply String.eqb_eq, Hkeyed. }
  destruct (fetched_request_ids fm w (row_of row)) as (pair & Hpair & Hid).
  { rewrite Hall. apply list_elem_of_In, in_map, filter_In. split.
    - apply list_elem_of_In, Hrow.
    - exact Hscan. }
  apply negb_true_iff, andb_false_iff in Hkeep as [Hs|Hk].
  - unfold in_scan in Hscan. apply andb_prop in Hscan as [Hs' _]. congruence.
  - assert (Hin : mem_string row.1.2 (concat (keys_of <$> fetched fm w)) = true);
      [|congruence].
    apply mem_string_spec, list_elem_of_In, in_concat.
    exists (keys_of pair). split.
    + apply list_elem_of_In, list_elem_of_fmap. exists pair. auto.
    + left. rewrite Hkey. cbn in Hid. rewrite Hid. reflexivity.
Qed.

(** ** Well known flows *)

Lemma delete_yields_responses (msgs : list GrrMessage.t) (fm : FlowManager.t) :
  let fm' := delete_yields ((fun m => (None, [m])) <$> msgs) fm in
  FlowManager.to_delete fm' = FlowManager.to_delete fm ++ (response_key <$> msgs) /\
  FlowManager.client_messages fm' = FlowManager.client_messages fm /\
  FlowManager.client_id fm' = FlowManager.client_id fm /\
  FlowManager.to_write fm' = FlowManager.to_write fm /\
  FlowManager.subject fm' = FlowManager.subject fm /\
  FlowManager.sync fm' = FlowManager.sync fm.
Proof.
  cbv zeta. revert fm. induction msgs as [|m msgs IH]; intros fm.
  - cbn. rewrite app_nil_r. auto 10.
  - cbn [fmap list_fmap delete_yields fold_left fst snd].
    fold (delete_yields ((fun m => (None, [m])) <$> msgs)
            (DeleteFlowRequestStates fm None [m])).
    destruct (IH (DeleteFlowRequestStates fm None [m]))
      as (-> & -> & -> & -> & -> & ->).
    unfold DeleteFlowRequestStates.
    cbn [FlowManager.to_delete FlowManager.client_messages
         FlowManager.client_id FlowManager.to_write FlowManager.subject
         FlowManager.sync List.map].
    rewrite <- app_assoc. auto 10.
Qed.

(** X12.  A well known flow's manager.  Its fetch makes one scan, of the
    responses, bounded by request_limit (10,000) and not by
    response_limit, and never raises MoreData: what lies beyond the limit
    is silently not yielded.  Every yield is a lone response with no
    request, in ascending key order.  Deleting what was yielded marks the
    key of each response and records no task id and no client, so the
    Flush that closes the scope dequeues nothing. *)
Theorem well_known_fetch_is_bounded_and_silent (session : string) (w : World) :
  let fm := FlowManager_init session in
  let subject := FLOW_STATE_TEMPLATE session in
  let yields := WellKnown_FetchRequestsAndResponses fm w in
  Z.of_nat (length yields)
  = Z.min request_limit
      (Z.of_nat (length (List.filter (in_scan subject FLOW_RESPONSE_REGEX)
                           (db w)))) /\
  exists msgs,
    yields = (fun m => (None, [m])) <$> msgs /\
    Sorted row_le
      (sorted_rows (ResolveRegex (db w) subject FLOW_RESPONSE_REGEX
                      request_limit)) /\
    msgs = (fun row : string * Serialized => parse_GrrMessage row.2)
           <$> sorted_rows (ResolveRegex (db w) subject FLOW_RESPONSE_REGEX
                              request_limit) /\
    journal (Flush (delete_yields yields fm) w).2
    = journal w ++ [DB_MultiSet subject ∅ (response_key <$> msgs) true;
                    SCHEDULER_Delete None []].
Proof.
  cbv zeta. unfold WellKnown_FetchRequestsAndResponses.
  cbn [FlowManager_init FlowManager.session_id].
  set (rows := sorted_rows _). split.
  - rewrite length_map. subst rows. rewrite length_sorted_rows.
    rewrite ResolveRegex_unfold, length_take, length_map.
    unfold request_limit. lia.
  - exists ((fun row : string * Serialized => parse_GrrMessage row.2) <$> rows).
    split; [|split; [|split; [reflexivity|]]].
    + rewrite <- list_fmap_compose. clear. induction rows as [|row rows IH];
        [reflexivity|]. cbn [List.map fmap list_fmap]. rewrite IH. reflexivity.
    + subst rows. apply (@Sorted_merge_sort _ row_le _ row_le_total).
    + replace (List.map _ rows)
        with ((fun m => (@None RequestState.t, [m]))
                <$> ((fun row : string * Serialized => parse_GrrMessage row.2)
                       <$> rows)).
      * pose proof (delete_yields_responses
                      ((fun row : string * Serialized => parse_GrrMessage row.2)
                         <$> rows) (FlowManager_init session)) as H.
        cbv zeta in H. destruct H as (Hdel & Hmsgs & Hcid & Hwrite & Hsubj & Hsync).
        rewrite journal_Flush, Hdel, Hmsgs, Hcid, Hwrite, Hsubj, Hsync.
        reflexivity.
      * rewrite <- list_fmap_compose. clear. induction rows as [|row rows IH];
          [reflexivity|]. cbn [List.map fmap list_fmap]. rewrite IH.
        reflexivity.
Qed.

(** ** Session ids *)

Lemma colon_free_hex (n : Z) : colon_free (hex n) = true.
Proof. unfold hex. rewrite colon_free_hex_aux. reflexivity. Qed.

(** X13.  Session ids.  Whenever some draw, reduced modulo 2^32, exceeds
    the reserved range, _GetNewSessionID returns; what it returns is the
    queue name, a colon and the upper-case hexadecimal of the first such
    value, which lies above 100 and below 2^32 and can be read back.  For
    a queue name without a colon, the session id splits into the queue
    name and the number, so the worker queue that SendReply takes from a
    parent's session id is the queue name the parent was created with. *)
Theorem session_id_names_its_queue (queue_name : string) (draws : list Z) :
  Exists (fun draw => RESERVED_RANGE < draw mod 2 ^ 32) draws ->
  colon_free queue_name = true ->
  exists session value,
    _GetNewSessionID queue_name draws = Some session /\
    RESERVED_RANGE < value < 2 ^ 32 /\
    head (List.filter (fun v => RESERVED_RANGE <? v)
                      ((fun draw => draw mod 2 ^ 32) <$> draws)) = Some value /\
    session = queue_name +:+ ":" +:+ hex value /\
    split_colon session = [queue_name; hex value] /\
    unhex (hex value) = value /\
    forall parent, RequestState.session_id parent = session ->
                   worker_queue_of parent = queue_name.
Proof.
  intros Hex Hq. induction draws as [|draw draws IH]; [inversion Hex|].
  cbn [_GetNewSessionID fmap list_fmap List.filter]. cbv zeta.
  destruct (RESERVED_RANGE <? draw mod 2 ^ 32) eqn:Hdraw.
  - clear IH. apply Z.ltb_lt in Hdraw.
    pose proof (Z.mod_pos_bound draw (2 ^ 32) ltac:(lia)) as Hb.
    assert (Hsplit : split_colon (queue_name +:+ ":" +:+ hex (draw mod 2 ^ 32))
                     = [queue_name; hex (draw mod 2 ^ 32)]).
    { unfold split_colon.
      change (queue_name +:+ ":" +:+ hex (draw mod 2 ^ 32))
        with (queue_name +:+ String ":"%char (hex (draw mod 2 ^ 32))).
      rewrite split_colon_aux_cons by exact Hq.
      rewrite split_colon_aux_colon_free by apply colon_free_hex.
      reflexivity. }
    exists (queue_name +:+ ":" +:+ hex (draw mod 2 ^ 32)), (draw mod 2 ^ 32).
    split; [reflexivity|]. split; [lia|].
    split; [reflexivity|]. split; [reflexivity|]. split; [exact Hsplit|].
    split; [apply unhex_hex; lia|].
    intros parent Hparent. unfold worker_queue_of. rewrite Hparent, Hsplit.
    reflexivity.
  - apply Exists_cons in Hex as [Hhead|Htail].
    + apply Z.ltb_lt in Hhead. congruence.
    + exact (IH Htail).
Qed.

(** ** A hunt's scan *)


(** ** A pass that finds no response *)

Lemma scan_unanswered (parent_flow : Flow) (debug : bool)
    (pairs : list (RequestState.t * list GrrMessage.t))
    (tail : list GenEvent) (p : Pass) :
  Forall (fun pair => pair.2 = []) pairs ->
  scan parent_flow debug ((yield_pair <$> pairs) ++ tail) p
  = scan parent_flow debug tail p.
Proof.
  induction 1 as [|pair pairs Hpair _ IH]; [reflexivity|].
  cbn [fmap list_fmap app scan yield_pair]. unfold scan_body.
  rewrite Hpair. cbn [last].
  destruct (RequestState.id pair.1 =? 0); exact IH.
Qed.

(** X15.  A pass that finds no response changes nothing.  On a RUNNING
    flow, when no fetched request has a response yet and either requests
    are outstanding or the fetch ended in MoreData, the pass runs no state
    method, neither End nor Terminate, and hands the context back as it
    was; the store is as before; the only calls are the empty write and
    the empty dequeue of the manager's Flush, and the notification of the
    flow's own queue when the fetch ended in MoreData. *)
Theorem pass_without_responses_changes_nothing (parent_flow : Flow)
    (debug : bool) (c : Context) (w : World) :
  IsRunning c = true ->
  Flow_OutstandingRequests c <> 0
  \/ more_data (FlowManager_init (session_id c)) w = true ->
  Forall (fun pair : RequestState.t * list GrrMessage.t => pair.2 = [])
         (fetched (FlowManager_init (session_id c)) w) ->
  let out := ProcessCompletedRequests parent_flow debug c w in
  out.1 = c /\
  db out.2 = db w /\
  journal out.2
  = journal w
    ++ [DB_MultiSet (FLOW_STATE_TEMPLATE (session_id c)) ∅ [] true;
        SCHEDULER_Delete None []]
    ++ (if more_data (FlowManager_init (session_id c)) w
        then [SCHEDULER_NotifyQueue (queue_name c) (session_id c)] else []).
Proof.
  intros Hrun Hout Hnone. cbv zeta. unfold ProcessCompletedRequests.
  rewrite Hrun. cbn [negb]. rewrite Fetch_shape, scan_unanswered by exact Hnone.
  assert (Hdb : forall w0, db (Flush (FlowManager_init (session_id c)) w0).2
                           = db w0).
  { intros w0. unfold Flush, SchedulerDelete, MultiSet, FlowManager_init.
    cbn [snd db record set_db FlowManager.subject FlowManager.to_write
         FlowManager.to_delete].
    rewrite db_MultiSet_nothing_written. apply without_nothing. }
  destruct (more_data (FlowManager_init (session_id c)) w).
  - cbn [scan ctx manager world dispatched]. unfold join.
    destruct (class c); cbn [fold_left fst snd]; unfold NotifyQueue;
      (split; [reflexivity|]); (split; [apply Hdb|]);
      rewrite journal_record, journal_Flush, <- app_assoc; reflexivity.
  - destruct Hout as [Hout|Hmore]; [|discriminate Hmore].
    cbn [scan ctx manager world dispatched]. unfold end_of_pass.
    rewrite (proj2 (Z.eqb_neq _ _) Hout). cbn [andb].
    rewrite (proj2 (Z.eqb_neq _ _) Hout). unfold join.
    destruct (class c); cbn [fold_left fst snd];
      (split; [reflexivity|]); (split; [apply Hdb|]);
      rewrite journal_Flush, app_nil_r; reflexivity.
Qed.

(** ** From a child's replies to the parent's fetch *)

Lemma SendReply_db (payload : Payload) (c : Context) (w : World)
    (parent : RequestState.t) :
  FlowPB.request_state (flow_pb c) = Some parent ->
  let out := SendReply payload c w in
  let response_id := RequestState.response_count parent + 1 in
  exists msg,
    db out.2
    = db_set (FLOW_STATE_TEMPLATE (RequestState.session_id parent)) (db w)
        (FLOW_RESPONSE_TEMPLATE (RequestState.id parent) response_id,
         [SerMessage msg]) /\
    GrrMessage.request_id msg = RequestState.id parent /\
    GrrMessage.response_id msg = response_id /\
    GrrMessage.type msg = reply_type payload.
Proof.
  intros Hparent. cbv zeta. unfold SendReply. rewrite Hparent.
  destruct payload as [st|bytes]; cbn [is_GrrStatus]; cbv zeta;
    cbn [fst snd]; eexists;
    (split;
     [unfold NotifyQueue, Flush, SchedulerDelete, MultiSet, Schedule,
        QueueResponse, with_to_write, setdefault_append, FlowManager_init;
      cbn [snd db record set_db FlowManager.subject FlowManager.to_write
           FlowManager.to_delete];
      rewrite lookup_empty; cbn [default app];
      unfold db_MultiSet; rewrite insert_empty, map_to_list_singleton;
      cbn [fold_left];
      match goal with
      | |- context [List.filter ?f (db w)] =>
          change (List.filter f (db w))
            with (without (FLOW_STATE_TEMPLATE (RequestState.session_id parent))
                    [] (db w))
      end;
      rewrite without_nothing; reflexivity
     |repeat split; reflexivity]).
Qed.

Lemma send_replies_rows (payloads : list Payload) (c : Context) (w : World)
    (parent : RequestState.t) :
  FlowPB.request_state (flow_pb c) = Some parent ->
  0 <= RequestState.response_count parent ->
  (forall row i, row ∈ db w ->
     row.1.1 = FLOW_STATE_TEMPLATE (RequestState.session_id parent) ->
     RequestState.response_count parent < i ->
     row.1.2 <> FLOW_RESPONSE_TEMPLATE (RequestState.id parent) i) ->
  exists msgs,
    db (send_replies payloads c w).2
    = db w ++ ((fun m => (FLOW_STATE_TEMPLATE (RequestState.session_id parent),
                          response_key m, SerMessage m)) <$> msgs) /\
    GrrMessage.response_id <$> msgs
    = consecutive (RequestState.response_count parent + 1) (length payloads) /\
    Forall (fun m => GrrMessage.request_id m = RequestState.id parent) msgs /\
    GrrMessage.type <$> msgs = reply_type <$> payloads.
Proof.
  revert c w parent. induction payloads as [|payload payloads IH];
    intros c w parent Hparent Hrc Hfresh.
  - exists []. cbn. rewrite app_nil_r. repeat split; constructor.
  - unfold send_replies. cbn [fold_left fst snd].
    destruct (SendReply_db payload c w parent Hparent)
      as (msg & Hdb & Hrid & Hid & Hty).
    pose proof (SendReply_context payload c w) as Hctx.
    destruct (SendReply payload c w) as [c1 w1]. cbn [fst snd] in *.
    fold (send_replies payloads c1 w1).
    set (subject := FLOW_STATE_TEMPLATE (RequestState.session_id parent)) in *.
    assert (Hdb1 : db w1 = db w ++ [(subject, response_key msg, SerMessage msg)]).
    { rewrite Hdb. unfold db_set. cbn [snd last fst].
      rewrite List_filter_all; [unfold response_key; rewrite Hrid, Hid;
                                reflexivity|].
      intros row Hrow. apply negb_true_iff, andb_false_iff.
      destruct (String.eqb row.1.1 subject) eqn:Hs; [right|left; reflexivity].
      apply String.eqb_eq in Hs. apply String.eqb_neq.
      apply (Hfresh row _ Hrow Hs). lia. }
    destruct (IH c1 w1
                (RequestState.set_response_count
                   (RequestState.response_count parent + 1) parent))
      as (msgs & Hdbs & Hids & Hreq & Htypes).
    + rewrite Hctx, Hparent. reflexivity.
    + cbn. lia.
    + cbn [RequestState.set_response_count RequestState.session_id
           RequestState.response_count RequestState.id].
      fold subject. intros row i Hrow Hs Hi. rewrite Hdb1 in Hrow.
      apply elem_of_app in Hrow as [Hrow|Hrow].
      * apply (Hfresh row i Hrow Hs). lia.
      * apply elem_of_cons in Hrow as [->|Hrow]; [|inversion Hrow].
        cbn [fst snd]. unfold response_key. rewrite Hrid, Hid. intros Heq.
        apply response_key_inj in Heq as [_ Heq]; lia.
    + cbn [RequestState.set_response_count RequestState.session_id
           RequestState.response_count RequestState.id] in *.
      fold subject in Hdbs.
      exists (msg :: msgs). cbn [fmap list_fmap length].
      rewrite consecutive_cons, Hdbs, Hdb1, <- app_assoc.
      fold (fmap (M:=list) GrrMessage.response_id msgs).
      fold (fmap (M:=list) GrrMessage.type msgs).
      rewrite Hids, Htypes, Hid, Hty. repeat split; try reflexivity.
      constructor; assumption.
Qed.

(** X16.  A child's replies reach its parent as one complete request.
    When the parent's subject holds the request the child answers and
    nothing else, and the child has sent nothing yet, then after the child
    has sent its replies and a closing GrrStatus the parent's fetch yields
    the sentinel and then that request with the replies in the order they
    were sent; the last is a STATUS whose response id is their number, so
    the request passes the guards of the parent's main loop. *)
Theorem replies_reach_the_parent (payloads : list Payload) (st : GrrStatus.t)
    (c : Context) (w : World) (parent stored : RequestState.t) :
  FlowPB.request_state (flow_pb c) = Some parent ->
  RequestState.response_count parent = 0 ->
  0 < RequestState.id parent ->
  RequestState.id stored = RequestState.id parent ->
  subject_rows (FLOW_STATE_TEMPLATE (RequestState.session_id parent)) (db w)
  = [(FLOW_STATE_TEMPLATE (RequestState.session_id parent),
      FLOW_REQUEST_TEMPLATE (RequestState.id parent), SerRequest stored)] ->
  Z.of_nat (length payloads) + 1 < response_limit ->
  let out := send_replies (payloads ++ [PStatus st]) c w in
  exists msgs,
    FetchRequestsAndResponses
      (FlowManager_init (RequestState.session_id parent)) out.2
    = [Yield RequestState.default []; Yield stored msgs] /\
    GrrMessage.type <$> msgs = reply_type <$> (payloads ++ [PStatus st]) /\
    complete (stored, msgs) = true.
Proof.
  intros Hparent Hrc Hid Hstored Hrows Hlim. cbv zeta.
  set (subject := FLOW_STATE_TEMPLATE (RequestState.session_id parent)) in *.
  destruct (send_replies_rows (payloads ++ [PStatus st]) c w parent Hparent)
    as (msgs & Hdb & Hids & Hreq & Htypes).
  { lia. }
  { fold subject. intros row i Hrow Hs Hi Hkey.
    assert (Hin : row ∈ subject_rows subject (db w)).
    { unfold subject_rows. apply elem_of_List_filter. split; [exact Hrow|].
      apply String.eqb_eq, Hs. }
    rewrite Hrows in Hin. apply elem_of_cons in Hin as [->|Hin];
      [|inversion Hin].
    cbn [fst snd] in Hkey. exact (request_key_not_response _ _ _ Hkey). }
  fold subject in Hdb. rewrite Hrc in Hids. cbn [Z.add] in Hids.
  assert (Hlen : length msgs = S (length payloads)).
  { rewrite <- (length_fmap GrrMessage.response_id), Hids.
    unfold consecutive. rewrite length_fmap, length_seq, length_app. cbn. lia. }
  exists msgs. split; [|split; [exact Htypes|]].
  - apply fetch_of_subject_rows.
    + fold subject. rewrite Hdb, subject_rows_app, Hrows. cbn [app].
      rewrite Hstored. constructor. unfold subject_rows.
      rewrite List_filter_all; [reflexivity|].
      intros row Hrow. apply list_elem_of_fmap in Hrow as (m & -> & _).
      apply String.eqb_refl.
    + lia.
    + rewrite Hstored. exact Hreq.
    + rewrite Hids, length_app, Hlen. cbn [length]. f_equal. lia.
    + lia.
  - unfold complete. cbn [fst snd]. rewrite Hstored.
    rewrite (proj2 (Z.eqb_neq _ _)) by lia. cbn [negb andb].
    destruct msgs as [|m msgs] using rev_ind; [discriminate Hlen|]. clear IHmsgs.
    rewrite last_snoc. rewrite !fmap_app in Htypes. rewrite fmap_app in Hids.
    cbn [fmap list_fmap] in Htypes, Hids.
    apply app_inj_tail in Htypes as [_ Hty].
    rewrite length_app in Hids. cbn [length] in Hids.
    rewrite Nat.add_1_r, consecutive_snoc in Hids.
    apply app_inj_tail in Hids as [_ Hlast].
    rewrite Hty, Hlast, bool_decide_eq_true_2 by reflexivity.
    rewrite length_app in Hlen |- *. cbn [length] in Hlen |- *.
    apply Z.eqb_eq. lia.
Qed.

(** ** How a flow ends *)

Lemma Error_replies (debug : bool) (for_client backtrace : option string)
    (c : Context) (w : World) :
  let out := Error debug for_client backtrace c w in
  exists added,
    journal out.2 = journal w ++ added /\
    (length (status_replies added) <= 1)%nat /\
    (IsRunning c = false -> status_replies added = [] /\ IsRunning out.1 = false) /\
    (status_replies added <> [] -> IsRunning out.1 = false).
Proof.
  cbv zeta. unfold Error. destruct (class c).
  - unfold HuntFlowContext_Error. cbn [fst snd].
    exists [FLOW_LogClientError for_client backtrace].
    split; [apply journal_record|]. split; [cbn; lia|].
    split; [intros Hrun; split; [reflexivity|exact Hrun]|].
    intros H. exfalso. apply H. reflexivity.
  - unfold FlowContext_Error. destruct (IsRunning c) eqn:Hrun.
    + set (reply := match backtrace with
                    | Some bt =>
                        if truthy bt
                        then GrrStatus.set_error_message bt
                               (GrrStatus.set_status GENERIC_ERROR GrrStatus.default)
                        else GrrStatus.set_status GENERIC_ERROR GrrStatus.default
                    | None => GrrStatus.set_status GENERIC_ERROR GrrStatus.default
                    end).
      pose proof (SendReply_status_journal reply (SetState ERROR c) w) as Hj.
      pose proof (SendReply_frame (PStatus reply) (SetState ERROR c) w)
        as (_ & _ & _ & _ & Hstate & _).
      destruct (SendReply (PStatus reply) (SetState ERROR c) w) as [c2 w2].
      cbn [fst snd] in *.
      assert (Hdead : forall c3, FlowPB.state (flow_pb c3) = ERROR ->
                                 IsRunning c3 = false).
      { intros c3 H3. unfold IsRunning. rewrite H3. reflexivity. }
      destruct debug; (eexists; split; [|split; [|split]];
        [rewrite !journal_record, Hj, <- !app_assoc; reflexivity
        |rewrite status_replies_app, status_replies_reply_calls;
         destruct (FlowPB.request_state _); cbn; lia
        |discriminate
        |intros _; apply Hdead;
         destruct backtrace as [bt|]; [destruct (truthy bt)|]; exact Hstate]).
    + exists []. rewrite app_nil_r. cbn [fst snd].
      split; [reflexivity|]. split; [cbn; lia|].
      split; [intros _; split; [reflexivity|exact Hrun]|].
      intros H. exfalso. apply H. reflexivity.
Qed.

Lemma Terminate_replies (c : Context) (w : World) :
  let out := Terminate c w in
  exists added,
    journal out.2 = journal w ++ added /\
    (length (status_replies added) <= 1)%nat /\
    (IsRunning c = false -> status_replies added = [] /\ IsRunning out.1 = false) /\
    IsRunning out.1 = false.
Proof.
  cbv zeta. pose proof (Terminate_shape c w) as (Hj & Hctx & _).
  eexists. split; [exact Hj|].
  assert (Hafter : IsRunning (Terminate c w).1 = false).
  { rewrite Hctx. destruct (IsRunning c) eqn:Hrun; [reflexivity|exact Hrun]. }
  rewrite !status_replies_app. destruct (IsRunning c) eqn:Hrun.
  - rewrite !status_replies_app, status_replies_reply_calls.
    split; [|split; [discriminate|exact Hafter]].
    destruct (more_data _ _); destruct (FlowPB.request_state _); cbn; lia.
  - split; [|split; [|exact Hafter]].
    + destruct (more_data _ _); cbn; lia.
    + intros _. split; [|exact Hafter]. destruct (more_data _ _); reflexivity.
Qed.

(** X17.  A flow is ended once.  Over any run of Error and Terminate calls
    on one context, of either class and in any order, at most one
    GrrStatus is sent to the parent, and none at all when the flow was not
    RUNNING at the start: the call that sends it takes the flow out of
    RUNNING, and every later call finds it so. *)
Theorem at_most_one_status_ends_a_flow (debug : bool) (endings : list Ending)
    (c : Context) (w : World) :
  let out := run_endings debug endings c w in
  exists added,
    journal out.2 = journal w ++ added /\
    (length (status_replies added) <= 1)%nat /\
    (IsRunning c = false ->
     status_replies added = [] /\ IsRunning out.1 = false).
Proof.
  cbv zeta. revert c w. induction endings as [|ending endings IH]; intros c w.
  - exists []. rewrite app_nil_r. cbn [run_endings fold_left fst snd].
    split; [reflexivity|]. split; [cbn; lia|]. auto.
  - unfold run_endings. cbn [fold_left fst snd].
    set (step := match ending with
                 | EndError for_client backtrace =>
                     Error debug for_client backtrace c w
                 | EndTerminate => Terminate c w
                 end).
    assert (Hstep : exists added,
               journal step.2 = journal w ++ added /\
               (length (status_replies added) <= 1)%nat /\
               (IsRunning c = false ->
                status_replies added = [] /\ IsRunning step.1 = false) /\
               (status_replies added <> [] -> IsRunning step.1 = false)).
    { subst step. destruct ending as [for_client backtrace|].
      - apply Error_replies.
      - destruct (Terminate_replies c w) as (added & Hj & Hle & Hdead & Hafter).
        exists added. auto. }
    destruct Hstep as (added1 & Hj1 & Hle1 & Hdead1 & Hsent1).
    destruct step as [c1 w1]. cbn [fst snd] in *.
    fold (run_endings debug endings c1 w1).
    destruct (IH c1 w1) as (added & Hj & Hle & Hdead).
    exists (added1 ++ added). split; [rewrite Hj, Hj1, app_assoc; reflexivity|].
    rewrite status_replies_app, length_app. split.
    + destruct (status_replies added1) as [|s1 rest] eqn:H1; [cbn; lia|].
      destruct (Hdead (Hsent1 ltac:(discriminate))) as (-> & _).
      cbn in *. lia.
    + intros Hrun. destruct (Hdead1 Hrun) as [-> Hrun1].
      destruct (Hdead Hrun1) as (-> & Hfinal). auto.
Qed.

(** ** From CallClient through FlushMessages to the next fetch *)


(** ** From CallFlow to the store *)

(** X19.  A child flow's request, from the call to the store.  After an
    accepted CallFlow on a context whose buffer was empty, with a factory
    whose child queues nothing and leaves the world alone, the buffer
    holds one RequestState: it has the outbound id, the flow name, the
    next state, response_count 0 and no client message; the child is
    recorded in children and one more request is outstanding.
    FlushMessages then sends nothing to any client and stores that request
    under its key: on a subject that held nothing, the request is the
    subject's only row, which is where a child's replies find it. *)
Theorem child_request_is_stored_not_sent
    (StartFlow : option string -> string -> string -> RequestState.t ->
                 list RequestState.t -> string -> World ->
                 string * list RequestState.t * World)
    (flow_name : string) (next_state : option string)
    (request_data : option (list (string * string)))
    (for_client : option string) (child : string) (c : Context) (w : World) :
  new_request_states c = [] ->
  (forall fc state,
     StartFlow fc flow_name (FlowPB.event_id (flow_pb c)) state []
       (queue_name c) w = (child, [], w)) ->
  (CallFlow StartFlow flow_name next_state request_data for_client c w).2
  = None ->
  no_rows_of (FLOW_STATE_TEMPLATE (session_id c)) (db w) = true ->
  let called := CallFlow StartFlow flow_name next_state request_data
                  for_client c w in
  let flushed := FlushMessages called.1.1 called.1.2 in
  exists state added,
    new_request_states called.1.1 = [state] /\
    RequestState.id state = next_outbound_id c /\
    RequestState.session_id state = session_id c /\
    RequestState.flow_name state = flow_name /\
    RequestState.next_state state = field_of next_state /\
    RequestState.response_count state = 0 /\
    RequestState.request state = GrrMessage.default /\
    FlowPB.children (flow_pb called.1.1)
    = FlowPB.children (flow_pb c) ++ [child] /\
    next_outbound_id called.1.1 = next_outbound_id c + 1 /\
    _outstanding_requests called.1.1 = _outstanding_requests c + 1 /\
    new_request_states flushed.1 = [] /\
    journal flushed.2 = journal w ++ added /\
    scheduled_tasks added = [] /\
    subject_rows (FLOW_STATE_TEMPLATE (session_id c)) (db flushed.2)
    = [(FLOW_STATE_TEMPLATE (session_id c),
        FLOW_REQUEST_TEMPLATE (next_outbound_id c), SerRequest state)].
Proof.
  intros Hempty Hfactory Haccepted Hfresh. cbv zeta.
  set (fc := match class c with
             | HuntFlowContext => for_client
             | FlowContext => opt_or for_client (client_id c)
             end).
  set (state := RequestState.mk (next_outbound_id c) (session_id c)
                  (field_of (opt_or fc (client_id c))) (field_of next_state)
                  flow_name 0 (default [] request_data) GrrMessage.default 0 0).
  assert (Hcall : CallFlow StartFlow flow_name next_state request_data
                    for_client c w
                  = (set_outstanding_requests (_outstanding_requests c + 1)
                       (set_flow_pb
                          (FlowPB.set_children
                             (FlowPB.children (flow_pb c) ++ [child])
                             (flow_pb c))
                          (set_new_request_states [state]
                             (set_next_outbound_id (next_outbound_id c + 1) c))),
                     w, None)).
  { assert (Hhunt : CallFlow StartFlow flow_name next_state request_data
                      for_client c w
                    = HuntFlowContext_CallFlow StartFlow flow_name next_state
                        request_data fc c w).
    { unfold CallFlow. subst fc. destruct (class c); reflexivity. }
    rewrite Hhunt in Haccepted |- *. unfold HuntFlowContext_CallFlow in *.
    destruct (process_requests_in_order (class c) && _); [discriminate|].
    unfold GetNextOutboundId. cbv zeta.
    cbn [new_request_states set_next_outbound_id flow_pb queue_name session_id
         client_id].
    rewrite Hempty, Hfactory. reflexivity. }
  rewrite Hcall. cbn [fst snd].
  unfold FlushMessages.
  cbn [new_request_states set_outstanding_requests set_flow_pb
       set_new_request_states length seq GroupBy fold_left group_insert deref
       lookup list_lookup default].
  change (id state) with state.
  assert (Hdest :
            flush_destination ([state], w)
              (RequestState.client_id state, [0%nat])
            = ([state],
               record (STATS_Add "grr_worker_requests_issued" 0)
                 (mkWorld (db w) (next_task_id w + 0)
                    (journal w ++ [SCHEDULER_Schedule [] true])))).
  { reflexivity. }
  rewrite Hdest. cbn [fst snd deref lookup list_lookup default].
  change (id state) with state.
  exists state. eexists.
  unfold flush_session. cbn [fst snd fold_left deref lookup list_lookup default].
  change (id state) with state.
  set (fm := QueueRequest (FlowManager_init (RequestState.session_id state))
               state).
  assert (Hwrite : map_to_list (FlowManager.to_write fm) = [request_entry state]).
  { subst fm. unfold QueueRequest, with_to_write, setdefault_append.
    cbn [FlowManager.to_write FlowManager_init]. rewrite lookup_empty.
    cbn [default app]. rewrite insert_empty, map_to_list_singleton.
    reflexivity. }
  do 11 (split; [reflexivity|]). split; [|split].
  - rewrite journal_Flush, journal_record. cbn [journal].
    rewrite <- !app_assoc. reflexivity.
  - reflexivity.
  - unfold Flush, SchedulerDelete, MultiSet. cbn [snd db record set_db].
    subst fm. cbn [QueueRequest with_to_write FlowManager.subject
                   FlowManager.to_delete FlowManager_init
                   RequestState.session_id state].
    fold (QueueRequest (FlowManager_init (session_id c)) state).
    unfold db_MultiSet.
    change (List.filter _ (db w))
      with (without (FLOW_STATE_TEMPLATE (session_id c)) [] (db w)).
    rewrite without_nothing.
    change (FlowManager.to_write
              (QueueRequest (FlowManager_init (session_id c)) state))
      with (FlowManager.to_write
              (QueueRequest (FlowManager_init (RequestState.session_id state))
                 state)).
    rewrite Hwrite. cbn [fold_left db_set request_entry snd fst last].
    rewrite List_filter_all.
    + rewrite subject_rows_app. unfold subject_rows at 1.
      rewrite List_filter_none.
      * cbn [app subject_rows List.filter fst snd]. rewrite String.eqb_refl.
        reflexivity.
      * intros row Hrow. apply String.eqb_neq.
        apply (no_rows_of_spec _ _ Hfresh), Hrow.
    + intros row Hrow.
      rewrite (proj2 (String.eqb_neq _ _) (no_rows_of_spec _ _ Hfresh row Hrow)).
      reflexivity.
Qed.

(** ** The further properties at work on the sample flows *)

(** X1 on request 26 and response 3. *)
Lemma keys_read_back_witness :
  FLOW_REQUEST_TEMPLATE 26 = "flow:request:0000001A" /\
  unhex (component2 (FLOW_REQUEST_TEMPLATE 26)) = 26 /\
  (unhex <$> drop 2 (split_colon (FLOW_RESPONSE_TEMPLATE 26 3))) = [26; 3].
Proof.
  split; [reflexivity|].
  destruct (keys_read_back 26 3 ltac:(lia) ltac:(lia)) as (_ & Hreq & Hresp & _).
  split; [exact Hreq|exact Hresp].
Defined.

(** X2 on requests 9 and 10, whose keys end in 9 and in A. *)
Lemma keys_sort_as_ids_witness :
  String.compare (FLOW_REQUEST_TEMPLATE 9) (FLOW_REQUEST_TEMPLATE 10) = Lt /\
  String.compare (FLOW_RESPONSE_TEMPLATE 9 255) (FLOW_RESPONSE_TEMPLATE 9 16)
  = Gt.
Proof.
  destruct (keys_sort_as_ids 9 10 255 16 ltac:(lia) ltac:(lia) ltac:(lia)
              ltac:(lia)) as (Hreq & _).
  destruct (keys_sort_as_ids 9 9 255 16 ltac:(lia) ltac:(lia) ltac:(lia)
              ltac:(lia)) as (_ & Hresp & _).
  split; [exact Hreq|exact Hresp].
Defined.

(** X4 on [child_context]: two data replies and a status get the response
    ids 1, 2, 3. *)
Lemma SendReply_ids_are_dense_witness :
  FlowPB.request_state (flow_pb child_context) = Some sample_parent /\
  FlowPB.request_state
    (flow_pb (send_replies [PProto "a"; PProto "b"; PStatus GrrStatus.default]
                child_context empty_world).1)
  = Some (RequestState.set_response_count 3 sample_parent).
Proof.
  split; [reflexivity|].
  destruct (SendReply_ids_are_dense
              [PProto "a"; PProto "b"; PStatus GrrStatus.default]
              child_context empty_world sample_parent eq_refl) as [Hcount _].
  exact Hcount.
Defined.

(** X5 on [dead_context] over [unanswered_world]: the stored request is
    removed and the context is handed back. *)
Lemma dead_flow_pass_only_deletes_witness :
  IsRunning dead_context = false /\
  (ProcessCompletedRequests quiet_flow false dead_context unanswered_world).1
  = dead_context /\
  db (ProcessCompletedRequests quiet_flow false dead_context unanswered_world).2
  = [].
Proof.
  split; [reflexivity|].
  destruct (dead_flow_pass_only_deletes quiet_flow false dead_context
              unanswered_world eq_refl) as (Hctx & _ & Hdb).
  split; [exact Hctx|]. rewrite Hdb. reflexivity.
Defined.

(** X7 on [idle_child] with [failing_end_flow]: the flow ends in ERROR. *)
Lemma End_failure_ends_the_flow_witness :
  End_method failing_end_flow idle_child empty_world
  = (idle_child, empty_world,
     Some "Traceback (most recent call last): KeyError") /\
  FlowPB.state
    (flow_pb (end_of_pass failing_end_flow false idle_child empty_world).1)
  = ERROR.
Proof.
  split; [reflexivity|].
  assert (Hstate : current_state idle_child <> "End") by discriminate.
  assert (Hbt : "Traceback (most recent call last): KeyError" <> "")
    by discriminate.
  destruct (End_failure_ends_the_flow failing_end_flow false idle_child
              idle_child empty_world empty_world
              "Traceback (most recent call last): KeyError"
              eq_refl eq_refl Hstate eq_refl Hbt eq_refl eq_refl)
    as (added & _ & _ & Hclass).
  exact (proj1 Hclass).
Defined.

(** X9 on [orphan_context]: a CallState with one payload is fetched back
    as request 3 with two responses. *)
Lemma CallState_is_fetched_back_witness :
  no_rows_of (FLOW_STATE_TEMPLATE (session_id orphan_context))
             (db parent_world) = false /\
  no_rows_of (FLOW_STATE_TEMPLATE (session_id orphan_context))
             (db two_client_world) = true /\
  length
    (FetchRequestsAndResponses (FlowManager_init (session_id orphan_context))
       (CallState any_state (Some [PProto "a"]) "Done" None orphan_context
          two_client_world).1.2)
  = 2%nat.
Proof.
  split; [reflexivity|]. split; [reflexivity|].
  rewrite (CallState_is_fetched_back any_state (Some [PProto "a"]) "Done" None
             orphan_context two_client_world eq_refl ltac:(reflexivity)
             ltac:(reflexivity) eq_refl).
  reflexivity.
Defined.

(** X10 on [orphan_context] with its cursor moved to 3, the outbound id
    the call uses. *)
Lemma CallState_is_dispatched_witness :
  next_processed_request (set_next_processed_request 3 orphan_context)
  = next_outbound_id (set_next_processed_request 3 orphan_context) /\
  (scan quiet_flow false
     (FetchRequestsAndResponses (FlowManager_init ordered_session)
        (CallState any_state None "Done" None
           (set_next_processed_request 3 orphan_context) two_client_world).1.2)
     (mkPass
        (CallState any_state None "Done" None
           (set_next_processed_request 3 orphan_context) two_client_world).1.1
        (FlowManager_init ordered_session)
        (CallState any_state None "Done" None
           (set_next_processed_request 3 orphan_context) two_client_world).1.2
        [])).2
  = Exhausted.
Proof.
  split; [reflexivity|].
  destruct (CallState_is_dispatched quiet_flow false any_state None "Done" None
              (set_next_processed_request 3 orphan_context) two_client_world
              eq_refl ltac:(reflexivity) ltac:(reflexivity) eq_refl eq_refl
              (or_intror eq_refl)) as (_ & _ & _ & Hexit).
  exact Hexit.
Defined.

(** X11 on [dead_context] over [unanswered_world]. *)
Lemma dead_flow_pass_leaves_no_request_witness :
  well_keyed (FLOW_STATE_TEMPLATE (session_id dead_context))
             (db unanswered_world) = true /\
  request_rows (FlowManager_init (session_id dead_context))
    (ProcessCompletedRequests quiet_flow false dead_context unanswered_world).2
  = [].
Proof.
  split; [reflexivity|].
  destruct (dead_flow_pass_leaves_no_request quiet_flow false dead_context
              unanswered_world eq_refl ltac:(vm_compute; reflexivity) eq_refl)
    as [Hnone _].
  exact Hnone.
Defined.

(** X13 on three draws: 5 is reserved, 2^32 + 7 reduces to 7, which is
    reserved too, and 70000 is taken. *)
Lemma session_id_names_its_queue_witness :
  _GetNewSessionID DEFAULT_WORKER_QUEUE_NAME [5; 4294967303; 70000]
  = Some "W:11170" /\
  exists session,
    _GetNewSessionID DEFAULT_WORKER_QUEUE_NAME [5; 4294967303; 70000]
    = Some session /\
    split_colon session = ["W"; "11170"].
Proof.
  split; [reflexivity|].
  assert (Hex : Exists (fun draw => RESERVED_RANGE < draw mod 2 ^ 32)
                       [5; 4294967303; 70000]).
  { apply Exists_cons_tl, Exists_cons_tl, Exists_cons_hd. reflexivity. }
  destruct (session_id_names_its_queue DEFAULT_WORKER_QUEUE_NAME
              [5; 4294967303; 70000] Hex eq_refl)
    as (session & value & Hsession & _ & Hvalue & _ & Hsplit & _).
  exists session. split; [exact Hsession|].
  injection Hvalue as <-. exact Hsplit.
Defined.


(** X15 on [orphan_context] over [unanswered_world]: request 1 waits. *)
Lemma pass_without_responses_changes_nothing_witness :
  Flow_OutstandingRequests orphan_context = 2 /\
  (ProcessCompletedRequests quiet_flow false orphan_context unanswered_world).1
  = orphan_context /\
  journal
    (ProcessCompletedRequests quiet_flow false orphan_context
       unanswered_world).2
  = [DB_MultiSet (FLOW_STATE_TEMPLATE ordered_session) ∅ [] true;
     SCHEDULER_Delete None []].
Proof.
  split; [reflexivity|].
  assert (Hout : Flow_OutstandingRequests orphan_context <> 0
                 \/ more_data (FlowManager_init (session_id orphan_context))
                              unanswered_world = true)
    by (left; discriminate).
  assert (Hnone : Forall (fun pair : RequestState.t * list GrrMessage.t =>
                            pair.2 = [])
                         (fetched (FlowManager_init (session_id orphan_context))
                                  unanswered_world)).
  { vm_compute. repeat constructor. }
  destruct (pass_without_responses_changes_nothing quiet_flow false
              orphan_context unanswered_world eq_refl Hout Hnone)
    as (Hctx & _ & Hj).
  split; [exact Hctx|]. rewrite Hj. vm_compute. reflexivity.
Defined.

(** X16 on [child_context] over [parent_world]: two data replies and the
    closing status come back as request 4 with three responses. *)
Lemma replies_reach_the_parent_witness :
  subject_rows (FLOW_STATE_TEMPLATE "W:AAAA0001") (db parent_world)
  = [(FLOW_STATE_TEMPLATE "W:AAAA0001", FLOW_REQUEST_TEMPLATE 4,
      SerRequest sample_parent)] /\
  exists msgs,
    FetchRequestsAndResponses (FlowManager_init "W:AAAA0001")
      (send_replies [PProto "a"; PProto "b"; PStatus GrrStatus.default]
         child_context parent_world).2
    = [Yield RequestState.default []; Yield sample_parent msgs] /\
    GrrMessage.type <$> msgs = [MESSAGE; MESSAGE; STATUS].
Proof.
  split; [reflexivity|].
  destruct (replies_reach_the_parent [PProto "a"; PProto "b"] GrrStatus.default
              child_context parent_world sample_parent sample_parent
              eq_refl eq_refl ltac:(reflexivity) eq_refl eq_refl
              ltac:(reflexivity)) as (msgs & Hfetch & Htypes & _).
  exists msgs. split; [exact Hfetch|exact Htypes].
Defined.


(** X19 on [orphan_context] with [quiet_factory]: a CallFlow without
    next_state. *)
Lemma child_request_is_stored_not_sent_witness :
  (CallFlow quiet_factory "Child" None None None orphan_context
     two_client_world).2 = None /\
  FlowPB.children
    (flow_pb (CallFlow quiet_factory "Child" None None None orphan_context
                two_client_world).1.1)
  = ["W:C0FFEE01"] /\
  length
    (subject_rows (FLOW_STATE_TEMPLATE (session_id orphan_context))
       (db (FlushMessages
              (CallFlow quiet_factory "Child" None None None orphan_context
                 two_client_world).1.1
              (CallFlow quiet_factory "Child" None None None orphan_context
                 two_client_world).1.2).2))
  = 1%nat.
Proof.
  split; [reflexivity|].
  destruct (child_request_is_stored_not_sent quiet_factory "Child" None None
              None "W:C0FFEE01" orphan_context two_client_world eq_refl
              (fun _ _ => eq_refl) eq_refl eq_refl)
    as (state & added & _ & _ & _ & _ & _ & _ & _ & Hchildren & _ & _ & _ & _
        & _ & Hrows).
  split; [exact Hchildren|]. rewrite Hrows. reflexivity.
Defined.
